(** * The Andor spectrometer controller: connection and configuration

    A shallow embedding of [AndorSpectrometerController]
    (src/qdlutils/hardware/spectrometers/andor_spectrometer.py):
    the methods [clock_rate], [start], [stop], [open], [close],
    [sample_spectrum], [configure] and
    [update_config_dict_from_current_values].

    Python values are modelled by [PyVal], dictionaries by finite maps that
    live in a heap of objects (so that two names for one dictionary are one
    location), exceptions by the type [exn], and every method by a function
    from a controller state to an outcome and a new state.  The vendor
    binding ([andor.AndorSpectrometerConfig] and
    [andor.AndorSpectrometerDataAcquisition]) is an interface, [DeviceAdapter],
    over which the development is parametric.

    Every call made on the adapter and every record handed to the logger is
    kept, in order, in the [trace] of the state, so that what a method did
    can be told from the state it leaves.  [sample_spectrum] is modelled
    over an interface of its own, [Acquisition]; the configuration window
    and the thread that opens the connection from it are not part of the
    development. *)

From Stdlib Require Import ZArith Floats Ascii String.
From stdpp Require Import gmap strings pretty list fin_maps.

Local Open Scope string_scope.
Local Open Scope list_scope.
Local Open Scope Z_scope.

(** ** Python values *)

(** The values a configuration dictionary holds: what a YAML file, the
    configuration window or the device hands over.  A Python [float] is an
    IEEE 754 binary64 number, as is Rocq's primitive [float]. *)
Inductive PyVal : Type :=
| PyNone
| PyBool (b : bool)
| PyInt (n : Z)
| PyFloat (f : float)
| PyStr (s : string).

(** What CPython's [ValueError] message tells: the kind of conversion and
    the text that was rejected (["invalid literal for int() with base 10: "]
    followed by the text, ["could not convert string to float: "] followed by
    the text, ["cannot convert float NaN to integer"]). *)
Inductive value_error : Type :=
| InvalidIntLiteral (text : string)
| InvalidFloatLiteral (text : string)
| FloatNaNToInt.

Inductive exn : Type :=
| KeyError (key : string)
| ValueError (what : value_error)
| TypeError
| IndexError
| OverflowError
| RuntimeError (msg : string)
| RecursionError
| DeviceFault (code : Z).

(** [x is None] *)
Definition is_None (v : PyVal) : bool :=
  match v with PyNone => true | _ => false end.

(** [isinstance(x, str)] *)
Definition is_str (v : PyVal) : bool :=
  match v with PyStr _ => true | _ => false end.

(** [x == name] for a string constant [name]: values of other types are
    never equal to a string. *)
Definition py_eq_str (v : PyVal) (name : string) : bool :=
  match v with PyStr s => String.eqb s name | _ => false end.

(** ** Numbers *)

Module Num.

(** [float(n)] for an integer: the nearest binary64 number, ties to even;
    [OverflowError] when it is out of range. *)
Definition float_of_Z (n : Z) : exn + float :=
  match binary_normalize prec emax n 0 false with
  | S754_infinity _ => inl OverflowError
  | sf => inr (SF2Prim sf)
  end.

(** [int(f)] for a float: truncation towards zero. *)
Definition Z_of_float (f : float) : exn + Z :=
  match Prim2SF f with
  | S754_nan => inl (ValueError FloatNaNToInt)
  | S754_infinity _ => inl OverflowError
  | S754_zero _ => inr 0
  | S754_finite s m e =>
      let a := if (0 <=? e) then Z.pos m * 2 ^ e else Z.pos m / 2 ^ (- e) in
      inr (if s then - a else a)
  end.

(** [a / b] for two integers, [b] not zero: the quotient rounded once to
    the nearest binary64 number.  The quotient of the magnitudes is
    computed with at least 55 significant bits and one more bit that
    records a non-zero remainder, which decides the rounding. *)
Definition Z_truediv (a b : Z) : exn + float :=
  let s := xorb (a <? 0) (b <? 0) in
  let a' := Z.abs a in
  let b' := Z.abs b in
  if a' =? 0 then inr (if s then PrimFloat.neg_zero else PrimFloat.zero)
  else
    let k := Z.max 0 (56 + Z.log2 b' - Z.log2 a') in
    let q := (a' * 2 ^ k) / b' in
    let r := (a' * 2 ^ k) mod b' in
    let m := 2 * q + (if r =? 0 then 0 else 1) in
    match binary_normalize prec emax (if s then - m else m) (- k - 1) false with
    | S754_infinity _ => inl OverflowError
    | sf => inr (SF2Prim sf)
    end.

Definition Z_of_bool (b : bool) : Z := if b then 1 else 0.

End Num.

(** [n] copies of [s], none when [n <= 0]. *)
Definition str_repeat (s : string) (n : Z) : string :=
  String.concat "" (repeat s (Z.to_nat n)).

(** The largest index, [sys.maxsize] of a 64-bit build. *)
Definition max_index : Z := 2 ^ 63 - 1.

(** [s * n] for a string and an integer: [OverflowError] where [n] is no
    index, the empty string where [n < 1], [OverflowError] again where
    the copies together would be longer than any index.  (A text too
    long for the memory at hand is not returned either: [MemoryError];
    no statement below depends on the text that is returned.) *)
Definition py_str_mul (s : string) (n : Z) : exn + PyVal :=
  if (n <? - max_index - 1) || (max_index <? n) then inl OverflowError
  else if n <? 1 then inr (PyStr "")
  else if max_index / n <? Z.of_nat (String.length s) then inl OverflowError
  else inr (PyStr (str_repeat s n)).

(** [x * y], as [exposure_time *= ...] computes it. *)
Definition py_mul (x y : PyVal) : exn + PyVal :=
  let as_int v := match v with
                  | PyInt n => Some n
                  | PyBool b => Some (Num.Z_of_bool b)
                  | _ => None
                  end in
  match x, y with
  | PyFloat f, PyFloat g => inr (PyFloat (f * g)%float)
  | PyFloat f, (PyInt _ | PyBool _) =>
      match as_int y with
      | Some n => match Num.float_of_Z n with
                  | inr g => inr (PyFloat (f * g)%float)
                  | inl e => inl e
                  end
      | None => inl TypeError
      end
  | (PyInt _ | PyBool _), PyFloat g =>
      match as_int x with
      | Some n => match Num.float_of_Z n with
                  | inr f => inr (PyFloat (f * g)%float)
                  | inl e => inl e
                  end
      | None => inl TypeError
      end
  | (PyInt _ | PyBool _), (PyInt _ | PyBool _) =>
      match as_int x, as_int y with
      | Some n, Some m => inr (PyInt (n * m))
      | _, _ => inl TypeError
      end
  | PyStr s, (PyInt _ | PyBool _) =>
      match as_int y with
      | Some n => py_str_mul s n
      | None => inl TypeError
      end
  | (PyInt _ | PyBool _), PyStr s =>
      match as_int x with
      | Some n => py_str_mul s n
      | None => inl TypeError
      end
  | _, _ => inl TypeError
  end.

(** [x > 0] *)
Definition py_gt_zero (x : PyVal) : exn + bool :=
  match x with
  | PyFloat f => inr (0 <? f)%float
  | PyInt n => inr (0 <? n)
  | PyBool b => inr b
  | _ => inl TypeError
  end.

(** [1 / x], evaluated only where [x > 0] holds. *)
Definition py_one_div (x : PyVal) : exn + PyVal :=
  match x with
  | PyFloat f => inr (PyFloat (1 / f)%float)
  | PyInt n => match Num.Z_truediv 1 n with
               | inr f => inr (PyFloat f)
               | inl e => inl e
               end
  | PyBool b => match Num.Z_truediv 1 (Num.Z_of_bool b) with
                | inr f => inr (PyFloat f)
                | inl e => inl e
                end
  | _ => inl TypeError
  end.

(** ** Text *)

Module Text.

Definition code (c : ascii) : N := N_of_ascii c.

(** The characters [int] passes over around the digits of an ASCII text:
    tab, line feed, vertical tab, form feed, carriage return and space. *)
Definition is_space (c : ascii) : bool :=
  let n := code c in
  ((9 <=? n) && (n <=? 13) || (n =? 32))%N.

Definition is_digit (c : ascii) : bool :=
  let n := code c in ((48 <=? n) && (n <=? 57))%N.

Definition digit_value (c : ascii) : Z := Z.of_N (code c) - 48.

Fixpoint lstrip (l : list ascii) : list ascii :=
  match l with
  | c :: l' => if is_space c then lstrip l' else l
  | [] => []
  end.

Definition strip (l : list ascii) : list ascii :=
  rev (lstrip (rev (lstrip l))).

(** Decimal digits, where a single underscore may stand between two
    digits. [seen] tells that the previous character was a digit. *)
Fixpoint digits (acc : Z) (seen : bool) (l : list ascii) : option Z :=
  match l with
  | [] => if seen then Some acc else None
  | c :: l' =>
      if is_digit c then digits (10 * acc + digit_value c) true l'
      else if Ascii.eqb c "_"%char then
        match seen, l' with
        | true, d :: _ => if is_digit d then digits acc false l' else None
        | _, _ => None
        end
      else None
  end.

(** [int(s)] for an ASCII text, base ten.  Two things [int] does are
    left out: it takes the decimal digits of other scripts too, and
    (CPython 3.11 on, by default) it raises [ValueError] for a text of
    more than 4300 digits. *)
Definition int_of_str (s : string) : option Z :=
  match strip (list_ascii_of_string s) with
  | c :: l =>
      if Ascii.eqb c "-"%char then Z.opp <$> digits 0 false l
      else if Ascii.eqb c "+"%char then digits 0 false l
      else digits 0 false (c :: l)
  | [] => None
  end.

(** [s[1:-1]] *)
Definition slice_1_m1 (s : string) : string :=
  string_of_list_ascii (removelast (tl (list_ascii_of_string s))).

(** [s.replace(' ', '')] *)
Definition remove_spaces (s : string) : string :=
  string_of_list_ascii
    (filter (λ c, negb (Ascii.eqb c " "%char)) (list_ascii_of_string s)).

(** [s.split(',')]: the pieces between the commas, at least one. *)
Fixpoint split_commas (cur : list ascii) (l : list ascii) : list string :=
  match l with
  | [] => [string_of_list_ascii (rev cur)]
  | c :: l' =>
      if Ascii.eqb c ","%char
      then string_of_list_ascii (rev cur) :: split_commas [] l'
      else split_commas (c :: cur) l'
  end.

Definition split (s : string) : list string :=
  split_commas [] (list_ascii_of_string s).

End Text.

(** The runtime's conversions between floats and text: [float(s)] for a
    string ([None] where it raises [ValueError]), [repr] of a float and
    [repr] of a string.  The development does not depend on what they
    return. *)
Class PyRuntime := {
  float_of_str : string → option float;
  float_repr : float → string;
  str_repr : string → string;
}.

Section Conversions.
Context `{PyRuntime}.

(** [int(x)] *)
Definition py_int (x : PyVal) : exn + Z :=
  match x with
  | PyNone => inl TypeError
  | PyBool b => inr (Num.Z_of_bool b)
  | PyInt n => inr n
  | PyFloat f => Num.Z_of_float f
  | PyStr s => match Text.int_of_str s with
               | Some n => inr n
               | None => inl (ValueError (InvalidIntLiteral s))
               end
  end.

(** [float(x)] *)
Definition py_float (x : PyVal) : exn + float :=
  match x with
  | PyNone => inl TypeError
  | PyBool b => Num.float_of_Z (Num.Z_of_bool b)
  | PyInt n => Num.float_of_Z n
  | PyFloat f => inr f
  | PyStr s => match float_of_str s with
               | Some f => inr f
               | None => inl (ValueError (InvalidFloatLiteral s))
               end
  end.

(** [str(x)].  For an integer of more than 4300 digits [str] raises
    [ValueError] instead (CPython 3.11 on, by default): the integers a
    device reports are taken to be shorter. *)
Definition py_str (x : PyVal) : string :=
  match x with
  | PyNone => "None"
  | PyBool b => if b then "True" else "False"
  | PyInt n => pretty n
  | PyFloat f => float_repr f
  | PyStr s => s
  end.

(** [repr(x)]: as [str], but a string is quoted. *)
Definition py_repr (x : PyVal) : string :=
  match x with
  | PyStr s => str_repr s
  | _ => py_str x
  end.

(** [str((a, b, c))] *)
Definition str_tuple3 (a b c : PyVal) : string :=
  "(" +:+ py_repr a +:+ ", " +:+ py_repr b +:+ ", " +:+ py_repr c +:+ ")".

(** [x[i]] for a list of strings *)
Definition py_index (l : list string) (i : nat) : exn + PyVal :=
  match l !! i with
  | Some s => inr (PyStr s)
  | None => inl IndexError
  end.

(** [hss_value[1:-1].replace(' ', '').split(',')]: only a string has a
    slice and [replace]. *)
Definition hss_pieces (x : PyVal) : exn + list string :=
  match x with
  | PyStr s => inr (Text.split (Text.remove_spaces (Text.slice_1_m1 s)))
  | _ => inl TypeError
  end.

End Conversions.

(** ** The device adapter *)

(** The attributes of [spectrometer_config] (and, for the last one, of
    [spectrometer_daq]) that [configure] assigns and
    [update_config_dict_from_current_values] reads, a scalar each.  The
    single-track parameters are an object of two attributes and have
    operations of their own. *)
Inductive dev_field : Type :=
| ccd_device_index | spg_device_index
| current_grating | center_wavelength
| pixel_offset | wavelength_offset
| input_port | output_port
| read_mode | acquisition_mode | trigger_mode
| exposure_time | number_of_accumulations | accumulation_cycle_time
| number_of_kinetics | kinetic_cycle_time
| baseline_clamp | remove_cosmic_rays | keep_clean_on_external_trigger
| vertical_shift_speed
| ad_channel | output_amplifier | horizontal_shift_speed
| pre_amp_gain
| sensor_temperature_set_point | reach_temperature_before_acquisition
| cooler | cooler_persistence_mode.

(** The vendor binding, as the controller uses it.  The connection state is
    whatever [is_open] reports.  A setter may raise, and may store another
    value than the one it is given; [open] and [close] return nothing and
    do not raise, their success shows in [is_open] alone. *)
Class DeviceAdapter (D : Type) := {
  dev_open : D → D;                     (* spectrometer_config.open() *)
  dev_close : D → D;                    (* spectrometer_config.close() *)
  dev_is_open : D → bool;               (* spectrometer_config.is_open *)
  daq_close : D → D;                    (* spectrometer_daq.close() *)
  daq_stop_waiting : D → D;
    (* spectrometer_daq.stop_waiting_to_reach_temperature() *)
  daq_wait_for_temperature : D → D;
    (* spectrometer_daq.wait_for_target_temperature_if_necessary() *)
  dev_set : dev_field → PyVal → D → exn + D;
  dev_get : dev_field → D → PyVal;
  dev_set_single_track : PyVal → PyVal → D → exn + D;
    (* ...single_track_read_mode_parameters =
         andor.SingleTrackReadModeParameters(row, height) *)
  dev_get_single_track : D → PyVal * PyVal;
    (* (track_center_row, track_height) of
       ...single_track_read_mode_parameters *)
}.

(** The place of an attribute in the order in which [configure] assigns
    them; place 19 is that of the single-track parameters. *)
Definition write_order (f : dev_field) : nat :=
  match f with
  | ccd_device_index => 0 | spg_device_index => 1
  | current_grating => 2 | center_wavelength => 3
  | pixel_offset => 4 | wavelength_offset => 5
  | input_port => 6 | output_port => 7
  | read_mode => 8 | acquisition_mode => 9 | trigger_mode => 10
  | exposure_time => 11 | number_of_accumulations => 12
  | accumulation_cycle_time => 13
  | number_of_kinetics => 14 | kinetic_cycle_time => 15
  | baseline_clamp => 16 | remove_cosmic_rays => 17
  | keep_clean_on_external_trigger => 18
  | vertical_shift_speed => 20
  | ad_channel => 21 | output_amplifier => 22 | horizontal_shift_speed => 23
  | pre_amp_gain => 24
  | sensor_temperature_set_point => 25
  | reach_temperature_before_acquisition => 26
  | cooler => 27 | cooler_persistence_mode => 28
  end%nat.

(** ** Controller state *)

Inductive level : Type := DEBUG | INFO | ERROR.

(** What a run leaves behind, oldest first: the records handed to the
    logger and the calls made on the adapter.  Reading [is_open] is not
    recorded. *)
Inductive event : Type :=
| EvLog (lvl : level) (msg : string)
| EvConnect
| EvDisconnect
| EvDaqClose
| EvStopWaiting
| EvWaitTemperature
| EvSet (f : dev_field) (v : PyVal)
| EvSetSingleTrack (row height : PyVal)
| EvGet (f : dev_field)
| EvGetSingleTrack.

Definition loc := nat.

(** The controller object and the dictionaries it can reach.  [heap] maps
    the location of a dictionary object to its contents (an unused location
    reads as the empty dictionary), [next_loc] is the next unused location,
    [last_config_dict] is where the attribute of that name points and [dev]
    is the adapter behind [spectrometer_config] and [spectrometer_daq]. *)
Record state (D : Type) : Type := mkState {
  heap : gmap loc (gmap string PyVal);
  next_loc : loc;
  last_config_dict : loc;
  dev : D;
  trace : list event;
}.
Arguments mkState {D}.
Arguments heap {D}.
Arguments next_loc {D}.
Arguments last_config_dict {D}.
Arguments dev {D}.
Arguments trace {D}.

(** The dictionary at a location. *)
Definition deref {D} (st : state D) (l : loc) : gmap string PyVal :=
  heap st !!! l.

(** The Configuration Store: the contents of [self.last_config_dict]. *)
Definition store {D} (st : state D) : gmap string PyVal :=
  deref st (last_config_dict st).

Definition set_heap {D} (h : gmap loc (gmap string PyVal)) (st : state D) : state D :=
  mkState h (next_loc st) (last_config_dict st) (dev st) (trace st).

Definition set_dev {D} (d : D) (st : state D) : state D :=
  mkState (heap st) (next_loc st) (last_config_dict st) d (trace st).

Definition add_event {D} (e : event) (st : state D) : state D :=
  mkState (heap st) (next_loc st) (last_config_dict st) (dev st) (trace st ++ [e]).

(** [__init__]: an empty [last_config_dict]. *)
Definition init {D} (d : D) : state D :=
  mkState {[ 0%nat := ∅ ]} 1%nat 0%nat d [].

(** A dictionary the caller builds: a new object at the next location. *)
Definition new_dict {D} (c : gmap string PyVal) (st : state D) : state D :=
  mkState (<[next_loc st := c]> (heap st)) (S (next_loc st))
    (last_config_dict st) (dev st) (trace st).

(** ** Computations: state and exceptions *)

(** A method body: from a state to what it returns or raises, and the state
    it leaves.  What was done before an exception stays done. *)
Definition M (D A : Type) : Type := state D → (exn + A) * state D.

Definition ret {D A} (a : A) : M D A := λ st, (inr a, st).

Definition raise {D A} (e : exn) : M D A := λ st, (inl e, st).

Definition bind {D A B} (m : M D A) (k : A → M D B) : M D B :=
  λ st, match m st with
        | (inr a, st') => k a st'
        | (inl e, st') => (inl e, st')
        end.

Notation "x <- m ;; k" := (bind m (λ x, k))
  (at level 100, m at next level, right associativity).
Notation "m ;; k" := (bind m (λ _, k))
  (at level 100, right associativity).

Definition lift {D A} (r : exn + A) : M D A := λ st, (r, st).

Section Primitives.
Context {D : Type} `{DeviceAdapter D}.

Definition emit (e : event) : M D unit := λ st, (inr tt, add_event e st).

Definition log (lvl : level) (msg : string) : M D unit := emit (EvLog lvl msg).

Definition get_last_config_dict : M D loc := λ st, (inr (last_config_dict st), st).

(** [bool(d)]: a dictionary is true when it is not empty. *)
Definition dict_truth (l : loc) : M D bool :=
  λ st, (inr (negb (Nat.eqb (size (deref st l)) 0)), st).

(** [d.get(key, default)] *)
Definition dict_get (l : loc) (key : string) (dflt : PyVal) : M D PyVal :=
  λ st, (inr (default dflt (deref st l !! key)), st).

(** [d[key]] *)
Definition dict_getitem (l : loc) (key : string) : M D PyVal :=
  λ st, match deref st l !! key with
        | Some v => (inr v, st)
        | None => (inl (KeyError key), st)
        end.

(** [d[key] = v] *)
Definition dict_setitem (l : loc) (key : string) (v : PyVal) : M D unit :=
  λ st, (inr tt, set_heap (<[l := <[key := v]> (deref st l)]> (heap st)) st).

(** [d.update(other)]: the entries of [other] win. *)
Definition dict_update (l other : loc) : M D unit :=
  λ st, (inr tt, set_heap (<[l := deref st other ∪ deref st l]> (heap st)) st).

(** [d.copy()]: a new object with the same entries. *)
Definition dict_copy (l : loc) : M D loc :=
  λ st, (inr (next_loc st),
         mkState (<[next_loc st := deref st l]> (heap st)) (S (next_loc st))
                 (last_config_dict st) (dev st) (trace st)).

(** The keys [for key in d] visits. *)
Definition dict_keys (l : loc) : M D (list string) :=
  λ st, (inr (map_to_list (deref st l)).*1, st).

(** [for x in xs: body(x)] *)
Fixpoint for_each {A} (xs : list A) (body : A → M D unit) : M D unit :=
  match xs with
  | [] => ret tt
  | x :: xs' => body x ;; for_each xs' body
  end.

Definition is_open : M D bool := λ st, (inr (dev_is_open (dev st)), st).

(** A call on the adapter that returns nothing and does not raise. *)
Definition call (e : event) (f : D → D) : M D unit :=
  λ st, (inr tt, set_dev (f (dev st)) (add_event e st)).

(** [spectrometer_config.f = v] *)
Definition assign (f : dev_field) (v : PyVal) : M D unit :=
  λ st, let st' := add_event (EvSet f v) st in
        match dev_set f v (dev st) with
        | inr d => (inr tt, set_dev d st')
        | inl e => (inl e, st')
        end.

Definition assign_single_track (row height : PyVal) : M D unit :=
  λ st, let st' := add_event (EvSetSingleTrack row height) st in
        match dev_set_single_track row height (dev st) with
        | inr d => (inr tt, set_dev d st')
        | inl e => (inl e, st')
        end.

(** [spectrometer_config.f] *)
Definition read (f : dev_field) : M D PyVal :=
  λ st, (inr (dev_get f (dev st)), add_event (EvGet f) st).

Definition read_single_track : M D (PyVal * PyVal) :=
  λ st, (inr (dev_get_single_track (dev st)), add_event EvGetSingleTrack st).

End Primitives.

(** ** The controller *)

Section Controller.
Context {D : Type} `{DeviceAdapter D} `{PyRuntime}.

(** [np.nan] *)
Definition np_nan : PyVal := PyFloat nan.

(** The property [clock_rate].  [AcquisitionMode.ACCUMULATE.name] and
    [AcquisitionMode.KINETICS.name] are the strings of these names. *)
Definition clock_rate : M D PyVal :=
  d <- get_last_config_dict;;
  exposure_time <- dict_get d "exposure_time" np_nan;;
  mode <- dict_get d "acquisition_mode" PyNone;;
  exposure_time <-
    (if py_eq_str mode "ACCUMULATE" then
       n <- dict_get d "number_of_accumulations" np_nan;;
       lift (py_mul exposure_time n)
     else
       mode' <- dict_get d "acquisition_mode" PyNone;;
       if py_eq_str mode' "KINETICS" then
         n <- dict_get d "number_of_accumulations" np_nan;;
         exposure_time <- lift (py_mul exposure_time n);;
         k <- dict_get d "number_of_kinetics" np_nan;;
         lift (py_mul exposure_time k)
       else ret exposure_time);;
  positive <- lift (py_gt_zero exposure_time);;
  if positive then lift (py_one_div exposure_time) else ret np_nan.

(** [close] *)
Definition close : M D bool :=
  o <- is_open;;
  if negb o then
    log INFO "Andor Spectrometer is already closed.";;
    ret true
  else
    log INFO "Closing Andor Spectrometer";;
    call EvDaqClose daq_close;;
    call EvDisconnect dev_close;;
    o' <- is_open;;
    let connection_status := negb o' in
    (if connection_status
     then log INFO "Closing Andor Spectrometer was successful."
     else log INFO "Closing Andor Spectrometer failed.");;
    ret connection_status.

(** [update_config_dict_from_current_values] *)
Definition update_config_dict_from_current_values : M D unit :=
  d <- get_last_config_dict;;
  v <- read ccd_device_index;; dict_setitem d "ccd_device_index" (PyStr (py_str v));;
  v <- read spg_device_index;; dict_setitem d "spg_device_index" (PyStr (py_str v));;
  v <- read current_grating;; dict_setitem d "grating" v;;
  v <- read center_wavelength;; dict_setitem d "center_wavelength" v;;
  v <- read pixel_offset;; dict_setitem d "pixel_offset" v;;
  v <- read wavelength_offset;; dict_setitem d "wavelength_offset" v;;
  v <- read input_port;; dict_setitem d "input_port" v;;
  v <- read output_port;; dict_setitem d "output_port" v;;
  v <- read read_mode;; dict_setitem d "read_mode" v;;
  v <- read acquisition_mode;; dict_setitem d "acquisition_mode" v;;
  v <- read trigger_mode;; dict_setitem d "trigger_mode" v;;
  v <- read exposure_time;; dict_setitem d "exposure_time" v;;
  v <- read number_of_accumulations;; dict_setitem d "number_of_accumulations" v;;
  v <- read accumulation_cycle_time;; dict_setitem d "accumulation_cycle_time" v;;
  v <- read number_of_kinetics;; dict_setitem d "number_of_kinetics" v;;
  v <- read kinetic_cycle_time;; dict_setitem d "kinetic_cycle_time" v;;
  v <- read baseline_clamp;; dict_setitem d "baseline_clamp" v;;
  v <- read remove_cosmic_rays;; dict_setitem d "cosmic_ray_removal" v;;
  v <- read keep_clean_on_external_trigger;;
  dict_setitem d "keep_clean_on_external_trigger" v;;
  p <- read_single_track;; dict_setitem d "single_track_center_row" (fst p);;
  p <- read_single_track;; dict_setitem d "single_track_height" (snd p);;
  v <- read vertical_shift_speed;;
  dict_setitem d "vertical_shift_speed" (PyStr (py_str v));;
  a <- read ad_channel;;
  b <- read output_amplifier;;
  c <- read horizontal_shift_speed;;
  dict_setitem d "horizontal_shift_speed" (PyStr (str_tuple3 a b c));;
  v <- read pre_amp_gain;; dict_setitem d "pre_amp_gain" (PyStr (py_str v));;
  v <- read sensor_temperature_set_point;;
  dict_setitem d "target_sensor_temperature" v;;
  v <- read reach_temperature_before_acquisition;;
  dict_setitem d "reach_temperature_before_acquisition" v;;
  v <- read cooler;; dict_setitem d "cooler" v;;
  v <- read cooler_persistence_mode;; dict_setitem d "cooler_persistence" v.

(** [int(value) if value is not None else -1] *)
Definition device_index (value : PyVal) : exn + PyVal :=
  if is_None value then inr (PyInt (-1))
  else match py_int value with
       | inr n => inr (PyInt n)
       | inl e => inl e
       end.

Definition int_val (v : PyVal) : exn + PyVal :=
  match py_int v with inr n => inr (PyInt n) | inl e => inl e end.

Definition float_val (v : PyVal) : exn + PyVal :=
  match py_float v with inr f => inr (PyFloat f) | inl e => inl e end.

(** [if hss_value is not None: ...]: the text of the compound setting is
    taken apart and each part assigned as soon as it is converted. *)
Definition set_horizontal_shift_speed (hss_value : PyVal) : M D unit :=
  if negb (is_None hss_value) then
    hss_value <- lift (hss_pieces hss_value);;
    x <- lift (py_index hss_value 0);; v <- lift (int_val x);;
    assign ad_channel v;;
    x <- lift (py_index hss_value 1);; v <- lift (int_val x);;
    assign output_amplifier v;;
    x <- lift (py_index hss_value 2);; v <- lift (float_val x);;
    assign horizontal_shift_speed v
  else ret tt.

(** [if pre_amp_gain_value is not None: ...] *)
Definition set_pre_amp_gain (pre_amp_gain_value : PyVal) : M D unit :=
  if negb (is_None pre_amp_gain_value) then
    v <- lift (float_val pre_amp_gain_value);; assign pre_amp_gain v
  else ret tt.

(** The assignments of [configure], from [# Device Settings] to the
    cooler settings, with the settings taken from [config_dict]. *)
Definition write_settings (config_dict : loc) : M D unit :=
  (* Device Settings *)
  ccd_value <- dict_getitem config_dict "ccd_device_index";;
  v <- lift (device_index ccd_value);; assign ccd_device_index v;;
  spg_value <- dict_getitem config_dict "spg_device_index";;
  v <- lift (device_index spg_value);; assign spg_device_index v;;
  (* Spectrograph Settings *)
  v <- dict_getitem config_dict "grating";; assign current_grating v;;
  v <- dict_getitem config_dict "center_wavelength";; assign center_wavelength v;;
  v <- dict_getitem config_dict "pixel_offset";; assign pixel_offset v;;
  v <- dict_getitem config_dict "wavelength_offset";; assign wavelength_offset v;;
  v <- dict_getitem config_dict "input_port";; assign input_port v;;
  v <- dict_getitem config_dict "output_port";; assign output_port v;;
  (* Acquisition Settings *)
  v <- dict_getitem config_dict "read_mode";; assign read_mode v;;
  v <- dict_getitem config_dict "acquisition_mode";; assign acquisition_mode v;;
  v <- dict_getitem config_dict "trigger_mode";; assign trigger_mode v;;
  v <- dict_getitem config_dict "exposure_time";; assign exposure_time v;;
  v <- dict_getitem config_dict "number_of_accumulations";;
  assign number_of_accumulations v;;
  v <- dict_getitem config_dict "accumulation_cycle_time";;
  assign accumulation_cycle_time v;;
  v <- dict_getitem config_dict "number_of_kinetics";; assign number_of_kinetics v;;
  v <- dict_getitem config_dict "kinetic_cycle_time";; assign kinetic_cycle_time v;;
  v <- dict_getitem config_dict "baseline_clamp";; assign baseline_clamp v;;
  v <- dict_getitem config_dict "cosmic_ray_removal";; assign remove_cosmic_rays v;;
  v <- dict_getitem config_dict "keep_clean_on_external_trigger";;
  assign keep_clean_on_external_trigger v;;
  single_track_center_row <- dict_getitem config_dict "single_track_center_row";;
  single_track_height <- dict_getitem config_dict "single_track_height";;
  assign_single_track single_track_center_row single_track_height;;
  (* Electronics Settings *)
  vss_value <- dict_getitem config_dict "vertical_shift_speed";;
  vss_value <- (if is_str vss_value then lift (float_val vss_value)
                else ret vss_value);;
  assign vertical_shift_speed vss_value;;
  hss_value <- dict_getitem config_dict "horizontal_shift_speed";;
  set_horizontal_shift_speed hss_value;;
  pre_amp_gain_value <- dict_getitem config_dict "pre_amp_gain";;
  set_pre_amp_gain pre_amp_gain_value;;
  (* Temperature Settings *)
  v <- dict_getitem config_dict "target_sensor_temperature";;
  assign sensor_temperature_set_point v;;
  v <- dict_getitem config_dict "reach_temperature_before_acquisition";;
  assign reach_temperature_before_acquisition v;;
  v <- dict_getitem config_dict "cooler";; assign cooler v;;
  v <- dict_getitem config_dict "cooler_persistence";;
  assign cooler_persistence_mode v.

(** The loop of [configure] over the keys of [last_config_dict]: a key
    that [config_dict] lacks, or holds [None] for, gets the stored value. *)
Definition fill_key (config_dict : loc) (key : string) : M D unit :=
  v <- dict_get config_dict key PyNone;;
  if is_None v then
    d <- get_last_config_dict;;
    x <- dict_getitem d key;;
    dict_setitem config_dict key x
  else ret tt.

Definition fill_missing (config_dict : loc) : M D unit :=
  d <- get_last_config_dict;;
  keys <- dict_keys d;;
  for_each keys (fill_key config_dict).

(** The first lines of [configure]: whether to call [open]. *)
Definition establish_connection (open : M D bool) (attempt_connection : bool)
  : M D unit :=
  log DEBUG "Calling configure on the Andor spectrometer controller";;
  d <- get_last_config_dict;;
  nonempty <- dict_truth d;;
  if negb nonempty then
    log DEBUG "First instantiation of the Andor Spectrometer controller. Establishing connection now...";;
    _ <- open;; ret tt
  else if attempt_connection then
    log DEBUG "Subsequent call for configuration outside of configuration GUI. Establishing connection now...";;
    _ <- open;; ret tt
  else ret tt.

(** The rest of [configure], from the test of [is_open] on. *)
Definition apply_configuration (config_dict : loc) (attempt_connection : bool)
  : M D unit :=
  o <- is_open;;
  if negb o then
    d <- get_last_config_dict;;
    dict_update d config_dict;;
    log ERROR "Spectrometer is not open. Cannot configure."
  else
    fill_missing config_dict;;
    write_settings config_dict;;
    update_config_dict_from_current_values;;
    if attempt_connection then _ <- close;; ret tt else ret tt.

(** [open], with the method it calls back into as an argument. *)
Definition open_with (configure : loc → bool → M D unit) : M D bool :=
  log INFO "Opening Andor Spectrometer";;
  call EvConnect dev_open;;
  connection_status <- is_open;;
  if connection_status then
    log INFO "Opening Andor Spectrometer was successful.";;
    d <- get_last_config_dict;;
    nonempty <- dict_truth d;;
    (if nonempty then
       c <- dict_copy d;;
       configure c false
     else ret tt);;
    log INFO "Latest configuration settings were set.";;
    ret connection_status
  else
    log INFO "Opening Andor Spectrometer failed.";;
    ret connection_status.

(** [configure] and [open] call each other; [depth] bounds the nesting
    of calls, and [RecursionError] is what exceeding it gives. *)
Fixpoint configure_rec (depth : nat) (config_dict : loc)
    (attempt_connection : bool) : M D unit :=
  match depth with
  | O => raise RecursionError
  | S depth' =>
      establish_connection (open_with (configure_rec depth')) attempt_connection;;
      apply_configuration config_dict attempt_connection
  end.

(** [open] calls [configure] only with a non-empty store and
    [attempt_connection=False], and such a call does not call [open]:
    the nesting is two deep at most (see [configure_rec_depth]). *)
Definition open : M D bool := open_with (configure_rec 1).

Definition configure (config_dict : loc) (attempt_connection : bool) : M D unit :=
  configure_rec 2 config_dict attempt_connection.

(** [start] *)
Definition start : M D unit :=
  log INFO "Starting controller.";;
  _ <- open;;
  o <- is_open;;
  if negb o then raise (RuntimeError "Failed to connect to Andor Spectrometer.")
  else call EvWaitTemperature daq_wait_for_temperature.

(** [stop] *)
Definition stop : M D unit :=
  log INFO "Stopping controller.";;
  call EvStopWaiting daq_stop_waiting;;
  _ <- close;; ret tt.

End Controller.

(** * The vocabulary of the properties *)

Section ConnectionVocabulary.
Context {D : Type} `{DeviceAdapter D} `{PyRuntime}.

(** The events a run adds are those after the ones already there. *)
Definition extends {A} (m : M D A) : Prop :=
  ∀ st, ∃ evs, trace (snd (m st)) = trace st ++ evs.

(** The state [close] leaves when the connection was closed already. *)
Definition closed_state (st : state D) : state D :=
  add_event (EvLog INFO "Andor Spectrometer is already closed.") st.

(** The state [close] leaves when the connection was open. *)
Definition disconnected_state (st : state D) : state D :=
  let d := dev_close (daq_close (dev st)) in
  mkState (heap st) (next_loc st) (last_config_dict st) d
    (trace st ++
       [ EvLog INFO "Closing Andor Spectrometer"; EvDaqClose; EvDisconnect;
         EvLog INFO (if dev_is_open d
                     then "Closing Andor Spectrometer failed."
                     else "Closing Andor Spectrometer was successful.") ]).

(** The state in which [stop] calls [close]. *)
Definition stopping_state (st : state D) : state D :=
  mkState (heap st) (next_loc st) (last_config_dict st)
    (daq_stop_waiting (dev st))
    (trace st ++ [EvLog INFO "Stopping controller."; EvStopWaiting]).

(** [_ <- m;; ret tt] *)
Definition discard {A} (r : (exn + A) * state D) : (exn + unit) * state D :=
  match r with
  | (inr _, s) => (inr tt, s)
  | (inl e, s) => (inl e, s)
  end.

(** The states after the first log records of [configure]: on entry, and
    before [open] is called on a first and on a later call. *)
Definition entered (st : state D) : state D :=
  add_event (EvLog DEBUG "Calling configure on the Andor spectrometer controller") st.

Definition first_call (st : state D) : state D :=
  add_event (EvLog DEBUG "First instantiation of the Andor Spectrometer controller. Establishing connection now...") (entered st).

Definition later_call (st : state D) : state D :=
  add_event (EvLog DEBUG "Subsequent call for configuration outside of configuration GUI. Establishing connection now...") (entered st).

(** The state after the adapter's [open] was called. *)
Definition connecting (st : state D) : state D :=
  mkState (heap st) (next_loc st) (last_config_dict st) (dev_open (dev st))
    (trace st ++ [EvLog INFO "Opening Andor Spectrometer"; EvConnect]).

(** The state in which [open] calls [configure]: connected, with a copy
    of the store at the location that was unused. *)
Definition reapplying (st : state D) : state D :=
  mkState (<[next_loc st := store st]> (heap st)) (S (next_loc st))
    (last_config_dict st) (dev_open (dev st))
    (trace st ++ [ EvLog INFO "Opening Andor Spectrometer"; EvConnect;
                   EvLog INFO "Opening Andor Spectrometer was successful." ]).

(** What [open] makes of the outcome of the [configure] it called: it
    logs and returns [True], or lets the exception pass. *)
Definition opened (r : (exn + unit) * state D) : (exn + bool) * state D :=
  match r with
  | (inr _, s) =>
      (inr true, add_event (EvLog INFO "Latest configuration settings were set.") s)
  | (inl e, s) => (inl e, s)
  end.

(** The state [configure] leaves when the device is not open. *)
Definition not_open_state (c : loc) (st : state D) : state D :=
  mkState (<[last_config_dict st := deref st c ∪ store st]> (heap st))
    (next_loc st) (last_config_dict st) (dev st)
    (trace st ++ [EvLog ERROR "Spectrometer is not open. Cannot configure."]).

End ConnectionVocabulary.

(** What the loop over the stored keys makes of [config_dict]: a stored
    key that [config] lacks, or holds [None] for, gets the stored value;
    every other entry of [config] stays. *)
Definition fill_entry (requested stored : option PyVal) : option PyVal :=
  match stored with
  | Some x => if is_None (default PyNone requested) then Some x else requested
  | None => requested
  end.

(** [config] after the loop, entry by entry. *)
Definition filled (config stored : gmap string PyVal) : gmap string PyVal :=
  merge fill_entry config stored.

Section FillVocabulary.
Context {D : Type} `{DeviceAdapter D} `{PyRuntime}.

(** Two states that differ in the dictionary at [c] at most. *)
Definition same_but (c : loc) (st st' : state D) : Prop :=
  (∀ l, l ≠ c → deref st' l = deref st l)
  ∧ next_loc st' = next_loc st
  ∧ last_config_dict st' = last_config_dict st
  ∧ dev st' = dev st
  ∧ trace st' = trace st.

End FillVocabulary.

(** The place of a call that assigns a setting; [None] for other events. *)
Definition write_place (e : event) : option nat :=
  match e with
  | EvSet f _ => Some (write_order f)
  | EvSetSingleTrack _ _ => Some 19%nat
  | _ => None
  end.

(** The places [configure] skips when the setting is [None]: the three
    parts of the horizontal shift speed and the pre-amplifier gain. *)
Definition optional_place (p : nat) : bool := ((21 <=? p) && (p <=? 24))%nat.

(** The groups of settings: 1 device indices, 2 grating and centre
    wavelength, 3 calibration offsets, 4 ports, 5 read, acquisition and
    trigger mode, 6 timing, 7 pre-processing flags, 8 single-track geometry,
    9 shift speeds and gain, 10 temperature and cooler. *)
Definition stage (p : nat) : nat :=
  (if p <? 2 then 1 else if p <? 4 then 2 else if p <? 6 then 3
   else if p <? 8 then 4 else if p <? 11 then 5 else if p <? 16 then 6
   else if p <? 19 then 7 else if p <? 20 then 8 else if p <? 25 then 9
   else 10)%nat.

(** [evs] are assignments at strictly increasing places from [lo] on and
    below [hi]. *)
Fixpoint in_order (lo : nat) (evs : list event) (hi : nat) : Prop :=
  match evs with
  | [] => (lo ≤ hi)%nat
  | e :: evs' =>
      ∃ p, write_place e = Some p ∧ (lo ≤ p)%nat ∧ in_order (S p) evs' hi
  end.

(** [evs] has an assignment at every place from [lo] on and below [hi]
    that is not optional. *)
Definition complete (lo : nat) (evs : list event) (hi : nat) : Prop :=
  ∀ p, (lo ≤ p < hi)%nat → optional_place p = false →
       ∃ e, e ∈ evs ∧ write_place e = Some p.

(** The outcome is a return, not an exception. *)
Definition is_ok {A} (r : exn + A) : Prop :=
  match r with inr _ => True | inl _ => False end.

(** The calls of [update_config_dict_from_current_values], in order. *)
Definition all_reads : list event :=
  [ EvGet ccd_device_index; EvGet spg_device_index;
    EvGet current_grating; EvGet center_wavelength;
    EvGet pixel_offset; EvGet wavelength_offset;
    EvGet input_port; EvGet output_port;
    EvGet read_mode; EvGet acquisition_mode; EvGet trigger_mode;
    EvGet exposure_time; EvGet number_of_accumulations;
    EvGet accumulation_cycle_time; EvGet number_of_kinetics;
    EvGet kinetic_cycle_time;
    EvGet baseline_clamp; EvGet remove_cosmic_rays;
    EvGet keep_clean_on_external_trigger;
    EvGetSingleTrack; EvGetSingleTrack;
    EvGet vertical_shift_speed;
    EvGet ad_channel; EvGet output_amplifier; EvGet horizontal_shift_speed;
    EvGet pre_amp_gain;
    EvGet sensor_temperature_set_point;
    EvGet reach_temperature_before_acquisition;
    EvGet cooler; EvGet cooler_persistence_mode ].

Section OrderVocabulary.
Context {D : Type} `{DeviceAdapter D} `{PyRuntime}.

(** The store after the read-back: every setting as the device reports
    it, four of them as text. *)
Definition read_back (d : D) (s : gmap string PyVal) : gmap string PyVal :=
  <["cooler_persistence" := dev_get cooler_persistence_mode d]>
  (<["cooler" := dev_get cooler d]>
  (<["reach_temperature_before_acquisition" :=
       dev_get reach_temperature_before_acquisition d]>
  (<["target_sensor_temperature" := dev_get sensor_temperature_set_point d]>
  (<["pre_amp_gain" := PyStr (py_str (dev_get pre_amp_gain d))]>
  (<["horizontal_shift_speed" :=
       PyStr (str_tuple3 (dev_get ad_channel d) (dev_get output_amplifier d)
                         (dev_get horizontal_shift_speed d))]>
  (<["vertical_shift_speed" := PyStr (py_str (dev_get vertical_shift_speed d))]>
  (<["single_track_height" := snd (dev_get_single_track d)]>
  (<["single_track_center_row" := fst (dev_get_single_track d)]>
  (<["keep_clean_on_external_trigger" :=
       dev_get keep_clean_on_external_trigger d]>
  (<["cosmic_ray_removal" := dev_get remove_cosmic_rays d]>
  (<["baseline_clamp" := dev_get baseline_clamp d]>
  (<["kinetic_cycle_time" := dev_get kinetic_cycle_time d]>
  (<["number_of_kinetics" := dev_get number_of_kinetics d]>
  (<["accumulation_cycle_time" := dev_get accumulation_cycle_time d]>
  (<["number_of_accumulations" := dev_get number_of_accumulations d]>
  (<["exposure_time" := dev_get exposure_time d]>
  (<["trigger_mode" := dev_get trigger_mode d]>
  (<["acquisition_mode" := dev_get acquisition_mode d]>
  (<["read_mode" := dev_get read_mode d]>
  (<["output_port" := dev_get output_port d]>
  (<["input_port" := dev_get input_port d]>
  (<["wavelength_offset" := dev_get wavelength_offset d]>
  (<["pixel_offset" := dev_get pixel_offset d]>
  (<["center_wavelength" := dev_get center_wavelength d]>
  (<["grating" := dev_get current_grating d]>
  (<["spg_device_index" := PyStr (py_str (dev_get spg_device_index d))]>
  (<["ccd_device_index" := PyStr (py_str (dev_get ccd_device_index d))]>
     s))))))))))))))))))))))))))).

(** [st] with another trace. *)
Definition retraced (tr : list event) (st : state D) : state D :=
  mkState (heap st) (next_loc st) (last_config_dict st) (dev st) tr.

(** [st] with another store and another trace. *)
Definition restored (s : gmap string PyVal) (tr : list event) (st : state D)
  : state D :=
  mkState (<[last_config_dict st := s]> (heap st)) (next_loc st)
    (last_config_dict st) (dev st) tr.

(** A computation that leaves the dictionaries alone and assigns settings
    at increasing places from [lo] on and below [hi], all that are not
    optional when it returns. *)
Definition writes {A} (lo hi : nat) (m : M D A) : Prop :=
  ∀ st, heap (snd (m st)) = heap st
        ∧ next_loc (snd (m st)) = next_loc st
        ∧ last_config_dict (snd (m st)) = last_config_dict st
        ∧ ∃ evs, trace (snd (m st)) = trace st ++ evs
                 ∧ in_order lo evs hi
                 ∧ (is_ok (fst (m st)) → complete lo evs hi).

End OrderVocabulary.

(** A log record or a call of [close]: neither an assignment nor a read
    of a setting. *)
Definition is_connection_event (e : event) : bool :=
  match e with
  | EvLog _ _ | EvDaqClose | EvDisconnect => true
  | _ => false
  end.

Section ConfigureVocabulary.
Context {D : Type} `{DeviceAdapter D} `{PyRuntime}.

(** The state after the read-back that follows the assignments. *)
Definition read_back_state (st : state D) : state D :=
  restored (read_back (dev st) (store st)) (trace st ++ all_reads) st.

(** What [configure] does once the connection is open: fill, assign,
    read back, and close if it opened the connection itself. *)
Definition configured (c : loc) (a : bool) (st : state D)
  : (exn + unit) * state D :=
  match write_settings c (snd (fill_missing c st)) with
  | (inl e, st3) => (inl e, st3)
  | (inr _, st3) =>
      (inr tt, if a then snd (close (read_back_state st3))
               else read_back_state st3)
  end.

End ConfigureVocabulary.

(** [1 / x if x > 0 else np.nan] for a float. *)
Definition rate_of (x : float) : PyVal :=
  PyFloat (if (0 <? x)%float then (1 / x)%float else nan).

(** ** Numbers, as the clock rate computes with them *)

(** A number of Python: an integer (a Boolean counts as 0 or 1) or a
    float. *)
Inductive number : Type :=
  | Whole (n : Z)
  | Real (f : float).

Definition number_of (v : PyVal) : option number :=
  match v with
  | PyInt n => Some (Whole n)
  | PyBool b => Some (Whole (Num.Z_of_bool b))
  | PyFloat f => Some (Real f)
  | _ => None
  end.

Definition value_of (t : number) : PyVal :=
  match t with
  | Whole n => PyInt n
  | Real f => PyFloat f
  end.

(** The product of two numbers: exact for two integers; for an integer
    and a float the product of floats, [OverflowError] where the integer
    is too large for a float. *)
Definition times (x y : number) : exn + number :=
  match x, y with
  | Whole a, Whole b => inr (Whole (a * b))
  | Real f, Real g => inr (Real (f * g))
  | Whole a, Real g =>
      match Num.float_of_Z a with
      | inr f => inr (Real (f * g))
      | inl e => inl e
      end
  | Real f, Whole b =>
      match Num.float_of_Z b with
      | inr g => inr (Real (f * g))
      | inl e => inl e
      end
  end.

(** [1 / t] where [t > 0], and [np.nan] otherwise. *)
Definition rate (t : number) : exn + PyVal :=
  match t with
  | Real f => inr (rate_of f)
  | Whole n =>
      if 0 <? n then
        match Num.Z_truediv 1 n with
        | inr f => inr (PyFloat f)
        | inl e => inl e
        end
      else inr (PyFloat nan)
  end.

(** The rate of a duration that may have failed to compute. *)
Definition rate_if (t : exn + number) : exn + PyVal :=
  match t with
  | inr t => rate t
  | inl e => inl e
  end.

(** The product of a duration that may have failed with one more count. *)
Definition times_if (t : exn + number) (y : number) : exn + number :=
  match t with
  | inr t => times t y
  | inl e => inl e
  end.

(** What [clock_rate] makes of the duration once it is computed:
    [1 / t if t > 0 else np.nan]. *)
Definition py_rate (t : PyVal) : exn + PyVal :=
  match py_gt_zero t with
  | inr true => py_one_div t
  | inr false => inr (PyFloat nan)
  | inl e => inl e
  end.

(** The duration [clock_rate] computes from a store. *)
Definition py_duration (s : gmap string PyVal) : exn + PyVal :=
  let e := default (PyFloat nan) (s !! "exposure_time") in
  let mode := default PyNone (s !! "acquisition_mode") in
  let n := default (PyFloat nan) (s !! "number_of_accumulations") in
  let k := default (PyFloat nan) (s !! "number_of_kinetics") in
  if py_eq_str mode "ACCUMULATE" then py_mul e n
  else if py_eq_str mode "KINETICS" then
    match py_mul e n with
    | inr t => py_mul t k
    | inl err => inl err
    end
  else inr e.

(** ** The assignments a dictionary asks for *)

Definition ok {A} (r : exn + A) : option A :=
  match r with
  | inr a => Some a
  | inl _ => None
  end.

(** One step of the write pass: the calls it makes on the adapter for a
    dictionary, [None] where a key is missing or a conversion fails. *)
Definition step : Type := gmap string PyVal → option (list event).

Section WriteSteps.
Context `{PyRuntime}.

(** A setting assigned as it is found. *)
Definition plainly (key : string) (f : dev_field) : step :=
  λ cfg, v ← cfg !! key; Some [EvSet f v].

(** A setting converted before it is assigned. *)
Definition converted (key : string) (conv : PyVal → exn + PyVal)
    (f : dev_field) : step :=
  λ cfg, v ← cfg !! key; w ← ok (conv v); Some [EvSet f w].

(** The two single-track parameters, assigned together. *)
Definition single_track_step : step :=
  λ cfg, row ← cfg !! "single_track_center_row";
         height ← cfg !! "single_track_height";
         Some [EvSetSingleTrack row height].

(** The vertical shift speed: a text is converted, anything else is
    not. *)
Definition vertical_speed (v : PyVal) : exn + PyVal :=
  if is_str v then float_val v else inr v.

(** The three parts of the horizontal shift speed; nothing for [None]. *)
Definition shift_speed_writes (v : PyVal) : option (list event) :=
  if is_None v then Some []
  else
    pieces ← ok (hss_pieces v);
    x ← ok (py_index pieces 0); a ← ok (int_val x);
    y ← ok (py_index pieces 1); b ← ok (int_val y);
    z ← ok (py_index pieces 2); c ← ok (float_val z);
    Some [ EvSet ad_channel a; EvSet output_amplifier b;
           EvSet horizontal_shift_speed c ].

Definition shift_speed_step : step :=
  λ cfg, v ← cfg !! "horizontal_shift_speed"; shift_speed_writes v.

(** The gain; nothing for [None]. *)
Definition gain_writes (v : PyVal) : option (list event) :=
  if is_None v then Some []
  else w ← ok (float_val v); Some [EvSet pre_amp_gain w].

Definition gain_step : step :=
  λ cfg, v ← cfg !! "pre_amp_gain"; gain_writes v.

(** The write pass, setting by setting in the fixed order. *)
Definition write_steps : list step :=
  [ converted "ccd_device_index" device_index ccd_device_index;
    converted "spg_device_index" device_index spg_device_index;
    plainly "grating" current_grating;
    plainly "center_wavelength" center_wavelength;
    plainly "pixel_offset" pixel_offset;
    plainly "wavelength_offset" wavelength_offset;
    plainly "input_port" input_port;
    plainly "output_port" output_port;
    plainly "read_mode" read_mode;
    plainly "acquisition_mode" acquisition_mode;
    plainly "trigger_mode" trigger_mode;
    plainly "exposure_time" exposure_time;
    plainly "number_of_accumulations" number_of_accumulations;
    plainly "accumulation_cycle_time" accumulation_cycle_time;
    plainly "number_of_kinetics" number_of_kinetics;
    plainly "kinetic_cycle_time" kinetic_cycle_time;
    plainly "baseline_clamp" baseline_clamp;
    plainly "cosmic_ray_removal" remove_cosmic_rays;
    plainly "keep_clean_on_external_trigger" keep_clean_on_external_trigger;
    single_track_step;
    converted "vertical_shift_speed" vertical_speed vertical_shift_speed;
    shift_speed_step;
    gain_step;
    plainly "target_sensor_temperature" sensor_temperature_set_point;
    plainly "reach_temperature_before_acquisition"
            reach_temperature_before_acquisition;
    plainly "cooler" cooler;
    plainly "cooler_persistence" cooler_persistence_mode ].

Fixpoint run_steps (steps : list step) (cfg : gmap string PyVal)
  : option (list event) :=
  match steps with
  | [] => Some []
  | s :: rest =>
      ws ← s cfg; ws' ← run_steps rest cfg; Some (ws ++ ws')
  end.

(** The calls of a write pass that goes through, for a dictionary. *)
Definition intended_writes (cfg : gmap string PyVal) : option (list event) :=
  run_steps write_steps cfg.

End WriteSteps.

Section WriteStepsVocabulary.
Context {D : Type} `{DeviceAdapter D} `{PyRuntime}.

(** A computation that leaves the dictionaries alone and, when it
    returns, has made on the adapter the calls of [steps] for the
    dictionary at [c], and no other call. *)
Definition sends {A} (c : loc) (steps : list step) (m : M D A) : Prop :=
  ∀ st, heap (snd (m st)) = heap st
        ∧ (is_ok (fst (m st)) →
           ∃ ws, run_steps steps (deref st c) = Some ws
                 ∧ trace (snd (m st)) = trace st ++ ws).

End WriteStepsVocabulary.

(** ** A device and a runtime for the examples *)

Module Bench.

(** A device that keeps what it is given.  [reachable] tells whether
    connecting works and [releases] whether disconnecting does. *)
Record device : Type := mkDevice {
  connected : bool;
  reachable : bool;
  releases : bool;
  settings : gmap nat PyVal;
  track : PyVal * PyVal;
}.

#[export] Instance adapter : DeviceAdapter device := {|
  dev_open d :=
    mkDevice (connected d || reachable d) (reachable d) (releases d)
             (settings d) (track d);
  dev_close d :=
    mkDevice (connected d && negb (releases d)) (reachable d) (releases d)
             (settings d) (track d);
  dev_is_open := connected;
  daq_close d := d;
  daq_stop_waiting d := d;
  daq_wait_for_temperature d := d;
  dev_set f v d :=
    inr (mkDevice (connected d) (reachable d) (releases d)
                  (<[write_order f := v]> (settings d)) (track d));
  dev_get f d := default PyNone (settings d !! write_order f);
  dev_set_single_track row height d :=
    inr (mkDevice (connected d) (reachable d) (releases d) (settings d)
                  (row, height));
  dev_get_single_track := track;
|}.

(** Plain decimal literals, [digits] or [digits.digits] with a sign. *)
Fixpoint until_dot (l : list ascii) : list ascii * option (list ascii) :=
  match l with
  | [] => ([], None)
  | c :: l' =>
      if Ascii.eqb c "." then ([], Some l')
      else let '(whole, frac) := until_dot l' in (c :: whole, frac)
  end.

Definition decimal (l : list ascii) : option float :=
  let '(whole, rest) := until_dot l in
  match Text.digits 0 false whole, rest with
  | Some n, None =>
      match Num.float_of_Z n with inr f => Some f | inl _ => None end
  | Some n, Some frac =>
      match Text.digits 0 false frac with
      | Some m =>
          match Num.Z_truediv (n * 10 ^ Z.of_nat (length frac) + m)
                              (10 ^ Z.of_nat (length frac)) with
          | inr f => Some f
          | inl _ => None
          end
      | None => None
      end
  | None, _ => None
  end.

(** A runtime that agrees with CPython on the texts and floats of the
    examples: decimal literals without exponent and underscores, and
    floats with an integral value. *)
#[export] Instance runtime : PyRuntime := {|
  float_of_str s :=
    match Text.strip (list_ascii_of_string s) with
    | c :: l =>
        if Ascii.eqb c "-" then PrimFloat.opp <$> decimal l
        else if Ascii.eqb c "+" then decimal l
        else decimal (c :: l)
    | [] => None
    end;
  float_repr f :=
    match Num.Z_of_float f with
    | inr n => pretty n +:+ ".0"
    | inl _ => "nan"
    end;
  str_repr s := "'" +:+ s +:+ "'";
|}.

(** A device that was never connected. *)
Definition fresh (reachable releases : bool) : device :=
  mkDevice false reachable releases ∅ (PyNone, PyNone).

(** A settings file: every key [configure] looks up. *)
Definition full_config : gmap string PyVal :=
  list_to_map
    [ ("ccd_device_index", PyInt 0); ("spg_device_index", PyInt 0);
      ("grating", PyStr "600 l/mm"); ("center_wavelength", PyFloat 700);
      ("pixel_offset", PyFloat 0); ("wavelength_offset", PyFloat 0);
      ("input_port", PyStr "DIRECT"); ("output_port", PyStr "DIRECT");
      ("read_mode", PyStr "FULL_VERTICAL_BINNING");
      ("acquisition_mode", PyStr "SINGLE_SCAN");
      ("trigger_mode", PyStr "INTERNAL");
      ("exposure_time", PyFloat 2); ("number_of_accumulations", PyInt 1);
      ("accumulation_cycle_time", PyFloat 2); ("number_of_kinetics", PyInt 1);
      ("kinetic_cycle_time", PyFloat 2);
      ("baseline_clamp", PyBool true); ("cosmic_ray_removal", PyBool true);
      ("keep_clean_on_external_trigger", PyBool false);
      ("single_track_center_row", PyInt 100); ("single_track_height", PyInt 20);
      ("vertical_shift_speed", PyStr "38");
      ("horizontal_shift_speed", PyStr "(0, 1, 3.0)");
      ("pre_amp_gain", PyStr "2.0");
      ("target_sensor_temperature", PyInt (-65));
      ("reach_temperature_before_acquisition", PyBool false);
      ("cooler", PyBool true); ("cooler_persistence", PyBool false) ].

(** A controller just constructed, and a dictionary the caller holds at
    location 1. *)
Definition with_config (d : device) (c : gmap string PyVal) : state device :=
  new_dict c (init d).

(** A controller whose store holds [s], and a dictionary the caller holds
    at location 1. *)
Definition with_store (d : device) (s c : gmap string PyVal) : state device :=
  new_dict c (mkState {[ 0%nat := s ]} 1%nat 0%nat d []).

(** A connected device that lets go when asked to. *)
Definition connected_device : device :=
  mkDevice true true true ∅ (PyNone, PyNone).

(** A connected device whose disconnect has no effect. *)
Definition stuck_device : device :=
  mkDevice true true false ∅ (PyNone, PyNone).

(** The first call of [configure], from a settings file, with a device
    that can be reached, and with one that cannot. *)
Definition first_run : state device := with_config (fresh true true) full_config.
Definition offline_run : state device := with_config (fresh false true) full_config.

(** The controller after a first [configure] that went through, and a
    request for another exposure time. *)
Definition configured_once : state device :=
  let st := snd (configure 1%nat true first_run) in
  mkState (<[1%nat := {[ "exposure_time" := PyFloat 5 ]}]> (heap st))
    (next_loc st) (last_config_dict st) (dev st) [].

(** A settings file with one entry replaced. *)
Definition with_entry (key : string) (v : PyVal) : state device :=
  with_config (fresh true true) (<[key := v]> full_config).

(** The controller after a first [configure] that went through: the
    store is full and the connection closed again. *)
Definition reopen_run : state device := snd (configure 1%nat true first_run).

(** Stores for the clock rate: the three modes, and no entry at all. *)
Definition single_scan : state device :=
  with_store (fresh true true)
    {[ "exposure_time" := PyFloat 0.5;
       "acquisition_mode" := PyStr "SINGLE_SCAN" ]} ∅.

Definition accumulate : state device :=
  with_store (fresh true true)
    {[ "exposure_time" := PyFloat 0.5;
       "acquisition_mode" := PyStr "ACCUMULATE";
       "number_of_accumulations" := PyInt 4 ]} ∅.

Definition kinetic_series : state device :=
  with_store (fresh true true)
    {[ "exposure_time" := PyFloat 0.5;
       "acquisition_mode" := PyStr "KINETICS";
       "number_of_accumulations" := PyInt 4;
       "number_of_kinetics" := PyInt 2 ]} ∅.

Definition nothing_stored : state device := with_store (fresh true true) ∅ ∅.

(** A store that holds a settings file as it came, the first call having
    found no device; a device that can be reached now; and a request for
    another exposure time. *)
Definition raw_store_run : state device :=
  let st := snd (configure 1%nat true offline_run) in
  mkState (<[1%nat := {[ "exposure_time" := PyFloat 5 ]}]> (heap st))
    (next_loc st) (last_config_dict st) (fresh true true) [].

(** A closed connection, a full store, and a request that holds [None]
    for the exposure time. *)
Definition none_request_run : state device :=
  let st := reopen_run in
  mkState (<[1%nat := {[ "exposure_time" := PyNone ]}]> (heap st))
    (next_loc st) (last_config_dict st) (dev st) [].


End Bench.

(** * More of the controller *)

(** ** Sampling *)

(** [spectrometer_daq.acquire(kind)]: what it returns, [None] for
    Python's [None] and [Some] of a value of [R] for anything else, or an
    exception; and the device afterwards. *)
Class Acquisition (D R : Type) := {
  daq_acquire : string → D → (exn + option R) * D;
}.

Section Sampling.
Context {D R : Type} `{DeviceAdapter D} `{Acquisition D R}.

(** A call of [acquire]; it leaves no record in the trace, the device
    afterwards tells of it. *)
Definition acquire (kind : string) : M D (option R) :=
  λ st, let '(r, d) := daq_acquire kind (dev st) in (r, set_dev d st).

(** [sample_spectrum]: it returns what [acquire] returned, or [None]
    where the method falls off its end. *)
Definition sample_spectrum : M D (option R) :=
  log DEBUG "Sampling Spectrum";;
  acq_mode <- read acquisition_mode;;
  if py_eq_str acq_mode "SINGLE_SCAN" then acquire "single"
  else if py_eq_str acq_mode "ACCUMULATE" then acquire "accumulation"
  else if py_eq_str acq_mode "KINETICS" then acquire "kinetic series"
  else ret None.

End Sampling.

(** The kind of acquisition that goes with an acquisition mode, where
    there is one. *)
Definition acquisition_kind (mode : PyVal) : option string :=
  if py_eq_str mode "SINGLE_SCAN" then Some "single"
  else if py_eq_str mode "ACCUMULATE" then Some "accumulation"
  else if py_eq_str mode "KINETICS" then Some "kinetic series"
  else None.

(** ** Vocabulary *)

(** The keys [configure] looks up in [config_dict], in the order of the
    source. *)
Definition required_keys : list string :=
  [ "ccd_device_index"; "spg_device_index"; "grating"; "center_wavelength";
    "pixel_offset"; "wavelength_offset"; "input_port"; "output_port";
    "read_mode"; "acquisition_mode"; "trigger_mode";
    "exposure_time"; "number_of_accumulations"; "accumulation_cycle_time";
    "number_of_kinetics"; "kinetic_cycle_time";
    "baseline_clamp"; "cosmic_ray_removal"; "keep_clean_on_external_trigger";
    "single_track_center_row"; "single_track_height";
    "vertical_shift_speed"; "horizontal_shift_speed"; "pre_amp_gain";
    "target_sensor_temperature"; "reach_temperature_before_acquisition";
    "cooler"; "cooler_persistence" ].

(** The text has neither a space nor a comma: it survives
    [replace(' ', '')] and is one piece for [split(',')]. *)
Definition plain (s : string) : Prop :=
  Forall (λ c, Ascii.eqb c " " = false ∧ Ascii.eqb c "," = false)
         (list_ascii_of_string s).

Section CoverageVocabulary.
Context {D : Type} `{DeviceAdapter D} `{PyRuntime}.

(** What the read-back stores under each key, for a device [d]. *)
Definition stored_settings (d : D) : list (string * PyVal) :=
  [ ("ccd_device_index", PyStr (py_str (dev_get ccd_device_index d)));
    ("spg_device_index", PyStr (py_str (dev_get spg_device_index d)));
    ("grating", dev_get current_grating d);
    ("center_wavelength", dev_get center_wavelength d);
    ("pixel_offset", dev_get pixel_offset d);
    ("wavelength_offset", dev_get wavelength_offset d);
    ("input_port", dev_get input_port d);
    ("output_port", dev_get output_port d);
    ("read_mode", dev_get read_mode d);
    ("acquisition_mode", dev_get acquisition_mode d);
    ("trigger_mode", dev_get trigger_mode d);
    ("exposure_time", dev_get exposure_time d);
    ("number_of_accumulations", dev_get number_of_accumulations d);
    ("accumulation_cycle_time", dev_get accumulation_cycle_time d);
    ("number_of_kinetics", dev_get number_of_kinetics d);
    ("kinetic_cycle_time", dev_get kinetic_cycle_time d);
    ("baseline_clamp", dev_get baseline_clamp d);
    ("cosmic_ray_removal", dev_get remove_cosmic_rays d);
    ("keep_clean_on_external_trigger", dev_get keep_clean_on_external_trigger d);
    ("single_track_center_row", fst (dev_get_single_track d));
    ("single_track_height", snd (dev_get_single_track d));
    ("vertical_shift_speed", PyStr (py_str (dev_get vertical_shift_speed d)));
    ("horizontal_shift_speed",
       PyStr (str_tuple3 (dev_get ad_channel d) (dev_get output_amplifier d)
                         (dev_get horizontal_shift_speed d)));
    ("pre_amp_gain", PyStr (py_str (dev_get pre_amp_gain d)));
    ("target_sensor_temperature", dev_get sensor_temperature_set_point d);
    ("reach_temperature_before_acquisition",
       dev_get reach_temperature_before_acquisition d);
    ("cooler", dev_get cooler d);
    ("cooler_persistence", dev_get cooler_persistence_mode d) ].

(** The state in which [configure] makes its assignments, after the
    connection step left [st1]: [st1] with [config_dict] filled. *)
Definition filled_state (c : loc) (st1 : state D) : state D :=
  snd (fill_missing c st1).

(** The state after the assignments of [configure]. *)
Definition written_state (c : loc) (st1 : state D) : state D :=
  snd (write_settings c (filled_state c st1)).

(** A computation that leaves the dictionaries alone and returns only if
    the dictionary at [c] has every key of [keys]. *)
Definition looks_up {A} (c : loc) (keys : list string) (m : M D A) : Prop :=
  ∀ st, heap (snd (m st)) = heap st
        ∧ (is_ok (fst (m st)) →
           Forall (λ k, is_Some (deref st c !! k)) keys).

(** A method that keeps every key of the store. *)
Definition keeps_keys {A} (m : M D A) : Prop :=
  ∀ st, last_config_dict (snd (m st)) = last_config_dict st
        ∧ dom (store st) ⊆ dom (store (snd (m st))).

(** The state after [start] began to wait for the temperature. *)
Definition waiting (st : state D) : state D :=
  mkState (heap st) (next_loc st) (last_config_dict st)
    (daq_wait_for_temperature (dev st)) (trace st ++ [EvWaitTemperature]).

(** The events that begin or cancel the wait for the sensor temperature. *)
Definition wait_event (e : event) : bool :=
  match e with
  | EvWaitTemperature | EvStopWaiting => true
  | _ => false
  end.

(** A run adds no such event to the trace. *)
Definition leaves_wait_alone {A} (m : M D A) : Prop :=
  ∀ st, ∃ evs, trace (snd (m st)) = trace st ++ evs
               ∧ Forall (λ e, wait_event e = false) evs.

End CoverageVocabulary.

(** ** More devices for the examples *)

Module Rig.
Import Bench.

(** The bench device takes a spectrum by telling which kind was asked for. *)
#[export] Instance acquisition : Acquisition device string := {|
  daq_acquire kind d := (inr (Some kind), d);
|}.

(** A connected device in a given acquisition mode. *)
Definition in_mode (mode : PyVal) : state device :=
  with_config
    (mkDevice true true true {[ write_order acquisition_mode := mode ]}
              (PyNone, PyNone)) ∅.

(** A first call from a settings file that lacks a key. *)
Definition without_key (key : string) : state device :=
  with_config (fresh true true) (delete key full_config).

(** A store whose exposure time is [None], or a text. *)
Definition exposure_stored (v : PyVal) (mode : PyVal) : state device :=
  with_store (fresh true true)
    {[ "exposure_time" := v; "acquisition_mode" := mode;
       "number_of_accumulations" := PyInt 4;
       "number_of_kinetics" := PyInt 2 ]} ∅.

(** A closed connection, a full store, and a request that holds [None]
    for the exposure time. *)
Definition blank_exposure : state device :=
  let st := reopen_run in
  mkState (<[1%nat := {[ "exposure_time" := PyNone ]}]> (heap st))
    (next_loc st) (last_config_dict st) (dev st) [].

End Rig.

(** * Properties *)

(** ** Running a computation *)

Section Runs.
Context {D : Type} `{DeviceAdapter D}.

Lemma bind_ok {A B} (m : M D A) (k : A → M D B) st a st' :
  m st = (inr a, st') → bind m k st = k a st'.
Proof. intros E. unfold bind. by rewrite E. Qed.



Lemma run_eq {A} (r : (exn + A) * state D) (a : A) :
  fst r = inr a → r = (inr a, snd r).
Proof. destruct r as [o s]. cbn. by intros ->. Qed.


Lemma extends_bind {A B} (m : M D A) (k : A → M D B) :
  extends m → (∀ a, extends (k a)) → extends (bind m k).
Proof.
  intros Hm Hk st. destruct (Hm st) as [e1 E1]. unfold bind.
  destruct (m st) as [[e|a] st'] eqn:E; simpl in *.
  - by exists e1.
  - destruct (Hk a st') as [e2 E2]. exists (e1 ++ e2).
    by rewrite E2, E1, app_assoc.
Qed.

Lemma extends_silent {A} (m : M D A) :
  (∀ st, trace (snd (m st)) = trace st) → extends m.
Proof. intros Hs st. exists []. by rewrite Hs, app_nil_r. Qed.

Lemma extends_one {A} (m : M D A) (e : event) :
  (∀ st, trace (snd (m st)) = trace st ++ [e]) → extends m.
Proof. intros Hs st. by exists [e]. Qed.

Lemma extends_if {A} (b : bool) (m1 m2 : M D A) :
  extends m1 → extends m2 → extends (if b then m1 else m2).
Proof. by destruct b. Qed.

Lemma extends_for_each {A} (xs : list A) (body : A → M D unit) :
  (∀ x, extends (body x)) → extends (for_each xs body).
Proof.
  intros Hb. induction xs as [|x xs IH]; simpl.
  - by apply extends_silent.
  - apply extends_bind; auto.
Qed.

End Runs.

Section ExtendsPrimitives.
Context {D : Type} `{DeviceAdapter D}.

Lemma extends_ret {A} (a : A) : extends (D := D) (ret a).
Proof. by apply extends_silent. Qed.
Lemma extends_raise {A} e : extends (D := D) (raise (A := A) e).
Proof. by apply extends_silent. Qed.
Lemma extends_lift {A} (r : exn + A) : extends (D := D) (lift r).
Proof. by apply extends_silent. Qed.
Lemma extends_emit e : extends (D := D) (emit e).
Proof. by apply (extends_one _ e). Qed.
Lemma extends_log lvl msg : extends (D := D) (log lvl msg).
Proof. apply extends_emit. Qed.
Lemma extends_get_last_config_dict : extends (D := D) get_last_config_dict.
Proof. by apply extends_silent. Qed.
Lemma extends_dict_truth l : extends (D := D) (dict_truth l).
Proof. by apply extends_silent. Qed.
Lemma extends_dict_get l k d : extends (D := D) (dict_get l k d).
Proof. by apply extends_silent. Qed.
Lemma extends_dict_getitem l k : extends (D := D) (dict_getitem l k).
Proof.
  apply extends_silent. intros st. unfold dict_getitem.
  by destruct (deref st l !! k).
Qed.
Lemma extends_dict_setitem l k v : extends (D := D) (dict_setitem l k v).
Proof. by apply extends_silent. Qed.
Lemma extends_dict_update l o : extends (D := D) (dict_update l o).
Proof. by apply extends_silent. Qed.
Lemma extends_dict_copy l : extends (D := D) (dict_copy l).
Proof. by apply extends_silent. Qed.
Lemma extends_dict_keys l : extends (D := D) (dict_keys l).
Proof. by apply extends_silent. Qed.
Lemma extends_is_open : extends (D := D) is_open.
Proof. by apply extends_silent. Qed.
Lemma extends_call e f : extends (D := D) (call e f).
Proof. by apply (extends_one _ e). Qed.
Lemma extends_assign f v : extends (D := D) (assign f v).
Proof.
  apply (extends_one _ (EvSet f v)). intros st. unfold assign.
  by destruct (dev_set f v (dev st)).
Qed.
Lemma extends_assign_single_track r h :
  extends (D := D) (assign_single_track r h).
Proof.
  apply (extends_one _ (EvSetSingleTrack r h)). intros st.
  unfold assign_single_track. by destruct (dev_set_single_track r h (dev st)).
Qed.
Lemma extends_read f : extends (D := D) (read f).
Proof. by apply (extends_one _ (EvGet f)). Qed.
Lemma extends_read_single_track : extends (D := D) read_single_track.
Proof. by apply (extends_one _ EvGetSingleTrack). Qed.

End ExtendsPrimitives.

Ltac ext_step :=
  lazymatch goal with
  | |- extends (bind _ _) => apply extends_bind; [| intros ?]
  | |- extends (ret _) => apply extends_ret
  | |- extends (raise _) => apply extends_raise
  | |- extends (lift _) => apply extends_lift
  | |- extends (emit _) => apply extends_emit
  | |- extends (log _ _) => apply extends_log
  | |- extends get_last_config_dict => apply extends_get_last_config_dict
  | |- extends (dict_truth _) => apply extends_dict_truth
  | |- extends (dict_get _ _ _) => apply extends_dict_get
  | |- extends (dict_getitem _ _) => apply extends_dict_getitem
  | |- extends (dict_setitem _ _ _) => apply extends_dict_setitem
  | |- extends (dict_update _ _) => apply extends_dict_update
  | |- extends (dict_copy _) => apply extends_dict_copy
  | |- extends (dict_keys _) => apply extends_dict_keys
  | |- extends is_open => apply extends_is_open
  | |- extends (call _ _) => apply extends_call
  | |- extends (assign _ _) => apply extends_assign
  | |- extends (assign_single_track _ _) => apply extends_assign_single_track
  | |- extends (read _) => apply extends_read
  | |- extends read_single_track => apply extends_read_single_track
  | |- extends (for_each _ _) => apply extends_for_each; intros ?
  | |- extends (if _ then _ else _) => apply extends_if
  end.

Section Connection.
Context {D : Type} `{DeviceAdapter D} `{PyRuntime}.

(** *** [close] *)

Lemma close_closed (st : state D) :
  dev_is_open (dev st) = false → close st = (inr true, closed_state st).
Proof. intros E. unfold close, bind, is_open; simpl. by rewrite E. Qed.

Lemma close_open (st : state D) :
  dev_is_open (dev st) = true →
  close st = (inr (negb (dev_is_open (dev_close (daq_close (dev st))))),
              disconnected_state st).
Proof.
  intros E. unfold close, bind, is_open, disconnected_state; simpl.
  rewrite E; simpl.
  destruct (dev_is_open (dev_close (daq_close (dev st)))); simpl;
    unfold add_event; simpl; by rewrite <- !app_assoc.
Qed.

Lemma close_returns (st : state D) :
  fst (close st) = inr (negb (dev_is_open (dev (snd (close st))))).
Proof.
  destruct (dev_is_open (dev st)) eqn:E.
  - by rewrite close_open.
  - rewrite close_closed by done. simpl. by rewrite E.
Qed.

Lemma extends_close : extends (D := D) close.
Proof.
  intros st. destruct (dev_is_open (dev st)) eqn:E.
  - rewrite close_open by done. eexists; reflexivity.
  - rewrite close_closed by done. eexists; reflexivity.
Qed.

Lemma close_keeps_heap (st : state D) :
  heap (snd (close st)) = heap st
  ∧ next_loc (snd (close st)) = next_loc st
  ∧ last_config_dict (snd (close st)) = last_config_dict st.
Proof.
  destruct (dev_is_open (dev st)) eqn:E.
  - by rewrite close_open.
  - by rewrite close_closed.
Qed.

Lemma extends_write_settings c : extends (D := D) (write_settings c).
Proof.
  unfold write_settings, set_horizontal_shift_speed, set_pre_amp_gain.
  repeat ext_step.
Qed.

Lemma extends_update_config_dict :
  extends (D := D) update_config_dict_from_current_values.
Proof. unfold update_config_dict_from_current_values. repeat ext_step. Qed.

Lemma extends_fill_missing c : extends (D := D) (fill_missing c).
Proof. unfold fill_missing, fill_key. repeat ext_step. Qed.

Lemma extends_apply_configuration c a :
  extends (D := D) (apply_configuration c a).
Proof.
  unfold apply_configuration. repeat ext_step.
  all: lazymatch goal with
       | |- extends (fill_missing _) => apply extends_fill_missing
       | |- extends (write_settings _) => apply extends_write_settings
       | |- extends update_config_dict_from_current_values =>
           apply extends_update_config_dict
       | |- extends close => apply extends_close
       end.
Qed.

Lemma extends_establish_connection (o : M D bool) a :
  extends o → extends (establish_connection o a).
Proof. intros Ho. unfold establish_connection. repeat ext_step; done. Qed.

Lemma extends_open_with (cf : loc → bool → M D unit) :
  (∀ c a, extends (cf c a)) → extends (open_with cf).
Proof. intros Hc. unfold open_with. repeat ext_step; done. Qed.

Lemma extends_configure_rec n c a : extends (D := D) (configure_rec n c a).
Proof.
  revert c a. induction n as [|n IH]; intros c a; simpl.
  - apply extends_raise.
  - apply extends_bind; [|intros ?; apply extends_apply_configuration].
    apply extends_establish_connection, extends_open_with, IH.
Qed.


End Connection.

Section ConnectionProperties.
Context {D : Type} `{DeviceAdapter D} `{PyRuntime}.

(** *** [stop] *)

Lemma stop_unfold (st : state D) :
  stop st = (inr tt, snd (close (stopping_state st))).
Proof.
  unfold stop, bind, log, emit, call; simpl.
  replace (set_dev _ _) with (stopping_state st)
    by (unfold stopping_state, set_dev, add_event; simpl;
        by rewrite <- app_assoc).
  pose proof (close_returns (stopping_state st)) as E.
  destruct (close (stopping_state st)) as [[e|b] st']; simpl in *; [done|].
  reflexivity.
Qed.

(** C2 (as the code has it): [stop] cancels the temperature wait and then
    calls [close] itself.  It returns normally; when the adapter is still
    connected after the cancellation it closes the acquisition side and
    disconnects, and the connection state afterwards is what the adapter
    then reports; when the adapter is not connected, nothing but the
    cancellation reaches it. *)
Theorem stop_cancels_wait_then_closes (st : state D) :
  let st1 := stopping_state st in
  stop st = (inr tt, snd (close st1))
  ∧ (dev_is_open (dev st1) = true →
     dev (snd (stop st)) = dev_close (daq_close (daq_stop_waiting (dev st)))
     ∧ ∃ msg, trace (snd (stop st)) =
         trace st ++ [ EvLog INFO "Stopping controller."; EvStopWaiting;
                       EvLog INFO "Closing Andor Spectrometer";
                       EvDaqClose; EvDisconnect; EvLog INFO msg ])
  ∧ (dev_is_open (dev st1) = false →
     dev (snd (stop st)) = daq_stop_waiting (dev st)
     ∧ trace (snd (stop st)) =
         trace st ++ [ EvLog INFO "Stopping controller."; EvStopWaiting;
                       EvLog INFO "Andor Spectrometer is already closed." ]).
Proof.
  intros st1. split; [apply stop_unfold|]. rewrite stop_unfold. split.
  - intros E. rewrite close_open by done. simpl. split; [done|].
    eexists. by rewrite <- app_assoc.
  - intros E. rewrite close_closed by done. simpl. split; [done|].
    by rewrite <- app_assoc.
Qed.

(** *** [close] *)

(** [open] starts by calling the adapter's [open], whatever the state. *)
Lemma open_calls_adapter (st : state D) :
  ∃ rest, trace (snd (open st)) =
    trace st ++ [EvLog INFO "Opening Andor Spectrometer"; EvConnect] ++ rest.
Proof.
  unfold open, open_with.
  rewrite (bind_ok _ _ st tt
             (add_event (EvLog INFO "Opening Andor Spectrometer") st))
    by reflexivity.
  rewrite (bind_ok _ _ _ tt
             (set_dev (dev_open (dev st))
                (add_event EvConnect
                   (add_event (EvLog INFO "Opening Andor Spectrometer") st))))
    by reflexivity.
  match goal with |- context [snd (?m ?s)] =>
    assert (extends m) as Hext; [|destruct (Hext s) as [evs ->]] end.
  2:{ exists evs. simpl. by rewrite <- !app_assoc. }
  repeat ext_step. apply extends_configure_rec.
Qed.

(** C5 (as the code has it): [close] never raises and its result tells the
    connection state it leaves: [True] exactly when the adapter no longer
    reports a connection.  After a close that failed the adapter still
    reports the connection.  An [open] that follows starts by calling the
    adapter's [open], whatever [close] returned. *)
Theorem close_result_is_connection_state (st : state D) :
  (∃ b, fst (close st) = inr b
        ∧ b = negb (dev_is_open (dev (snd (close st))))
        ∧ (b = false → dev_is_open (dev (snd (close st))) = true))
  ∧ ∃ rest, trace (snd (open (snd (close st)))) =
      trace (snd (close st))
      ++ [EvLog INFO "Opening Andor Spectrometer"; EvConnect] ++ rest.
Proof.
  split.
  - exists (negb (dev_is_open (dev (snd (close st))))).
    split; [apply close_returns|]. split; [done|].
    by destruct (dev_is_open _).
  - apply open_calls_adapter.
Qed.

(** C6 (as the code has it): [close] on a closed connection returns
    [True] and calls nothing on the adapter (it adds one log record and
    leaves the device as it is).  Where the adapter's disconnect takes
    effect, or the connection is closed already, two calls of [close] in
    a row both return [True] and leave the connection closed, the second
    without calling the adapter.  Where the disconnect does not take
    effect, the first call returns [False] and leaves the connection open,
    and the second call is the first one over again: it calls the adapter
    to close and disconnect and returns what the adapter reports then. *)
Theorem close_idempotent (st : state D) :
  (dev_is_open (dev st) = false →
     close st = (inr true, closed_state st)
     ∧ dev (snd (close st)) = dev st
     ∧ trace (snd (close st)) =
         trace st ++ [EvLog INFO "Andor Spectrometer is already closed."])
  ∧ (dev_is_open (dev st) = false
     ∨ dev_is_open (dev_close (daq_close (dev st))) = false →
     let st1 := snd (close st) in
     let st2 := snd (close st1) in
     fst (close st) = inr true
     ∧ fst (close st1) = inr true
     ∧ dev_is_open (dev st2) = false
     ∧ dev st2 = dev st1
     ∧ trace st2 =
         trace st1 ++ [EvLog INFO "Andor Spectrometer is already closed."])
  ∧ (dev_is_open (dev st) = true →
     dev_is_open (dev_close (daq_close (dev st))) = true →
     let st1 := snd (close st) in
     let st2 := snd (close st1) in
     fst (close st) = inr false
     ∧ dev_is_open (dev st1) = true
     ∧ fst (close st1) = inr (negb (dev_is_open (dev st2)))
     ∧ dev st2 = dev_close (daq_close (dev st1))
     ∧ ∃ msg, trace st2 =
         trace st1 ++ [ EvLog INFO "Closing Andor Spectrometer";
                        EvDaqClose; EvDisconnect; EvLog INFO msg ]).
Proof.
  split; [|split].
  - intros E. by rewrite close_closed.
  - intros Hd. simpl.
    assert (fst (close st) = inr true
            ∧ dev_is_open (dev (snd (close st))) = false) as [E1 E2].
    { destruct (dev_is_open (dev st)) eqn:E.
      - destruct Hd as [?|Hd]; [done|].
        rewrite close_open by done. simpl. by rewrite Hd.
      - rewrite close_closed by done. by simpl. }
    split; [done|]. by rewrite (close_closed (snd (close st))).
  - intros Ho Hstuck. cbv zeta. rewrite (close_open st Ho). cbn [fst snd].
    rewrite Hstuck. cbn [negb]. split; [done|].
    assert (dev_is_open (dev (disconnected_state st)) = true) as Ho1
        by exact Hstuck.
    split; [exact Ho1|]. rewrite (close_open _ Ho1). cbn [fst snd].
    split; [done|]. split; [done|]. eexists. reflexivity.
Qed.

End ConnectionProperties.

Arguments write_settings : simpl never.
Arguments set_horizontal_shift_speed : simpl never.
Arguments set_pre_amp_gain : simpl never.
Arguments update_config_dict_from_current_values : simpl never.
Arguments fill_missing : simpl never.
Arguments apply_configuration : simpl never.
Arguments establish_connection : simpl never.
Arguments open_with : simpl never.
Arguments close : simpl never.
Arguments clock_rate : simpl never.

(** ** The call structure of [open] and [configure] *)

Section CallStructure.
Context {D : Type} `{DeviceAdapter D} `{PyRuntime}.

Lemma establish_connection_unfold (o : M D bool) a (st : state D) :
  establish_connection o a st =
    if Nat.eqb (size (store st)) 0 then discard (o (first_call st))
    else if a then discard (o (later_call st))
    else (inr tt, entered st).
Proof.
  unfold establish_connection, bind, log, emit, get_last_config_dict,
    dict_truth, discard, first_call, later_call, entered, store, deref, ret.
  cbn. destruct (Nat.eqb _ 0); cbn.
  - by destruct (o _) as [[?|?] ?].
  - destruct a; [|done]. by destruct (o _) as [[?|?] ?].
Qed.

Lemma open_with_unfold (cf : loc → bool → M D unit) (st : state D) :
  open_with cf st =
    if dev_is_open (dev_open (dev st)) then
      if Nat.eqb (size (store st)) 0 then
        opened (inr tt, add_event (EvLog INFO "Opening Andor Spectrometer was successful.") (connecting st))
      else opened (cf (next_loc st) false (reapplying st))
    else
      (inr false, add_event (EvLog INFO "Opening Andor Spectrometer failed.") (connecting st)).
Proof.
  unfold open_with, bind, log, emit, call, is_open, get_last_config_dict,
    dict_truth, dict_copy, opened, connecting, reapplying, store, deref, ret,
    add_event, set_dev.
  cbn. destruct (dev_is_open _); cbn.
  - destruct (Nat.eqb _ 0); cbn.
    + by rewrite <- !app_assoc.
    + rewrite <- !app_assoc. cbn. by destruct (cf _ _ _) as [[?|?] ?].
  - by rewrite <- !app_assoc.
Qed.

Lemma store_reapplying (st : state D) : store (reapplying st) = store st.
Proof.
  unfold store, deref, reapplying; cbn.
  destruct (decide (next_loc st = last_config_dict st)) as [->|Hne].
  - by rewrite lookup_total_insert_eq.
  - by rewrite lookup_total_insert_ne.
Qed.

Lemma configure_rec_unfold n c a (st : state D) :
  configure_rec (S n) c a st =
    match establish_connection (open_with (configure_rec n)) a st with
    | (inr _, st1) => apply_configuration c a st1
    | (inl e, st1) => (inl e, st1)
    end.
Proof. reflexivity. Qed.

(** A call with a non-empty store and [attempt_connection=False] does not
    call [open]. *)
Lemma configure_rec_inner n c (st : state D) :
  Nat.eqb (size (store st)) 0 = false →
  configure_rec (S n) c false st = apply_configuration c false (entered st).
Proof.
  intros E. rewrite configure_rec_unfold, establish_connection_unfold.
  by rewrite E.
Qed.

Lemma open_with_depth n (st : state D) :
  open_with (configure_rec (S n)) st = open_with (configure_rec 1) st.
Proof.
  rewrite !open_with_unfold.
  destruct (dev_is_open _); [|done].
  destruct (Nat.eqb (size (store st)) 0) eqn:E; [done|].
  rewrite !configure_rec_inner by (by rewrite store_reapplying). done.
Qed.

(** More room for nested calls changes nothing: two levels are all that
    [configure] uses. *)
Lemma configure_rec_depth n c a (st : state D) :
  configure_rec (S (S n)) c a st = configure c a st.
Proof.
  unfold configure. rewrite !configure_rec_unfold.
  rewrite !establish_connection_unfold.
  destruct (Nat.eqb (size (store st)) 0).
  - by rewrite (open_with_depth n).
  - destruct a; [|done]. by rewrite (open_with_depth n).
Qed.

Lemma configure_unfold c a (st : state D) :
  configure c a st =
    match establish_connection open a st with
    | (inr _, st1) => apply_configuration c a st1
    | (inl e, st1) => (inl e, st1)
    end.
Proof. reflexivity. Qed.

Lemma open_unfold (st : state D) :
  open st =
    if dev_is_open (dev_open (dev st)) then
      if Nat.eqb (size (store st)) 0 then
        opened (inr tt, add_event (EvLog INFO "Opening Andor Spectrometer was successful.") (connecting st))
      else opened (configure (next_loc st) false (reapplying st))
    else
      (inr false, add_event (EvLog INFO "Opening Andor Spectrometer failed.") (connecting st)).
Proof.
  unfold open. rewrite open_with_unfold.
  destruct (dev_is_open _); [|done].
  destruct (Nat.eqb (size (store st)) 0) eqn:E; [done|].
  unfold configure.
  rewrite !configure_rec_inner by (by rewrite store_reapplying). done.
Qed.

Lemma apply_configuration_not_open c a (st : state D) :
  dev_is_open (dev st) = false →
  apply_configuration c a st = (inr tt, not_open_state c st).
Proof.
  intros E. unfold apply_configuration, bind, is_open. cbn. rewrite E. cbn.
  reflexivity.
Qed.

Lemma apply_configuration_open c a (st : state D) :
  dev_is_open (dev st) = true →
  apply_configuration c a st =
    (fill_missing c;;
     write_settings c;;
     update_config_dict_from_current_values;;
     if a then _ <- close;; ret tt else ret tt) st.
Proof.
  intros E. unfold apply_configuration at 1.
  unfold bind at 1. unfold is_open. cbn. rewrite E. cbn. reflexivity.
Qed.

(** [start] raises [RuntimeError] when the connection cannot be
    established. *)
Lemma start_without_connection (st : state D) :
  dev_is_open (dev_open (dev st)) = false →
  fst (start st) = inl (RuntimeError "Failed to connect to Andor Spectrometer.").
Proof.
  intros Ho. unfold start.
  rewrite (bind_ok _ _ st tt (add_event (EvLog INFO "Starting controller.") st))
    by reflexivity.
  unfold bind at 1. unfold open. rewrite open_with_unfold.
  change (dev (add_event _ st)) with (dev st). rewrite Ho.
  unfold bind, is_open. cbn. by rewrite Ho.
Qed.

End CallStructure.

(** ** Filling the omitted settings *)

Section Fill.
Context {D : Type} `{DeviceAdapter D} `{PyRuntime}.

Lemma lookup_filled config stored k :
  filled config stored !! k = fill_entry (config !! k) (stored !! k).
Proof.
  unfold filled. rewrite lookup_merge. unfold diag_None.
  by destruct (config !! k), (stored !! k).
Qed.

Lemma deref_setitem c k v (st : state D) l :
  deref (snd (dict_setitem c k v st)) l =
    if decide (l = c) then <[k := v]> (deref st c) else deref st l.
Proof.
  unfold deref, dict_setitem, set_heap; cbn. case_decide as E.
  - subst. by rewrite lookup_total_insert_eq.
  - by rewrite lookup_total_insert_ne.
Qed.

Lemma fill_key_run c key x (st : state D) :
  store st !! key = Some x →
  ∃ st', fill_key c key st = (inr tt, st')
         ∧ same_but c st st'
         ∧ store st' = store st
         ∧ deref st' c =
             if is_None (default PyNone (deref st c !! key))
             then <[key := x]> (deref st c) else deref st c.
Proof.
  intros Hx. unfold fill_key, bind, dict_get, get_last_config_dict,
    dict_getitem. cbv beta iota.
  destruct (is_None (default PyNone (deref st c !! key))) eqn:E; cbv beta iota.
  - change (deref st (last_config_dict st)) with (store st). rewrite Hx.
    exists (snd (dict_setitem c key x st)). split; [reflexivity|].
    pose proof (deref_setitem c key x st) as Hd.
    split; [|split].
    + split; [|done]. intros l Hl. rewrite Hd. by rewrite decide_False.
    + unfold store. change (last_config_dict (snd (dict_setitem c key x st)))
        with (last_config_dict st). rewrite Hd. case_decide as Ec; [|done].
      rewrite <- Ec. by apply insert_id.
    + rewrite Hd. by rewrite decide_True.
  - exists st. split; [reflexivity|]. repeat split; done.
Qed.

Lemma fill_keys_run c (ks : list string) :
  NoDup ks → ∀ st : state D,
  (∀ k, k ∈ ks → is_Some (store st !! k)) →
  ∃ st', for_each ks (fill_key c) st = (inr tt, st')
         ∧ same_but c st st'
         ∧ store st' = store st
         ∧ ∀ k, deref st' c !! k =
                if decide (k ∈ ks)
                then fill_entry (deref st c !! k) (store st !! k)
                else deref st c !! k.
Proof.
  induction 1 as [|k0 ks Hk0 Hnd IH]; intros st Hks.
  - exists st. cbn. repeat split; done.
  - destruct (Hks k0) as [x Hx]; [by left|].
    destruct (fill_key_run c k0 x st Hx) as (st1 & E1 & F1 & S1 & C1).
    destruct (IH st1) as (st2 & E2 & F2 & S2 & C2).
    { intros k Hk. rewrite S1. apply Hks. by right. }
    exists st2. split.
    { cbn. by rewrite (bind_ok _ _ _ _ _ E1). }
    destruct F1 as (F1a & F1b & F1c & F1d & F1e).
    destruct F2 as (F2a & F2b & F2c & F2d & F2e).
    split; [|split; [congruence|]].
    { repeat split; try congruence. intros l Hl. by rewrite F2a, F1a. }
    intros k. rewrite C2, S1, C1.
    destruct (decide (k = k0)) as [->|Hne].
    + rewrite decide_False by done. rewrite decide_True by (by left).
      rewrite Hx. cbn.
      destruct (is_None (default PyNone (deref st c !! k0))) eqn:E; [|done].
      by rewrite lookup_insert_eq.
    + assert ((if is_None (default PyNone (deref st c !! k0))
               then <[k0:=x]> (deref st c) else deref st c) !! k
              = deref st c !! k) as ->.
      { destruct (is_None _); [by rewrite lookup_insert_ne|done]. }
      destruct (decide (k ∈ ks)) as [Hin|Hnin].
      * by rewrite decide_True by (by right).
      * rewrite decide_False; [done|].
        intros Hin. apply elem_of_cons in Hin as [?|?]; done.
Qed.

(** The loop of [configure] never raises; it changes the dictionary at
    [config_dict] alone, into [filled], and calls nothing. *)
Lemma fill_missing_run c (st : state D) :
  ∃ st', fill_missing c st = (inr tt, st')
         ∧ same_but c st st'
         ∧ store st' = store st
         ∧ deref st' c = filled (deref st c) (store st).
Proof.
  destruct (fill_keys_run c (map_to_list (store st)).*1
              (NoDup_fst_map_to_list _) st) as (st' & E & F & S & C).
  { intros k Hk. apply list_elem_of_fmap in Hk as [[k' v] [-> Hkv]].
    apply elem_of_map_to_list in Hkv. by exists v. }
  exists st'. split; [|split; [done|split; [done|]]].
  - unfold fill_missing, bind, get_last_config_dict, dict_keys. cbn.
    exact E.
  - apply map_eq. intros k. rewrite C, lookup_filled.
    case_decide as Hin; [done|].
    destruct (store st !! k) as [x|] eqn:Hx; [|done].
    exfalso. apply Hin. apply list_elem_of_fmap. exists (k, x).
    split; [done|]. by apply elem_of_map_to_list.
Qed.

(** A copy of the store is left as it is. *)
Lemma filled_same (d : gmap string PyVal) : filled d d = d.
Proof.
  apply map_eq. intros k. rewrite lookup_filled. unfold fill_entry.
  destruct (d !! k) as [x|]; [|done]. cbn. by destruct (is_None x) eqn:E.
Qed.

(** A request that names one setting changes that setting of the store
    and no other. *)
Lemma filled_singleton (d : gmap string PyVal) k v :
  v ≠ PyNone → filled {[k := v]} d = <[k := v]> d.
Proof.
  intros Hv. apply map_eq. intros j. rewrite lookup_filled. unfold fill_entry.
  destruct (decide (j = k)) as [->|Hne].
  - rewrite lookup_singleton_eq, lookup_insert_eq. cbn.
    destruct (d !! k); [|done]. by destruct v.
  - rewrite lookup_singleton_ne, lookup_insert_ne by done. cbn.
    by destruct (d !! j).
Qed.

End Fill.

(** ** The order of the assignments *)

Section ReadBack.
Context {D : Type} `{DeviceAdapter D} `{PyRuntime}.

Lemma read_first {B} f (k : PyVal → M D B) (st : state D) :
  bind (read f) k st = k (dev_get f (dev st)) (retraced (trace st ++ [EvGet f]) st).
Proof. reflexivity. Qed.

Lemma setitem_retraced {B} key v (k : unit → M D B) tr (st : state D) :
  bind (dict_setitem (last_config_dict st) key v) k (retraced tr st)
  = k tt (restored (<[key := v]> (store st)) tr st).
Proof. reflexivity. Qed.

Lemma read_restored {B} f (k : PyVal → M D B) s tr (st : state D) :
  bind (read f) k (restored s tr st)
  = k (dev_get f (dev st)) (restored s (tr ++ [EvGet f]) st).
Proof. reflexivity. Qed.

Lemma read_single_track_restored {B} (k : PyVal * PyVal → M D B) s tr
    (st : state D) :
  bind read_single_track k (restored s tr st)
  = k (dev_get_single_track (dev st)) (restored s (tr ++ [EvGetSingleTrack]) st).
Proof. reflexivity. Qed.

Lemma setitem_restored_run key v s tr (st : state D) :
  dict_setitem (last_config_dict st) key v (restored s tr st)
  = (inr tt, restored (<[key := v]> s) tr st).
Proof.
  unfold dict_setitem, restored, set_heap, deref. cbn.
  by rewrite lookup_total_insert_eq, insert_insert_eq.
Qed.

Lemma setitem_restored {B} key v (k : unit → M D B) s tr (st : state D) :
  bind (dict_setitem (last_config_dict st) key v) k (restored s tr st)
  = k tt (restored (<[key := v]> s) tr st).
Proof. unfold bind. by rewrite setitem_restored_run. Qed.

(** [update_config_dict_from_current_values] never raises: it reads
    every setting once (the single-track parameters twice) and leaves
    the store as [read_back] tells. *)
Lemma update_config_dict_run (st : state D) :
  update_config_dict_from_current_values st
  = (inr tt, restored (read_back (dev st) (store st)) (trace st ++ all_reads) st).
Proof.
  unfold update_config_dict_from_current_values.
  unfold bind at 1. unfold get_last_config_dict at 1. cbv beta iota.
  rewrite read_first, setitem_retraced.
  repeat first [ rewrite read_restored | rewrite read_single_track_restored
               | rewrite setitem_restored ].
  rewrite setitem_restored_run.
  unfold read_back, all_reads. by rewrite <- !app_assoc.
Qed.

End ReadBack.

Section WriteOrder.
Context {D : Type} `{DeviceAdapter D} `{PyRuntime}.

Lemma in_order_bounds lo evs hi : in_order lo evs hi → (lo ≤ hi)%nat.
Proof.
  revert lo. induction evs as [|e evs IH]; intros lo; cbn; [done|].
  intros (p & _ & Hlo & Hrest). apply IH in Hrest. lia.
Qed.

Lemma in_order_app lo mid hi e1 e2 :
  in_order lo e1 mid → in_order mid e2 hi → in_order lo (e1 ++ e2) hi.
Proof.
  revert lo. induction e1 as [|e e1 IH]; intros lo; cbn.
  - intros Hlo H2. destruct e2 as [|e e2]; cbn in *.
    + lia.
    + destruct H2 as (p & ? & ? & ?). exists p. split; [done|].
      split; [lia|done].
  - intros (p & Hp & Hlo & H1) H2. exists p. eauto.
Qed.

Lemma in_order_wider lo evs hi hi' :
  in_order lo evs hi → (hi ≤ hi')%nat → in_order lo evs hi'.
Proof.
  intros H1 Hle. rewrite <- (app_nil_r evs).
  by apply (in_order_app lo hi hi').
Qed.

(** Earlier in the list is earlier in the order, and in no later group. *)
Lemma in_order_lookup lo evs hi i j e1 e2 :
  in_order lo evs hi → (i < j)%nat →
  evs !! i = Some e1 → evs !! j = Some e2 →
  ∃ p1 p2, write_place e1 = Some p1 ∧ write_place e2 = Some p2
           ∧ (lo ≤ p1 < p2)%nat ∧ (p2 < hi)%nat.
Proof.
  revert lo i j. induction evs as [|e evs IH]; intros lo i j; [done|].
  cbn. intros (p & Hp & Hlo & Hrest) Hij Hi Hj.
  destruct j as [|j]; [lia|]. cbn in Hj.
  destruct i as [|i]; cbn in Hi.
  - injection Hi as <-.
    assert (∃ p2, write_place e2 = Some p2 ∧ (S p ≤ p2 < hi)%nat)
      as (p2 & Hp2 & Hb).
    { clear -Hrest Hj. revert j Hrest Hj. generalize (S p) as lo.
      induction evs as [|e' evs IH']; intros lo j; [done|].
      cbn. intros (q & Hq & Hlo' & Hrest') Hj. destruct j as [|j]; cbn in Hj.
      - injection Hj as <-. exists q. split; [done|].
        apply in_order_bounds in Hrest'. lia.
      - destruct (IH' (S q) j Hrest' Hj) as (p2 & ? & ?).
        exists p2. split; [done|lia]. }
    exists p, p2. repeat split; try done; lia.
  - destruct (IH (S p) i j Hrest ltac:(lia) Hi Hj)
      as (p1 & p2 & ? & ? & ? & ?).
    exists p1, p2. repeat split; try done; lia.
Qed.

Lemma stage_mono p q : (p ≤ q)%nat → (stage p ≤ stage q)%nat.
Proof.
  intros Hpq. unfold stage.
  repeat match goal with
         | |- context [(?a <? ?b)%nat] =>
             destruct (Nat.ltb_spec a b)
         end; lia.
Qed.

Lemma complete_app lo mid hi e1 e2 :
  complete lo e1 mid → complete mid e2 hi → complete lo (e1 ++ e2) hi.
Proof.
  intros H1 H2 p Hp Hopt. destruct (Nat.lt_ge_cases p mid) as [Hlt|Hge].
  - destruct (H1 p ltac:(lia) Hopt) as (e & ? & ?). exists e.
    split; [|done]. apply elem_of_app. by left.
  - destruct (H2 p ltac:(lia) Hopt) as (e & ? & ?). exists e.
    split; [|done]. apply elem_of_app. by right.
Qed.

Lemma writes_bind {A B} lo mid hi (m : M D A) (k : A → M D B) :
  (mid ≤ hi)%nat →
  writes lo mid m → (∀ a, writes mid hi (k a)) → writes lo hi (bind m k).
Proof.
  intros Hle Hm Hk st.
  destruct (Hm st) as (Eh & En & El & e1 & Et & Ho & Hc). unfold bind.
  destruct (m st) as [[e|a] st1]; cbn in *.
  - repeat split; try done. exists e1. split; [done|].
    split; [by apply (in_order_wider lo e1 mid)|done].
  - destruct (Hk a st1) as (Eh2 & En2 & El2 & e2 & Et2 & Ho2 & Hc2).
    repeat split; try congruence. exists (e1 ++ e2).
    split; [by rewrite Et2, Et, app_assoc|].
    split; [by apply (in_order_app lo mid hi)|].
    intros Hok. apply (complete_app lo mid hi); auto.
Qed.

Lemma writes_nothing {A} lo (m : M D A) :
  (∀ st, snd (m st) = st) → writes lo lo m.
Proof.
  intros Hs st. rewrite Hs. repeat split; try done.
  exists []. rewrite app_nil_r. split; [done|].
  split; [cbn; lia|]. intros _ p Hp. lia.
Qed.

Lemma writes_getitem lo c key : writes (D := D) lo lo (dict_getitem c key).
Proof.
  apply writes_nothing. intros st. unfold dict_getitem.
  by destruct (deref st c !! key).
Qed.

Lemma writes_lift {A} lo (r : exn + A) : writes (D := D) lo lo (lift r).
Proof. by apply writes_nothing. Qed.

Lemma writes_ret {A} lo (a : A) : writes (D := D) lo lo (ret a).
Proof. by apply writes_nothing. Qed.

Lemma writes_skip lo hi :
  (lo ≤ hi)%nat → (∀ p, (lo ≤ p < hi)%nat → optional_place p = true) →
  writes (D := D) lo hi (ret tt).
Proof.
  intros Hle Hopt st. cbn. repeat split; try done.
  exists []. rewrite app_nil_r. split; [done|]. split; [done|].
  intros _ p Hp Hno. rewrite Hopt in Hno; done.
Qed.

Lemma writes_one {A} (m : M D A) e p :
  write_place e = Some p →
  (∀ st, heap (snd (m st)) = heap st
         ∧ next_loc (snd (m st)) = next_loc st
         ∧ last_config_dict (snd (m st)) = last_config_dict st
         ∧ trace (snd (m st)) = trace st ++ [e]) →
  writes p (S p) m.
Proof.
  intros Hp Hm st. destruct (Hm st) as (? & ? & ? & Et).
  repeat split; try done. exists [e]. split; [done|]. split.
  - cbn. exists p. split; [done|]. split; lia.
  - intros _ q Hq _. exists e. split; [by left|].
    replace q with p by lia. done.
Qed.

Lemma writes_assign f v :
  writes (D := D) (write_order f) (S (write_order f)) (assign f v).
Proof.
  apply (writes_one _ (EvSet f v)); [done|]. intros st. unfold assign.
  by destruct (dev_set f v (dev st)).
Qed.

Lemma writes_assign_single_track row height :
  writes (D := D) 19 20 (assign_single_track row height).
Proof.
  apply (writes_one _ (EvSetSingleTrack row height)); [done|]. intros st.
  unfold assign_single_track.
  by destruct (dev_set_single_track row height (dev st)).
Qed.

Lemma writes_if {A} lo hi (b : bool) (m1 m2 : M D A) :
  writes lo hi m1 → writes lo hi m2 → writes lo hi (if b then m1 else m2).
Proof. by destruct b. Qed.

End WriteOrder.

Ltac writes_step :=
  lazymatch goal with
  | |- writes ?lo ?hi (bind (assign ?f ?v) _) =>
      apply (writes_bind lo (S lo) hi);
      [lia | exact (writes_assign f v) | intros ?]
  | |- writes ?lo ?hi (bind (assign_single_track ?r ?h) _) =>
      apply (writes_bind lo (S lo) hi);
      [lia | exact (writes_assign_single_track r h) | intros ?]
  | |- writes ?lo ?hi (bind (dict_getitem ?c ?k) _) =>
      apply (writes_bind lo lo hi);
      [lia | exact (writes_getitem lo c k) | intros ?]
  | |- writes ?lo ?hi (bind (lift ?r) _) =>
      apply (writes_bind lo lo hi);
      [lia | exact (writes_lift lo r) | intros ?]
  | |- writes ?lo ?hi (bind (if _ then lift _ else ret _) _) =>
      apply (writes_bind lo lo hi);
      [lia | apply writes_if; [apply writes_lift | apply writes_ret]
      | intros ?]
  | |- writes _ _ (assign ?f ?v) => exact (writes_assign f v)
  end.

Section WritePhase.
Context {D : Type} `{DeviceAdapter D} `{PyRuntime}.

Lemma writes_horizontal_shift_speed v :
  writes (D := D) 21 24 (set_horizontal_shift_speed v).
Proof.
  unfold set_horizontal_shift_speed. apply writes_if.
  - repeat writes_step.
  - apply writes_skip; [lia|]. intros p Hp. unfold optional_place.
    apply andb_true_iff. split; apply Nat.leb_le; lia.
Qed.

Lemma writes_pre_amp_gain v : writes (D := D) 24 25 (set_pre_amp_gain v).
Proof.
  unfold set_pre_amp_gain. apply writes_if.
  - repeat writes_step.
  - apply writes_skip; [lia|]. intros p Hp. unfold optional_place.
    apply andb_true_iff. split; apply Nat.leb_le; lia.
Qed.

(** The assignments of [configure] are made in the order of the source,
    each setting once. *)
Lemma writes_write_settings c : writes (D := D) 0 29 (write_settings c).
Proof.
  unfold write_settings. repeat writes_step.
  apply (writes_bind 21 24 29); [lia|apply writes_horizontal_shift_speed|].
  intros _. writes_step.
  apply (writes_bind 24 25 29); [lia|apply writes_pre_amp_gain|].
  intros _. repeat writes_step.
Qed.

End WritePhase.

(** ** The values of the assignments *)

Section Sends.
Context {D : Type} `{DeviceAdapter D} `{PyRuntime}.

Lemma bind_getitem {B} (c : loc) key (k : PyVal → M D B) (st : state D) :
  bind (dict_getitem c key) k st
  = match deref st c !! key with
    | Some v => k v st
    | None => (inl (KeyError key), st)
    end.
Proof. unfold bind, dict_getitem. by destruct (deref st c !! key). Qed.

Lemma bind_lift {A B} (r : exn + A) (k : A → M D B) (st : state D) :
  bind (lift r) k st
  = match r with
    | inr a => k a st
    | inl e => (inl e, st)
    end.
Proof. unfold bind, lift. by destruct r. Qed.

Lemma bind_assign {B} f v (k : unit → M D B) (st : state D) :
  bind (assign f v) k st
  = match dev_set f v (dev st) with
    | inr d => k tt (set_dev d (add_event (EvSet f v) st))
    | inl e => (inl e, add_event (EvSet f v) st)
    end.
Proof. unfold bind, assign. by destruct (dev_set f v (dev st)). Qed.

Lemma sends_nothing (c : loc) : sends (D := D) c [] (ret tt).
Proof.
  intros st. split; [done|]. intros _. exists []. by rewrite app_nil_r.
Qed.

Lemma sends_assign_then (c : loc) f v (rest : M D unit) steps :
  sends c steps rest →
  ∀ st, heap (snd ((assign f v;; rest) st)) = heap st
        ∧ (is_ok (fst ((assign f v;; rest) st)) →
           ∃ ws, run_steps steps (deref st c) = Some ws
                 ∧ trace (snd ((assign f v;; rest) st))
                   = trace st ++ EvSet f v :: ws).
Proof.
  intros Hr st. rewrite bind_assign.
  destruct (dev_set f v (dev st)) as [e|d]; [split; [done|intros []]|].
  destruct (Hr (set_dev d (add_event (EvSet f v) st))) as [Eh Hok].
  split; [exact Eh|]. intros Hi. destruct (Hok Hi) as (ws & Hw & Et).
  exists ws. split; [exact Hw|]. rewrite Et. cbn. by rewrite <- app_assoc.
Qed.

Lemma sends_plainly (c : loc) key f (rest : M D unit) steps :
  sends c steps rest →
  sends c (plainly key f :: steps)
    (v <- dict_getitem c key;; assign f v;; rest).
Proof.
  intros Hr st. rewrite bind_getitem.
  destruct (deref st c !! key) as [v|] eqn:Ek; [|split; [done|intros []]].
  destruct (sends_assign_then c f v rest steps Hr st) as [Eh Hok].
  split; [exact Eh|]. intros Hi. destruct (Hok Hi) as (ws & Hw & Et).
  exists (EvSet f v :: ws). split; [|exact Et].
  cbn. unfold plainly. rewrite Ek. cbn. by rewrite Hw.
Qed.

Lemma sends_plainly_last (c : loc) key f :
  sends (D := D) c [plainly key f] (v <- dict_getitem c key;; assign f v).
Proof.
  intros st. rewrite bind_getitem.
  destruct (deref st c !! key) as [v|] eqn:Ek; [|split; [done|intros []]].
  unfold assign. destruct (dev_set f v (dev st)) as [e|d];
    [split; [done|intros []]|].
  split; [done|]. intros _. exists [EvSet f v]. split; [|done].
  cbn. unfold plainly. by rewrite Ek.
Qed.

Lemma sends_converted (c : loc) key conv f (rest : M D unit) steps :
  sends c steps rest →
  sends c (converted key conv f :: steps)
    (x <- dict_getitem c key;; v <- lift (conv x);; assign f v;; rest).
Proof.
  intros Hr st. rewrite bind_getitem.
  destruct (deref st c !! key) as [x|] eqn:Ek; [|split; [done|intros []]].
  rewrite bind_lift.
  destruct (conv x) as [e|v] eqn:Ec; [split; [done|intros []]|].
  destruct (sends_assign_then c f v rest steps Hr st) as [Eh Hok].
  split; [exact Eh|]. intros Hi. destruct (Hok Hi) as (ws & Hw & Et).
  exists (EvSet f v :: ws). split; [|exact Et].
  cbn. unfold converted. rewrite Ek. cbn. rewrite Ec. cbn. by rewrite Hw.
Qed.

Lemma sends_vertical_speed (c : loc) (rest : M D unit) steps :
  sends c steps rest →
  sends c (converted "vertical_shift_speed" vertical_speed
             vertical_shift_speed :: steps)
    (vss_value <- dict_getitem c "vertical_shift_speed";;
     vss_value <- (if is_str vss_value then lift (float_val vss_value)
                   else ret vss_value);;
     assign vertical_shift_speed vss_value;; rest).
Proof.
  intros Hr st.
  destruct (sends_converted c "vertical_shift_speed" vertical_speed
              vertical_shift_speed rest steps Hr st) as [Eh Hok].
  assert ((vss_value <- dict_getitem c "vertical_shift_speed";;
           vss_value <- (if is_str vss_value then lift (float_val vss_value)
                         else ret vss_value);;
           assign vertical_shift_speed vss_value;; rest) st
          = (x <- dict_getitem c "vertical_shift_speed";;
             v <- lift (vertical_speed x);;
             assign vertical_shift_speed v;; rest) st) as ->; [|by split].
  rewrite !bind_getitem.
  destruct (deref st c !! "vertical_shift_speed") as [x|]; [|done].
  unfold vertical_speed. by destruct (is_str x).
Qed.

Lemma sends_single_track (c : loc) (rest : M D unit) steps :
  sends c steps rest →
  sends c (single_track_step :: steps)
    (single_track_center_row <- dict_getitem c "single_track_center_row";;
     single_track_height <- dict_getitem c "single_track_height";;
     assign_single_track single_track_center_row single_track_height;;
     rest).
Proof.
  intros Hr st. rewrite bind_getitem.
  destruct (deref st c !! "single_track_center_row") as [r|] eqn:Er;
    [|split; [done|intros []]].
  rewrite bind_getitem.
  destruct (deref st c !! "single_track_height") as [h|] eqn:Eh';
    [|split; [done|intros []]].
  unfold bind, assign_single_track.
  destruct (dev_set_single_track r h (dev st)) as [e|d];
    [split; [done|intros []]|].
  destruct (Hr (set_dev d (add_event (EvSetSingleTrack r h) st)))
    as [Eh Hok].
  split; [exact Eh|]. intros Hi. destruct (Hok Hi) as (ws & Hw & Et).
  exists (EvSetSingleTrack r h :: ws). split.
  - cbn. unfold single_track_step. rewrite Er. cbn. rewrite Eh'. cbn.
    change (deref _ c) with (deref st c) in Hw. by rewrite Hw.
  - rewrite Et. cbn. by rewrite <- app_assoc.
Qed.

(** The horizontal shift speed and the gain: what they assign when they
    return. *)
Lemma shift_speed_run v (st : state D) :
  heap (snd (set_horizontal_shift_speed v st)) = heap st
  ∧ (is_ok (fst (set_horizontal_shift_speed v st)) →
     ∃ ws, shift_speed_writes v = Some ws
           ∧ trace (snd (set_horizontal_shift_speed v st)) = trace st ++ ws
           ∧ ∃ d, snd (set_horizontal_shift_speed v st)
                  = mkState (heap st) (next_loc st) (last_config_dict st) d
                      (trace st ++ ws)).
Proof.
  unfold set_horizontal_shift_speed, shift_speed_writes.
  destruct (is_None v); cbn [negb].
  { split; [done|]. intros _. exists []. rewrite app_nil_r.
    split; [done|]. split; [done|]. exists (dev st). by destruct st. }
  rewrite bind_lift.
  destruct (hss_pieces v) as [e|pieces] eqn:E0; [split; [done|intros []]|].
  rewrite bind_lift.
  destruct (py_index pieces 0) as [e|x] eqn:E1; [split; [done|intros []]|].
  rewrite bind_lift.
  destruct (int_val x) as [e|a] eqn:E2; [split; [done|intros []]|].
  rewrite bind_assign.
  destruct (dev_set ad_channel a (dev st)) as [e|d1];
    [split; [done|intros []]|].
  rewrite bind_lift.
  destruct (py_index pieces 1) as [e|y] eqn:E3; [split; [done|intros []]|].
  rewrite bind_lift.
  destruct (int_val y) as [e|b] eqn:E4; [split; [done|intros []]|].
  rewrite bind_assign. cbn [dev set_dev].
  destruct (dev_set output_amplifier b d1) as [e|d2];
    [split; [done|intros []]|].
  rewrite bind_lift.
  destruct (py_index pieces 2) as [e|z] eqn:E5; [split; [done|intros []]|].
  rewrite bind_lift.
  destruct (float_val z) as [e|w] eqn:E6; [split; [done|intros []]|].
  unfold assign. cbn [dev set_dev].
  destruct (dev_set horizontal_shift_speed w d2) as [e|d3];
    [split; [done|intros []]|].
  split; [done|]. intros _.
  exists [ EvSet ad_channel a; EvSet output_amplifier b;
           EvSet horizontal_shift_speed w ].
  split.
  { cbn. rewrite ?E1. cbn. rewrite ?E2. cbn. rewrite ?E3. cbn.
    rewrite ?E4. cbn. rewrite ?E5. cbn. by rewrite ?E6. }
  split; [cbn; by rewrite <- !app_assoc|].
  exists d3. unfold set_dev, add_event. cbn. f_equal.
  by rewrite <- !app_assoc.
Qed.

Lemma gain_run v (st : state D) :
  heap (snd (set_pre_amp_gain v st)) = heap st
  ∧ (is_ok (fst (set_pre_amp_gain v st)) →
     ∃ ws, gain_writes v = Some ws
           ∧ ∃ d, snd (set_pre_amp_gain v st)
                  = mkState (heap st) (next_loc st) (last_config_dict st) d
                      (trace st ++ ws)).
Proof.
  unfold set_pre_amp_gain, gain_writes.
  destruct (is_None v); cbn [negb].
  { split; [done|]. intros _. exists []. rewrite app_nil_r.
    split; [done|]. exists (dev st). by destruct st. }
  rewrite bind_lift.
  destruct (float_val v) as [e|w]; [split; [done|intros []]|].
  unfold assign.
  destruct (dev_set pre_amp_gain w (dev st)) as [e|d];
    [split; [done|intros []]|].
  split; [done|]. intros _. eexists. split; [reflexivity|]. by exists d.
Qed.

Lemma sends_shift_speed (c : loc) (rest : M D unit) steps :
  sends c steps rest →
  sends c (shift_speed_step :: steps)
    (hss_value <- dict_getitem c "horizontal_shift_speed";;
     set_horizontal_shift_speed hss_value;; rest).
Proof.
  intros Hr st. rewrite bind_getitem.
  destruct (deref st c !! "horizontal_shift_speed") as [v|] eqn:Ek;
    [|split; [done|intros []]].
  destruct (shift_speed_run v st) as [Eh1 Hok1]. unfold bind.
  destruct (set_horizontal_shift_speed v st) as [[e|[]] s1];
    [split; [done|intros []]|].
  cbn [fst snd] in *.
  destruct (Hok1 I) as (ws1 & Hw1 & _ & d & ->).
  destruct (Hr (mkState (heap st) (next_loc st) (last_config_dict st) d
                  (trace st ++ ws1))) as [Eh Hok].
  split; [exact Eh|]. intros Hi. destruct (Hok Hi) as (ws & Hw & Et).
  exists (ws1 ++ ws). split.
  - cbn. unfold shift_speed_step. rewrite Ek. cbn. rewrite Hw1. cbn.
    change (deref _ c) with (deref st c) in Hw. by rewrite Hw.
  - rewrite Et. cbn. by rewrite <- app_assoc.
Qed.

Lemma sends_gain (c : loc) (rest : M D unit) steps :
  sends c steps rest →
  sends c (gain_step :: steps)
    (pre_amp_gain_value <- dict_getitem c "pre_amp_gain";;
     set_pre_amp_gain pre_amp_gain_value;; rest).
Proof.
  intros Hr st. rewrite bind_getitem.
  destruct (deref st c !! "pre_amp_gain") as [v|] eqn:Ek;
    [|split; [done|intros []]].
  destruct (gain_run v st) as [Eh1 Hok1]. unfold bind.
  destruct (set_pre_amp_gain v st) as [[e|[]] s1];
    [split; [done|intros []]|].
  cbn [fst snd] in *.
  destruct (Hok1 I) as (ws1 & Hw1 & d & ->).
  destruct (Hr (mkState (heap st) (next_loc st) (last_config_dict st) d
                  (trace st ++ ws1))) as [Eh Hok].
  split; [exact Eh|]. intros Hi. destruct (Hok Hi) as (ws & Hw & Et).
  exists (ws1 ++ ws). split.
  - cbn. unfold gain_step. rewrite Ek. cbn. rewrite Hw1. cbn.
    change (deref _ c) with (deref st c) in Hw. by rewrite Hw.
  - rewrite Et. cbn. by rewrite <- app_assoc.
Qed.

End Sends.

Ltac sends_step :=
  lazymatch goal with
  | |- sends ?c (plainly ?k ?f :: ?steps)
         (bind (dict_getitem ?c ?k) (fun v => bind (assign ?f v) (fun _ => ?rest))) =>
      refine (sends_plainly c k f rest steps _)
  | |- sends ?c [plainly ?k ?f] _ => exact (sends_plainly_last c k f)
  | |- sends ?c (converted "vertical_shift_speed" _ _ :: ?steps)
         (bind _ (fun x => bind _ (fun v => bind _ (fun _ => ?rest)))) =>
      refine (sends_vertical_speed c rest steps _)
  | |- sends ?c (converted ?k ?conv ?f :: ?steps)
         (bind _ (fun x => bind _ (fun v => bind _ (fun _ => ?rest)))) =>
      refine (sends_converted c k conv f rest steps _)
  | |- sends ?c (single_track_step :: ?steps)
         (bind _ (fun r => bind _ (fun h => bind _ (fun _ => ?rest)))) =>
      refine (sends_single_track c rest steps _)
  | |- sends ?c (shift_speed_step :: ?steps)
         (bind _ (fun v => bind _ (fun _ => ?rest))) =>
      refine (sends_shift_speed c rest steps _)
  | |- sends ?c (gain_step :: ?steps)
         (bind _ (fun v => bind _ (fun _ => ?rest))) =>
      refine (sends_gain c rest steps _)
  end.

Section SendsSettings.
Context {D : Type} `{DeviceAdapter D} `{PyRuntime}.

(** The write pass of [configure] assigns what the dictionary holds. *)
Lemma sends_write_settings c : sends (D := D) c write_steps (write_settings c).
Proof. unfold write_settings, write_steps. repeat sends_step. Qed.

End SendsSettings.

(** ** [configure] with an open connection *)

Section Configure.
Context {D : Type} `{DeviceAdapter D} `{PyRuntime}.

Lemma bind_ret_tt (m : M D unit) (st : state D) :
  bind m (λ _, ret tt) st = m st.
Proof. unfold bind, ret. by destruct (m st) as [[e|[]] s]. Qed.

Lemma apply_configuration_open_run c a (st : state D) :
  dev_is_open (dev st) = true →
  apply_configuration c a st = configured c a st.
Proof.
  intros E. rewrite apply_configuration_open by done. unfold configured.
  destruct (fill_missing_run c st) as (st2 & E2 & _).
  rewrite (bind_ok _ _ _ _ _ E2), E2. cbn [snd].
  unfold bind at 1. destruct (write_settings c st2) as [[e|[]] st3]; [done|].
  unfold bind at 1. rewrite update_config_dict_run.
  fold (read_back_state st3). destruct a; [|done].
  unfold bind, ret. pose proof (close_returns (read_back_state st3)) as Hc.
  by destruct (close (read_back_state st3)) as [[e|b] st5].
Qed.

Lemma configure_open_run c a (st st1 : state D) :
  establish_connection open a st = (inr tt, st1) →
  dev_is_open (dev st1) = true →
  configure c a st = configured c a st1.
Proof.
  intros E1 Ho. rewrite configure_unfold, E1.
  by apply apply_configuration_open_run.
Qed.

Lemma configure_not_open_run c a (st st1 : state D) :
  establish_connection open a st = (inr tt, st1) →
  dev_is_open (dev st1) = false →
  configure c a st = (inr tt, not_open_state c st1).
Proof.
  intros E1 Ho. rewrite configure_unfold, E1.
  by apply apply_configuration_not_open.
Qed.

Lemma close_events (st : state D) :
  ∃ evs, trace (snd (close st)) = trace st ++ evs
         ∧ Forall (λ e, is_connection_event e = true) evs.
Proof.
  destruct (dev_is_open (dev st)) eqn:E.
  - rewrite close_open by done. eexists. split; [reflexivity|].
    repeat constructor.
  - rewrite close_closed by done. eexists. split; [reflexivity|].
    repeat constructor.
Qed.

Lemma deref_restored s tr (st : state D) l :
  l ≠ last_config_dict st → deref (restored s tr st) l = deref st l.
Proof. intros Hl. unfold deref, restored; cbn. by rewrite lookup_total_insert_ne. Qed.


Lemma deref_close (st : state D) l : deref (snd (close st)) l = deref st l.
Proof. unfold deref. by destruct (close_keeps_heap st) as (-> & _). Qed.

End Configure.

(** ** The passes of a call *)

Section Passes.
Context {D : Type} `{DeviceAdapter D} `{PyRuntime}.

Lemma deref_reapplying_copy (st : state D) :
  deref (reapplying st) (next_loc st) = store st.
Proof. unfold deref, reapplying; cbn. by rewrite lookup_total_insert_eq. Qed.

Lemma deref_reapplying_other (st : state D) l :
  l ≠ next_loc st → deref (reapplying st) l = deref st l.
Proof.
  intros Hl. unfold deref, reapplying; cbn. by rewrite lookup_total_insert_ne.
Qed.

Lemma configure_reapplying (st : state D) c :
  Nat.eqb (size (store st)) 0 = false →
  dev_is_open (dev_open (dev st)) = true →
  configure c false (reapplying st) = configured c false (entered (reapplying st)).
Proof.
  intros Hs Ho. apply configure_open_run; [|done].
  rewrite establish_connection_unfold.
  by rewrite store_reapplying, Hs.
Qed.

Lemma store_filled_state c (st1 : state D) :
  store (filled_state c st1) = store st1
  ∧ last_config_dict (filled_state c st1) = last_config_dict st1
  ∧ trace (filled_state c st1) = trace st1
  ∧ dev (filled_state c st1) = dev st1.
Proof.
  unfold filled_state.
  destruct (fill_missing_run c st1) as (st2 & E2 & F2 & S2 & _).
  rewrite E2. cbn [snd]. by destruct F2 as (_ & _ & ? & ? & ?).
Qed.

Lemma store_written_state c (st1 : state D) :
  store (written_state c st1) = store st1
  ∧ last_config_dict (written_state c st1) = last_config_dict st1.
Proof.
  unfold written_state.
  destruct (writes_write_settings c (filled_state c st1)) as (Eh & _ & El & _).
  destruct (store_filled_state c st1) as (Es & El2 & _).
  split; [|congruence]. unfold store, deref in *. by rewrite Eh, El.
Qed.

Lemma configured_unfold c a (st1 : state D) :
  configured c a st1 =
    match fst (write_settings c (filled_state c st1)) with
    | inl e => (inl e, written_state c st1)
    | inr _ => (inr tt, if a then snd (close (read_back_state (written_state c st1)))
                        else read_back_state (written_state c st1))
    end.
Proof.
  unfold configured, written_state, filled_state.
  by destruct (write_settings c (snd (fill_missing c st1))) as [[e|[]] st3].
Qed.

Lemma store_read_back_state (st : state D) :
  store (read_back_state st) = read_back (dev st) (store st).
Proof.
  unfold read_back_state, store, deref, restored. cbn.
  by rewrite lookup_total_insert_eq.
Qed.

Lemma store_close (st : state D) : store (snd (close st)) = store st.
Proof.
  unfold store. destruct (close_keeps_heap st) as (_ & _ & ->).
  apply deref_close.
Qed.

Lemma deref_filled_state c (st1 : state D) :
  deref (filled_state c st1) c = filled (deref st1 c) (store st1).
Proof.
  unfold filled_state.
  destruct (fill_missing_run c st1) as (st2 & E2 & _ & _ & C2).
  by rewrite E2.
Qed.

(** The write pass of a call that finds the connection open: its calls
    are in order, and when it goes through they are those the filled
    dictionary asks for, all of them. *)
Lemma write_pass c (st1 : state D) :
  ∃ ws, trace (written_state c st1) = trace st1 ++ ws
        ∧ in_order 0 ws 29
        ∧ (is_ok (fst (write_settings c (filled_state c st1))) →
           complete 0 ws 29
           ∧ intended_writes (filled (deref st1 c) (store st1)) = Some ws).
Proof.
  destruct (writes_write_settings c (filled_state c st1))
    as (_ & _ & _ & ws & Et & Hord & Hc).
  destruct (sends_write_settings c (filled_state c st1)) as [_ Hs].
  destruct (store_filled_state c st1) as (_ & _ & Et1 & _).
  fold (written_state c st1) in Et, Hs. rewrite Et1 in Et.
  exists ws. split; [exact Et|]. split; [exact Hord|].
  intros Hok. split; [by apply Hc|].
  destruct (Hs Hok) as (ws' & Hw & Et'). rewrite Et1 in Et'.
  rewrite deref_filled_state in Hw.
  assert (ws' = ws) as -> by (apply (app_inv_head (trace st1)); congruence).
  exact Hw.
Qed.

(** [open] on a store that is not empty, once the adapter is connected:
    if it returns, it has made one complete pass from the store. *)
Lemma open_reapply_run (st : state D) :
  dev_is_open (dev_open (dev st)) = true →
  size (store st) ≠ 0%nat →
  let c := next_loc st in
  let st1 := entered (reapplying st) in
  open st = opened (configured c false st1)
  ∧ filled (deref st1 c) (store st1) = store st
  ∧ store (written_state c st1) = store st
  ∧ (is_ok (fst (open st)) →
     fst (open st) = inr true
     ∧ snd (open st)
       = add_event (EvLog INFO "Latest configuration settings were set.")
           (read_back_state (written_state c st1))).
Proof.
  intros Ho Hs c st1.
  assert (Nat.eqb (size (store st)) 0 = false) as Hs'
      by (by apply Nat.eqb_neq).
  assert (open st = opened (configured c false st1)) as Eo.
  { rewrite open_unfold, Ho, Hs'. by rewrite configure_reapplying. }
  split; [exact Eo|].
  assert (store st1 = store st) as Es1.
  { subst st1. change (store (entered (reapplying st)))
      with (store (reapplying st)). apply store_reapplying. }
  split.
  { rewrite Es1. subst st1 c.
    change (deref (entered (reapplying st)) (next_loc st))
      with (deref (reapplying st) (next_loc st)).
    rewrite deref_reapplying_copy. apply filled_same. }
  split.
  { destruct (store_written_state c st1) as [-> _]. exact Es1. }
  rewrite Eo, configured_unfold.
  destruct (fst (write_settings c (filled_state c st1))) as [e|[]];
    [intros []|]. intros _. done.
Qed.

End Passes.

Section ConfigureProperties.
Context {D : Type} `{DeviceAdapter D} `{PyRuntime}.

(** C1: when the device is not open after the connection step of
    [configure], the call returns normally, hands one record to the
    logger at error level ("Spectrometer is not open. Cannot configure.")
    and leaves the store updated with the entries of [config_dict]; the
    device is not touched.  With an empty store [configure] calls [open],
    and so the adapter's [open], whatever [attempt_connection] is; and
    if that does not connect, the store ends up holding the entries of
    [config_dict]. *)
Theorem configure_without_connection c a (st : state D) :
  (∀ st1, establish_connection open a st = (inr tt, st1) →
          dev_is_open (dev st1) = false →
          configure c a st = (inr tt, not_open_state c st1)
          ∧ store (not_open_state c st1) = deref st1 c ∪ store st1
          ∧ dev (not_open_state c st1) = dev st1
          ∧ trace (not_open_state c st1) =
              trace st1 ++ [EvLog ERROR "Spectrometer is not open. Cannot configure."])
  ∧ (size (store st) = 0%nat →
     ∃ rest, trace (snd (configure c a st)) =
               trace (first_call st)
               ++ [EvLog INFO "Opening Andor Spectrometer"; EvConnect] ++ rest)
  ∧ (size (store st) = 0%nat → dev_is_open (dev_open (dev st)) = false →
     fst (configure c a st) = inr tt
     ∧ store (snd (configure c a st)) = deref st c
     ∧ dev (snd (configure c a st)) = dev_open (dev st)
     ∧ trace (snd (configure c a st)) =
         trace (first_call st)
         ++ [ EvLog INFO "Opening Andor Spectrometer"; EvConnect;
              EvLog INFO "Opening Andor Spectrometer failed.";
              EvLog ERROR "Spectrometer is not open. Cannot configure." ]).
Proof.
  split; [|split].
  - intros st1 E1 Ho. split; [by apply configure_not_open_run|].
    split; [|done]. unfold store, deref, not_open_state; cbn.
    by rewrite lookup_total_insert_eq.
  - intros Hs. rewrite configure_unfold, establish_connection_unfold, Hs.
    cbn [Nat.eqb]. rewrite open_unfold.
    change (store (first_call st)) with (store st). rewrite Hs. cbn [Nat.eqb].
    change (dev (first_call st)) with (dev st).
    destruct (dev_is_open (dev_open (dev st))) eqn:Ho; cbn [opened discard].
    + match goal with |- context [apply_configuration c a ?s] =>
        destruct (extends_apply_configuration c a s) as [evs ->] end.
      eexists. cbn. rewrite <- !app_assoc. cbn. reflexivity.
    + rewrite apply_configuration_not_open by done.
      eexists. cbn. rewrite <- !app_assoc. cbn. reflexivity.
  - intros Hs Ho. rewrite configure_unfold, establish_connection_unfold, Hs.
    cbn [Nat.eqb]. rewrite open_unfold.
    change (dev (first_call st)) with (dev st). rewrite Ho. cbn [discard].
    rewrite apply_configuration_not_open by done. cbn [fst snd].
    split; [done|]. split; [|split].
    + unfold store, deref, not_open_state; cbn.
      rewrite lookup_total_insert_eq.
      apply map_size_empty_iff in Hs. unfold store, deref in Hs.
      rewrite Hs. by rewrite (right_id_L ∅ (∪)).
    + done.
    + cbn. by rewrite <- !app_assoc.
Qed.

(** The connection step of a call that then finds the connection open:
    what it did before. *)
Lemma connection_step a (st st1 : state D) :
  establish_connection open a st = (inr tt, st1) →
  dev_is_open (dev st1) = true →
  (size (store st) = 0%nat →
     st1 = add_event (EvLog INFO "Latest configuration settings were set.")
             (add_event (EvLog INFO "Opening Andor Spectrometer was successful.")
                (connecting (first_call st))))
  ∧ (size (store st) ≠ 0%nat → a = false → st1 = entered st)
  ∧ (size (store st) ≠ 0%nat → a = true →
     let c := next_loc st in
     let s1 := entered (reapplying (later_call st)) in
     is_ok (fst (write_settings c (filled_state c s1)))
     ∧ st1 = add_event (EvLog INFO "Latest configuration settings were set.")
               (read_back_state (written_state c s1))
     ∧ filled (deref s1 c) (store s1) = store st).
Proof.
  intros E1 Ho. rewrite establish_connection_unfold in E1.
  assert (∀ s : state D, dev s = dev st →
            discard (open s) = (inr tt, st1) →
            dev_is_open (dev_open (dev s)) = true) as Hconn.
  { intros s Ed Es. destruct (dev_is_open (dev_open (dev s))) eqn:Hc; [done|].
    rewrite open_unfold, Hc in Es. cbn in Es. injection Es as <-.
    cbn in Ho. congruence. }
  split; [|split].
  - intros Hs. rewrite Hs in E1. cbn [Nat.eqb] in E1.
    pose proof (Hconn (first_call st) eq_refl E1) as Hc.
    rewrite open_unfold, Hc in E1.
    change (store (first_call st)) with (store st) in E1.
    rewrite Hs in E1. cbn in E1. by injection E1 as <-.
  - intros Hs ->. apply Nat.eqb_neq in Hs. rewrite Hs in E1.
    by injection E1 as <-.
  - intros Hs -> c s1. pose proof Hs as Hs'. apply Nat.eqb_neq in Hs'.
    rewrite Hs' in E1.
    pose proof (Hconn (later_call st) eq_refl E1) as Hc.
    destruct (open_reapply_run (later_call st) Hc Hs) as (Eo & Ef' & _ & Hok).
    change (next_loc (later_call st)) with c in Eo, Hok, Ef'.
    change (store (later_call st)) with (store st) in Ef'.
    fold s1 in Eo, Hok, Ef'.
    assert (is_ok (fst (open (later_call st)))) as Hi
        by (by destruct (open (later_call st)) as [[e|b] s]).
    destruct (Hok Hi) as [Ef Es].
    split.
    + rewrite Eo, configured_unfold in Hi.
      destruct (fst (write_settings c (filled_state c s1))) as [e|[]];
        [exfalso; exact Hi|exact I].
    + split; [|exact Ef'].
      destruct (open (later_call st)) as [[e|b] s]; [exfalso; exact Hi|].
      cbn [fst snd discard] in E1, Es. injection E1 as <-. exact Es.
Qed.

(** C3 (as the code has it): in a call of [configure] that finds the
    connection open, the calls on the adapter after the connection step
    are: assignments of settings, each at most once and in the order of
    the source (and so group by group: device indices, grating and centre
    wavelength, calibration offsets, ports, modes, timing, pre-processing
    flags, single-track geometry, shift speeds and gain, temperature and
    cooler); then, only if every assignment was made and none raised, the
    reads of the read-back, all of them; then at most the calls that
    close the connection.  The assignments of a pass that goes through
    are those the filled dictionary asks for.  They need not be the first
    of the call: where the call itself connects on a store that is not
    empty, the connection step has made a complete pass of its own from
    the store, assignments and then reads, so that reads come before the
    call's own assignments; where the store is empty, or the call does
    not connect, the connection step makes no assignment and no read. *)
Theorem configure_writes_then_reads c a (st st1 : state D) :
  establish_connection open a st = (inr tt, st1) →
  dev_is_open (dev st1) = true →
  (∃ ws rs post,
     trace (snd (configure c a st)) = trace st1 ++ ws ++ rs ++ post
     ∧ in_order 0 ws 29
     ∧ (∀ i j e1 e2, (i < j)%nat → ws !! i = Some e1 → ws !! j = Some e2 →
          ∃ p1 p2, write_place e1 = Some p1 ∧ write_place e2 = Some p2
                   ∧ (p1 < p2)%nat ∧ (stage p1 ≤ stage p2)%nat)
     ∧ (rs = [] ∧ post = [] ∧ ¬ is_ok (fst (configure c a st))
        ∨ rs = all_reads ∧ complete 0 ws 29
          ∧ fst (configure c a st) = inr tt
          ∧ intended_writes (filled (deref st1 c) (store st1)) = Some ws)
     ∧ Forall (λ e, is_connection_event e = true) post)
  ∧ (size (store st) = 0%nat →
     trace st1 =
       trace st
       ++ [ EvLog DEBUG "Calling configure on the Andor spectrometer controller";
            EvLog DEBUG "First instantiation of the Andor Spectrometer controller. Establishing connection now...";
            EvLog INFO "Opening Andor Spectrometer"; EvConnect;
            EvLog INFO "Opening Andor Spectrometer was successful.";
            EvLog INFO "Latest configuration settings were set." ])
  ∧ (size (store st) ≠ 0%nat → a = false →
     trace st1 =
       trace st
       ++ [ EvLog DEBUG "Calling configure on the Andor spectrometer controller" ])
  ∧ (size (store st) ≠ 0%nat → a = true →
     ∃ ws',
       trace st1 =
         trace st
         ++ [ EvLog DEBUG "Calling configure on the Andor spectrometer controller";
              EvLog DEBUG "Subsequent call for configuration outside of configuration GUI. Establishing connection now...";
              EvLog INFO "Opening Andor Spectrometer"; EvConnect;
              EvLog INFO "Opening Andor Spectrometer was successful.";
              EvLog DEBUG "Calling configure on the Andor spectrometer controller" ]
         ++ ws' ++ all_reads
         ++ [ EvLog INFO "Latest configuration settings were set." ]
       ∧ in_order 0 ws' 29
       ∧ complete 0 ws' 29
       ∧ intended_writes (store st) = Some ws').
Proof.
  intros E1 Ho. split.
  - rewrite (configure_open_run c a st st1) by done.
    rewrite configured_unfold.
    destruct (write_pass c st1) as (ws & Et & Ho3 & Hc3).
    assert (∀ i j e1 e2, (i < j)%nat → ws !! i = Some e1 → ws !! j = Some e2 →
              ∃ p1 p2, write_place e1 = Some p1 ∧ write_place e2 = Some p2
                       ∧ (p1 < p2)%nat ∧ (stage p1 ≤ stage p2)%nat) as Hord.
    { intros i j e1 e2 Hij Hi Hj.
      destruct (in_order_lookup 0 ws 29 i j e1 e2 Ho3 Hij Hi Hj)
        as (p1 & p2 & ? & ? & ? & ?).
      exists p1, p2. repeat split; try done; [lia|].
      apply stage_mono. lia. }
    destruct (fst (write_settings c (filled_state c st1))) as [e|[]];
      cbn [fst snd] in *.
    + exists ws, [], []. rewrite !app_nil_r.
      split; [done|]. split; [done|]. split; [done|].
      split; [|constructor]. left. repeat split. by intros [].
    + destruct (Hc3 I) as [Hcomp Hint]. destruct a.
      * destruct (close_events (read_back_state (written_state c st1)))
          as (post & Ep & Hp).
        exists ws, all_reads, post. rewrite Ep.
        cbn [trace read_back_state restored].
        split; [rewrite Et; by rewrite <- !app_assoc|].
        split; [done|]. split; [done|]. split; [|done].
        right. by repeat split.
      * exists ws, all_reads, []. cbn [trace read_back_state restored].
        split; [rewrite Et, app_nil_r; by rewrite <- !app_assoc|].
        split; [done|]. split; [done|]. split; [|constructor].
        right. by repeat split.
  - destruct (connection_step a st st1 E1 Ho) as (Hfirst & Hinner & Hnested).
    split; [|split].
    + intros Hs. rewrite (Hfirst Hs). cbn. by rewrite <- !app_assoc.
    + intros Hs Ha. by rewrite (Hinner Hs Ha).
    + intros Hs Ha. destruct (Hnested Hs Ha) as (Hok & -> & Ef).
      destruct (write_pass (next_loc st) (entered (reapplying (later_call st))))
        as (ws & Et & Ho3 & Hc3).
      destruct (Hc3 Hok) as [Hcomp Hint].
      exists ws. split; [|split; [done|split; [done|]]].
      * cbn [trace add_event read_back_state restored].
        rewrite Et. cbn [trace entered reapplying later_call add_event].
        by rewrite <- !app_assoc.
      * by rewrite <- Ef.
Qed.

(** C4 (as the code has it): in a call of [configure] that finds the
    connection open, before anything is assigned on the device every key
    of the store that [config_dict] lacks, or holds [None] for, is given
    the stored value, and every other entry of [config_dict] is kept; the
    assignments are then made from the dictionary so filled.  A request
    that names one setting is filled to the store with that one setting
    changed.  What the store holds afterwards is not the filled request
    but the read-back of the device after the assignments.  In a call
    that finds the connection not open nothing is filled and nothing
    assigned: the entries of the request, [None] included, replace those
    of the store. *)
Theorem configure_fills_omitted c a (st st1 : state D) :
  establish_connection open a st = (inr tt, st1) →
  (dev_is_open (dev st1) = true →
   let st2 := snd (fill_missing c st1) in
   let st3 := snd (write_settings c st2) in
   fill_missing c st1 = (inr tt, st2)
   ∧ deref st2 c = filled (deref st1 c) (store st1)
   ∧ (∀ k x, store st1 !! k = Some x →
             deref st1 c !! k = None ∨ deref st1 c !! k = Some PyNone →
             deref st2 c !! k = Some x)
   ∧ (∀ k v, deref st1 c !! k = Some v → v ≠ PyNone →
             deref st2 c !! k = Some v)
   ∧ (∀ k v, deref st1 c = {[k := v]} → v ≠ PyNone →
             deref st2 c = <[k := v]> (store st1))
   ∧ store st2 = store st1 ∧ dev st2 = dev st1 ∧ trace st2 = trace st1
   ∧ configure c a st =
       (write_settings c;;
        update_config_dict_from_current_values;;
        if a then _ <- close;; ret tt else ret tt) st2
   ∧ (fst (configure c a st) = inr tt →
      (∃ ws, intended_writes (filled (deref st1 c) (store st1)) = Some ws
             ∧ trace st3 = trace st1 ++ ws)
      ∧ store (snd (configure c a st)) = read_back (dev st3) (store st1)))
  ∧ (dev_is_open (dev st1) = false →
     fst (configure c a st) = inr tt
     ∧ store (snd (configure c a st)) = deref st1 c ∪ store st1
     ∧ (∀ k v, deref st1 c !! k = Some v →
               store (snd (configure c a st)) !! k = Some v)
     ∧ (∀ k, deref st1 c !! k = None →
             store (snd (configure c a st)) !! k = store st1 !! k)
     ∧ dev (snd (configure c a st)) = dev st1).
Proof.
  intros E1. split.
  - intros Ho st2 st3. subst st3 st2.
    destruct (fill_missing_run c st1) as (st2 & E2 & F2 & S2 & C2).
    assert (filled_state c st1 = st2) as Ef
        by (unfold filled_state; by rewrite E2).
    assert (written_state c st1 = snd (write_settings c st2)) as Ew
        by (unfold written_state; by rewrite Ef).
    rewrite E2. cbn [snd]. destruct F2 as (_ & _ & _ & Ed & Et).
    split; [done|]. split; [done|].
    split; [|split; [|split; [|split; [done|split; [done|split; [done|]]]]]].
    + intros k x Hx Hk. rewrite C2, lookup_filled, Hx. cbn.
      by destruct Hk as [->| ->].
    + intros k v Hv Hn. rewrite C2, lookup_filled, Hv. cbn.
      destruct (store st1 !! k); [|done]. by destruct v.
    + intros k v Hc Hn. rewrite C2, Hc. by apply filled_singleton.
    + split.
      * rewrite configure_unfold, E1, apply_configuration_open by done.
        by rewrite (bind_ok _ _ _ _ _ E2).
      * rewrite (configure_open_run c a st st1) by done.
        rewrite configured_unfold.
        destruct (write_pass c st1) as (ws & Etw & _ & Hc3).
        assert (store (read_back_state (written_state c st1))
                = read_back (dev (written_state c st1)) (store st1)) as Er.
        { rewrite store_read_back_state.
          by destruct (store_written_state c st1) as [-> _]. }
        rewrite Ef in Hc3 |- *. rewrite Ew in Etw, Er |- *.
        destruct (fst (write_settings c st2)) as [e|[]]; [done|].
        intros _. destruct (Hc3 I) as [_ Hint].
        split; [by exists ws|]. cbn [snd].
        destruct a; [by rewrite store_close|done].
  - intros Ho. rewrite (configure_not_open_run c a st st1 E1 Ho).
    cbn [fst snd]. split; [done|].
    assert (store (not_open_state c st1) = deref st1 c ∪ store st1) as Es.
    { unfold store at 1. unfold deref, not_open_state; cbn.
      by rewrite lookup_total_insert_eq. }
    split; [exact Es|]. split; [|split; [|done]].
    + intros k v Hv. rewrite Es. by apply lookup_union_Some_l.
    + intros k Hk. rewrite Es. by apply lookup_union_r.
Qed.

End ConfigureProperties.

Section ReapplyProperties.
Context {D : Type} `{DeviceAdapter D} `{PyRuntime}.


(** C10: [configure] changes the dictionary it is given: in a call that
    finds the connection open, the dictionary at [config_dict] (when it
    is not the store itself) is afterwards the filled one, whether the
    call returns or raises.  [open] hands [configure] a new dictionary
    with the entries of the store, at a location that held nothing
    before: it is not the store, and the store and every other
    dictionary are as they were when [configure] starts. *)
Theorem configure_mutates_its_argument c a (st : state D) :
  (∀ st1, establish_connection open a st = (inr tt, st1) →
          dev_is_open (dev st1) = true →
          c ≠ last_config_dict st1 →
          deref (snd (configure c a st)) c = filled (deref st1 c) (store st1))
  ∧ (dev_is_open (dev_open (dev st)) = true → size (store st) ≠ 0%nat →
     (last_config_dict st < next_loc st)%nat →
     let copy := next_loc st in
     open st = opened (configure copy false (reapplying st))
     ∧ copy ≠ last_config_dict (reapplying st)
     ∧ deref (reapplying st) copy = store st
     ∧ (∀ l, l ≠ copy → deref (reapplying st) l = deref st l)
     ∧ store (snd (fill_missing copy (entered (reapplying st)))) = store st).
Proof.
  split.
  - intros st1 E1 Ho Hc. rewrite (configure_open_run c a st st1) by done.
    unfold configured.
    destruct (fill_missing_run c st1) as (st2 & E2 & F2 & S2 & C2).
    rewrite E2. cbn [snd]. destruct F2 as (_ & _ & El & _ & _).
    destruct (writes_write_settings c st2) as (Eh & _ & El3 & _).
    assert (deref (snd (write_settings c st2)) c = deref st2 c) as E3
        by (unfold deref; by rewrite Eh).
    destruct (write_settings c st2) as [[e|[]] st3]; cbn [snd] in *.
    + by rewrite E3.
    + assert (c ≠ last_config_dict st3) as Hc3 by congruence.
      destruct a.
      * rewrite deref_close. unfold read_back_state.
        rewrite deref_restored by done. by rewrite E3.
      * unfold read_back_state. rewrite deref_restored by done.
        by rewrite E3.
  - intros Ho Hs Hwf copy.
    assert (Nat.eqb (size (store st)) 0 = false) as Hs'
        by (by apply Nat.eqb_neq).
    split; [rewrite open_unfold; by rewrite Ho, Hs'|].
    split; [subst copy; cbn; lia|].
    split; [apply deref_reapplying_copy|].
    split; [intros l Hl; by apply deref_reapplying_other|].
    destruct (fill_missing_run copy (entered (reapplying st)))
      as (st2 & E2 & _ & S2 & _).
    rewrite E2. cbn [snd]. rewrite S2.
    change (store (entered (reapplying st))) with (store (reapplying st)).
    apply store_reapplying.
Qed.


End ReapplyProperties.

(** ** The clock rate *)

Section ClockRate.
Context {D : Type} `{DeviceAdapter D} `{PyRuntime}.

Lemma Prim2SF_mul_nan a : Prim2SF (nan * a)%float = S754_nan.
Proof. rewrite mul_spec. reflexivity. Qed.

Lemma not_positive_nan_mul a : (0 <? nan * a)%float = false.
Proof. rewrite ltb_spec, Prim2SF_mul_nan. reflexivity. Qed.

Lemma not_positive_nan_mul_mul a b : (0 <? nan * a * b)%float = false.
Proof.
  rewrite ltb_spec, mul_spec, Prim2SF_mul_nan. reflexivity.
Qed.

Lemma clock_rate_run (st : state D) :
  clock_rate st
  = (match py_duration (store st) with
     | inr t => py_rate t
     | inl e => inl e
     end, st).
Proof.
  unfold py_duration, py_rate, store.
  destruct (py_eq_str (default PyNone
              (deref st (last_config_dict st) !! "acquisition_mode"))
              "ACCUMULATE") eqn:Ea;
    [|destruct (py_eq_str (default PyNone
                  (deref st (last_config_dict st) !! "acquisition_mode"))
                  "KINETICS") eqn:Ek].
  all: unfold clock_rate, np_nan, bind, get_last_config_dict, dict_get,
         lift, ret; cbv beta iota; rewrite Ea; cbv beta iota;
       rewrite ?Ek; cbv beta iota.
  - destruct (py_mul _ _) as [e|t]; [done|].
    by destruct (py_gt_zero t) as [e|[]].
  - destruct (py_mul _ _) as [e|t]; [done|].
    destruct (py_mul t _) as [e|t']; [done|].
    by destruct (py_gt_zero t') as [e|[]].
  - by destruct (py_gt_zero _) as [e|[]].
Qed.

Lemma py_mul_numbers x y a b :
  number_of x = Some a → number_of y = Some b →
  py_mul x y = match times a b with
               | inr t => inr (value_of t)
               | inl e => inl e
               end.
Proof.
  destruct x as [|p|n|f|s], y as [|q|m|g|r]; cbn; try done;
    intros [= <-] [= <-]; cbn; try done.
  all: by destruct (Num.float_of_Z _).
Qed.

Lemma py_rate_number v x : number_of v = Some x → py_rate v = rate x.
Proof.
  destruct v as [|b|n|f|s]; cbn; try done; intros [= <-]; cbn.
  - by destruct b.
  - unfold py_rate. cbn. by destruct (0 <? n).
  - unfold py_rate, rate_of. cbn. by destruct (0 <? f)%float.
Qed.

Lemma py_str_mul_text s n :
  (∃ e, py_str_mul s n = inl e) ∨ (∃ t, py_str_mul s n = inr (PyStr t)).
Proof.
  unfold py_str_mul.
  destruct (_ || _); [left; eauto|].
  destruct (n <? 1); [right; eauto|].
  destruct (_ <? _); [left; eauto|right; eauto].
Qed.

(** A product with something that is no number fails or is a text. *)
Lemma py_mul_odd x y :
  number_of x = None ∨ number_of y = None →
  (∃ e, py_mul x y = inl e) ∨ (∃ t, py_mul x y = inr (PyStr t)).
Proof.
  intros Hn.
  destruct x as [|p|n|f|s], y as [|q|m|g|r]; cbn in *;
    try (by destruct Hn); try (left; eexists; reflexivity);
    apply py_str_mul_text.
Qed.

Lemma py_rate_odd v : number_of v = None → py_rate v = inl TypeError.
Proof. by destruct v. Qed.

Lemma number_of_text t : number_of (PyStr t) = None.
Proof. done. Qed.

Lemma rate_nan_times y t :
  times (Real nan) y = inr t →
  rate t = inr np_nan
  ∧ ∀ z t', times t z = inr t' → rate t' = inr np_nan.
Proof.
  assert (∀ a, rate (Real (nan * a)) = inr np_nan) as H1.
  { intros a. cbn. unfold rate_of. by rewrite not_positive_nan_mul. }
  assert (∀ a b, rate (Real (nan * a * b)) = inr np_nan) as H2.
  { intros a b. cbn. unfold rate_of. by rewrite not_positive_nan_mul_mul. }
  destruct y as [n|g]; cbn.
  - destruct (Num.float_of_Z n) as [e|g]; [done|]. intros [= <-].
    split; [apply H1|]. intros [m|h] t'; cbn.
    + destruct (Num.float_of_Z m); [done|]. intros [= <-]. apply H2.
    + intros [= <-]. apply H2.
  - intros [= <-]. split; [apply H1|]. intros [m|h] t'; cbn.
    + destruct (Num.float_of_Z m); [done|]. intros [= <-]. apply H2.
    + intros [= <-]. apply H2.
Qed.

(** C7 (as the code has it): [clock_rate] changes nothing.  Where the
    values it uses are numbers (floats, integers, Booleans; [np.nan] for
    one the store lacks) it returns [1 / t] when [t > 0] and [np.nan]
    otherwise, where [t] is the exposure time times the number of
    accumulations in mode ACCUMULATE, times the number of kinetics as well
    in mode KINETICS, and the exposure time alone in every other case:
    mode SINGLE_SCAN, a mode that is not known, no mode at all; the
    products are Python's, so an integer too large for a float raises
    [OverflowError].  Without an exposure time every result that is
    returned is [np.nan].  Where a value it uses is no number ([None], a
    text) it raises; with [None] for the exposure time, [TypeError]. *)
Theorem clock_rate_by_mode (st : state D) :
  let e := default np_nan (store st !! "exposure_time") in
  let mode := default PyNone (store st !! "acquisition_mode") in
  let n := default np_nan (store st !! "number_of_accumulations") in
  let k := default np_nan (store st !! "number_of_kinetics") in
  snd (clock_rate st) = st
  ∧ (∀ x, number_of e = Some x →
          py_eq_str mode "ACCUMULATE" = false →
          py_eq_str mode "KINETICS" = false →
          fst (clock_rate st) = rate x)
  ∧ (∀ x y, number_of e = Some x → number_of n = Some y →
            py_eq_str mode "ACCUMULATE" = true →
            fst (clock_rate st) = rate_if (times x y))
  ∧ (∀ x y z, number_of e = Some x → number_of n = Some y →
              number_of k = Some z →
              py_eq_str mode "KINETICS" = true →
              fst (clock_rate st) = rate_if (times_if (times x y) z))
  ∧ (∀ t, (0 <? t)%float = true → rate (Real t) = inr (PyFloat (1 / t)))
  ∧ (∀ t, (0 <? t)%float = false → rate (Real t) = inr np_nan)
  ∧ (∀ t, 0 < t → rate (Whole t) = match Num.Z_truediv 1 t with
                                    | inr f => inr (PyFloat f)
                                    | inl err => inl err
                                    end)
  ∧ (∀ t, t ≤ 0 → rate (Whole t) = inr np_nan)
  ∧ (store st !! "exposure_time" = None →
     number_of e = Some (Real nan)
     ∧ rate (Real nan) = inr np_nan
     ∧ ∀ y t, times (Real nan) y = inr t →
              rate t = inr np_nan
              ∧ ∀ z t', times t z = inr t' → rate t' = inr np_nan)
  ∧ (number_of e = None
     ∨ py_eq_str mode "ACCUMULATE" = true ∧ number_of n = None
     ∨ py_eq_str mode "KINETICS" = true
       ∧ (number_of n = None ∨ number_of k = None) →
     ¬ is_ok (fst (clock_rate st)))
  ∧ (e = PyNone → fst (clock_rate st) = inl TypeError).
Proof.
  intros e mode n k. rewrite clock_rate_run. cbn [fst snd].
  unfold py_duration. fold e mode n k. change (PyFloat nan) with np_nan.
  fold e n k.
  assert (py_eq_str mode "KINETICS" = true →
          py_eq_str mode "ACCUMULATE" = false) as Hka.
  { destruct mode; try done. cbn. intros ->%String.eqb_eq. done. }
  split; [done|]. split; [|split; [|split]].
  - intros x Hx -> ->. by apply py_rate_number.
  - intros x y Hx Hy ->. rewrite (py_mul_numbers e n x y Hx Hy).
    destruct (times x y) as [err|t]; [done|]. cbn.
    by apply py_rate_number; destruct t.
  - intros x y z Hx Hy Hz Hk. rewrite (Hka Hk), Hk.
    rewrite (py_mul_numbers e n x y Hx Hy).
    destruct (times x y) as [err|t]; [done|]. cbn.
    rewrite (py_mul_numbers (value_of t) k t z) by (done || by destruct t).
    destruct (times t z) as [err|t']; [done|]. cbn.
    by apply py_rate_number; destruct t'.
  - split; [intros t Ht; cbn; unfold rate_of; by rewrite Ht|].
    split; [intros t Ht; cbn; unfold rate_of; by rewrite Ht|].
    split.
    { intros t Ht. cbn. by rewrite (proj2 (Z.ltb_lt 0 t) Ht). }
    split.
    { intros t Ht. cbn. by rewrite (proj2 (Z.ltb_ge 0 t) Ht). }
    split.
    { intros Hnone. subst e. rewrite Hnone. cbn. split; [done|].
      split; [done|]. apply rate_nan_times. }
    split.
    + assert (∀ v, (∃ err, v = inl err) ∨ (∃ t, v = inr (PyStr t)) →
                ¬ is_ok (match v with
                         | inr t => py_rate t
                         | inl err => inl err
                         end)) as Hodd.
      { intros v [[err ->]|[t ->]]; by intros []. }
      assert (∀ v, (∃ err, v = inl err) ∨ (∃ t, v = inr (PyStr t)) →
                (∃ err, match v with
                        | inr t => py_mul t k
                        | inl err => inl err
                        end = inl err)
                ∨ (∃ t, match v with
                        | inr t => py_mul t k
                        | inl err => inl err
                        end = inr (PyStr t))) as Hthen.
      { intros v [[err ->]|[t ->]]; [left; eauto|].
        apply py_mul_odd. by left. }
      intros [He|[[Ha Hn]|[Hk Hnk]]].
      * destruct (py_eq_str mode "ACCUMULATE").
        { apply Hodd, py_mul_odd. by left. }
        destruct (py_eq_str mode "KINETICS").
        { apply Hodd, Hthen, py_mul_odd. by left. }
        rewrite (py_rate_odd e He). by intros [].
      * rewrite Ha. apply Hodd, py_mul_odd. by right.
      * rewrite (Hka Hk), Hk. apply Hodd.
        destruct Hnk as [Hn|Hk'].
        { apply Hthen, py_mul_odd. by right. }
        destruct (number_of e) as [x|] eqn:Hx;
          [|apply Hthen, py_mul_odd; by left].
        destruct (number_of n) as [y|] eqn:Hy;
          [|apply Hthen, py_mul_odd; by right].
        rewrite (py_mul_numbers e n x y Hx Hy).
        destruct (times x y) as [err|t]; [left; eauto|].
        apply py_mul_odd. by right.
    + intros ->. destruct (py_eq_str mode "ACCUMULATE"); [done|].
      by destruct (py_eq_str mode "KINETICS").
Qed.

End ClockRate.

(** * Examples on the bench device *)

Module Examples.
Import Bench.

(** C2, counterexample: with a connected device, [stop] disconnects. *)
Lemma stop_disconnects :
  let st := with_config connected_device ∅ in
  dev_is_open (dev st) = true
  ∧ fst (stop st) = inr tt
  ∧ dev_is_open (dev (snd (stop st))) = false
  ∧ trace (snd (stop st)) =
      [ EvLog INFO "Stopping controller."; EvStopWaiting;
        EvLog INFO "Closing Andor Spectrometer"; EvDaqClose; EvDisconnect;
        EvLog INFO "Closing Andor Spectrometer was successful." ].
Proof. vm_compute. repeat split. Qed.

Lemma stop_cancels_wait_then_closes_witness :
  let st := with_config connected_device ∅ in
  let st' := with_config (fresh true true) ∅ in
  dev (snd (stop st)) = dev_close (daq_close (daq_stop_waiting (dev st)))
  ∧ dev (snd (stop st')) = daq_stop_waiting (dev st')
  ∧ stop st' = (inr tt, snd (close (stopping_state st'))).
Proof.
  cbv zeta. split; [|split].
  - destruct (stop_cancels_wait_then_closes (with_config connected_device ∅))
      as (_ & Hopen & _).
    destruct Hopen as [Hd _]; [vm_compute; reflexivity|exact Hd].
  - destruct (stop_cancels_wait_then_closes (with_config (fresh true true) ∅))
      as (_ & _ & Hclosed).
    destruct Hclosed as [Hd _]; [vm_compute; reflexivity|exact Hd].
  - destruct (stop_cancels_wait_then_closes (with_config (fresh true true) ∅))
      as (Hs & _). exact Hs.
Defined.

(** C5, counterexample: a [close] that fails leaves the connection open. *)
Lemma failed_close_stays_open :
  let st := with_config stuck_device ∅ in
  fst (close st) = inr false
  ∧ dev_is_open (dev (snd (close st))) = true.
Proof. vm_compute. by split. Qed.

Lemma close_result_is_connection_state_witness :
  dev_is_open (dev (snd (close (with_config stuck_device ∅)))) = true.
Proof.
  destruct (close_result_is_connection_state (with_config stuck_device ∅))
    as [(b & Hb & _ & Hopen) _].
  apply Hopen.
  assert (fst (close (with_config stuck_device ∅)) = inr false) as Hf
      by (vm_compute; reflexivity).
  rewrite Hf in Hb. by injection Hb as <-.
Defined.

(** C6, counterexample: with a disconnect that has no effect, two calls
    of [close] in a row both return [False], the second one calls the
    adapter again, and the connection is open after both. *)
Lemma close_twice_stays_open :
  let st := with_config stuck_device ∅ in
  let st1 := snd (close st) in
  fst (close st) = inr false
  ∧ fst (close st1) = inr false
  ∧ dev_is_open (dev (snd (close st1))) = true
  ∧ trace (snd (close st1)) =
      trace st1 ++ [ EvLog INFO "Closing Andor Spectrometer";
                     EvDaqClose; EvDisconnect;
                     EvLog INFO "Closing Andor Spectrometer failed." ].
Proof. vm_compute. repeat split. Qed.

Lemma close_idempotent_witness :
  let st := with_config connected_device ∅ in
  let st' := with_config (fresh true true) ∅ in
  let st'' := with_config stuck_device ∅ in
  fst (close st) = inr true
  ∧ fst (close (snd (close st))) = inr true
  ∧ dev_is_open (dev (snd (close (snd (close st))))) = false
  ∧ close st' = (inr true, closed_state st')
  ∧ fst (close st'') = inr false
  ∧ dev_is_open (dev (snd (close st''))) = true.
Proof.
  cbv zeta.
  destruct (close_idempotent (with_config connected_device ∅))
    as (_ & Htwice & _).
  destruct Htwice as (H1 & H2 & H3 & _); [right; vm_compute; reflexivity|].
  destruct (close_idempotent (with_config (fresh true true) ∅))
    as (Honce & _).
  destruct Honce as (H4 & _); [vm_compute; reflexivity|].
  destruct (close_idempotent (with_config stuck_device ∅)) as (_ & _ & Hstuck).
  destruct Hstuck as (H5 & H6 & _);
    [vm_compute; reflexivity|vm_compute; reflexivity|].
  split; [exact H1|]. split; [exact H2|]. split; [exact H3|].
  split; [exact H4|]. split; [exact H5|exact H6].
Defined.

(** C7, counterexample: an exposure time of 0.5 and no acquisition mode
    give the rate 2, not [np.nan]. *)
Lemma clock_rate_without_mode :
  let st := with_store (fresh true true) {[ "exposure_time" := PyFloat 0.5 ]} ∅ in
  store st !! "acquisition_mode" = None
  ∧ fst (clock_rate st) = inr (PyFloat 2)
  ∧ fst (clock_rate st) ≠ inr np_nan.
Proof.
  cbv zeta. split; [reflexivity|]. split; [reflexivity|].
  intros Heq.
  apply (f_equal (λ r : exn + PyVal,
                    match r with
                    | inr (PyFloat f) => PrimFloat.is_nan f
                    | _ => false
                    end)) in Heq.
  vm_compute in Heq. discriminate.
Qed.

(** The rate with exposure 0.5: single scan, 4 accumulations, a kinetic
    series of 2 on top of that; with nothing stored; with a text, with
    [None] and with the integer 2 stored for the exposure time. *)
Lemma clock_rate_by_mode_witness :
  fst (clock_rate single_scan) = inr (PyFloat (1 / 0.5))
  ∧ fst (clock_rate accumulate) = rate_if (times (Real 0.5) (Whole 4))
  ∧ fst (clock_rate kinetic_series)
    = rate_if (times_if (times (Real 0.5) (Whole 4)) (Whole 2))
  ∧ rate (Real 0) = inr np_nan
  ∧ fst (clock_rate nothing_stored) = inr np_nan
  ∧ ¬ is_ok (fst (clock_rate
                    (with_store (fresh true true)
                       {[ "exposure_time" := PyStr "0.5" ]} ∅)))
  ∧ fst (clock_rate
           (with_store (fresh true true) {[ "exposure_time" := PyNone ]} ∅))
    = inl TypeError
  ∧ fst (clock_rate
           (with_store (fresh true true) {[ "exposure_time" := PyInt 2 ]} ∅))
    = inr (PyFloat 0.5).
Proof.
  destruct (clock_rate_by_mode
              (with_store (fresh true true)
                 {[ "exposure_time" := PyInt 2 ]} ∅))
    as (_ & Hint & _ & _ & _ & _ & Hwhole & _).
  destruct (clock_rate_by_mode single_scan)
    as (_ & Hs & _ & _ & Hpos & Hnot & _).
  destruct (clock_rate_by_mode accumulate) as (_ & _ & Ha & _).
  destruct (clock_rate_by_mode kinetic_series) as (_ & _ & _ & Hk & _).
  destruct (clock_rate_by_mode nothing_stored)
    as (_ & He & _ & _ & _ & _ & _ & _ & Habsent & _).
  destruct Habsent as (Hn & Hnan & _); [vm_compute; reflexivity|].
  destruct (clock_rate_by_mode
              (with_store (fresh true true)
                 {[ "exposure_time" := PyStr "0.5" ]} ∅))
    as (_ & _ & _ & _ & _ & _ & _ & _ & _ & Hodd & _).
  destruct (clock_rate_by_mode
              (with_store (fresh true true)
                 {[ "exposure_time" := PyNone ]} ∅))
    as (_ & _ & _ & _ & _ & _ & _ & _ & _ & _ & Hnone).
  split.
  { rewrite (Hs (Real 0.5)) by (vm_compute; reflexivity).
    apply Hpos. vm_compute. reflexivity. }
  split; [apply Ha; vm_compute; reflexivity|].
  split; [apply Hk; vm_compute; reflexivity|].
  split; [apply Hnot; vm_compute; reflexivity|].
  split.
  { rewrite (He (Real nan)) by (vm_compute; reflexivity). exact Hnan. }
  split; [apply Hodd; left; vm_compute; reflexivity|].
  split; [apply Hnone; vm_compute; reflexivity|].
  rewrite (Hint (Whole 2)) by (vm_compute; reflexivity).
  rewrite (Hwhole 2) by lia. vm_compute. reflexivity.
Defined.

(** A first call with a device that cannot be reached, without
    [attempt_connection]; and a later call on a closed connection,
    without [attempt_connection] again. *)
Lemma configure_without_connection_witness :
  fst (configure 1%nat false offline_run) = inr tt
  ∧ store (snd (configure 1%nat false offline_run)) !! "exposure_time"
    = Some (PyFloat 2)
  ∧ dev_is_open (dev (snd (configure 1%nat false offline_run))) = false
  ∧ (∃ rest, trace (snd (configure 1%nat false offline_run)) =
               trace (first_call offline_run)
               ++ [EvLog INFO "Opening Andor Spectrometer"; EvConnect] ++ rest)
  ∧ configure 1%nat false reopen_run
    = (inr tt,
       not_open_state 1%nat (snd (establish_connection open false reopen_run))).
Proof.
  destruct (configure_without_connection 1%nat false offline_run)
    as (_ & Hcall & Hoff).
  destruct Hoff as (H1 & H2 & H3 & _);
    [vm_compute; reflexivity|vm_compute; reflexivity|].
  split; [exact H1|]. split; [|split; [|split]].
  - rewrite H2. vm_compute. reflexivity.
  - rewrite H3. vm_compute. reflexivity.
  - apply Hcall. vm_compute. reflexivity.
  - destruct (configure_without_connection 1%nat false reopen_run)
      as (Hnot & _).
    destruct (Hnot (snd (establish_connection open false reopen_run)))
      as (Hrun & _);
      [apply run_eq; vm_compute; reflexivity|vm_compute; reflexivity|].
    exact Hrun.
Defined.

(** C3, counterexample: a second call with [attempt_connection=True].
    It connects, and [open] makes a pass of its own before the call's:
    the last assignment of that pass and the first read of its read-back
    come before the first assignment of the call. *)
Lemma second_call_reads_between_writes :
  let tr := trace (snd (configure 1%nat true configured_once)) in
  fst (configure 1%nat true configured_once) = inr tt
  ∧ tr !! 3%nat = Some EvConnect
  ∧ tr !! 34%nat = Some (EvSet cooler_persistence_mode (PyBool false))
  ∧ tr !! 35%nat = Some (EvGet ccd_device_index)
  ∧ tr !! 66%nat = Some (EvSet ccd_device_index (PyInt 0))
  ∧ tr !! 95%nat = Some (EvGet ccd_device_index)
  ∧ tr !! 127%nat = Some EvDisconnect.
Proof. vm_compute. repeat split. Qed.

(** The first call, and a second one that connects. *)
Lemma configure_writes_then_reads_witness :
  let st1 := snd (establish_connection open true first_run) in
  let st1' := snd (establish_connection open true configured_once) in
  (∃ ws post,
     trace (snd (configure 1%nat true first_run))
       = trace st1 ++ ws ++ all_reads ++ post
     ∧ in_order 0 ws 29
     ∧ complete 0 ws 29
     ∧ intended_writes (filled (deref st1 1%nat) (store st1)) = Some ws)
  ∧ (∃ ws',
       trace st1' =
         trace configured_once
         ++ [ EvLog DEBUG "Calling configure on the Andor spectrometer controller";
              EvLog DEBUG "Subsequent call for configuration outside of configuration GUI. Establishing connection now...";
              EvLog INFO "Opening Andor Spectrometer"; EvConnect;
              EvLog INFO "Opening Andor Spectrometer was successful.";
              EvLog DEBUG "Calling configure on the Andor spectrometer controller" ]
         ++ ws' ++ all_reads
         ++ [ EvLog INFO "Latest configuration settings were set." ]
       ∧ intended_writes (store configured_once) = Some ws').
Proof.
  cbv zeta. split.
  - destruct (configure_writes_then_reads 1%nat true first_run
                (snd (establish_connection open true first_run)))
      as ((ws & rs & post & Et & Ho & _ & Hcase & _) & _);
      [apply run_eq; vm_compute; reflexivity|vm_compute; reflexivity|].
    destruct Hcase as [(_ & _ & Hno)|(-> & Hc & _ & Hint)].
    + exfalso. apply Hno. vm_compute. exact I.
    + exists ws, post. split; [exact Et|]. split; [exact Ho|].
      split; [exact Hc|exact Hint].
  - destruct (configure_writes_then_reads 1%nat true configured_once
                (snd (establish_connection open true configured_once)))
      as (_ & _ & _ & Hnested);
      [apply run_eq; vm_compute; reflexivity|vm_compute; reflexivity|].
    destruct Hnested as (ws' & Et & _ & _ & Hint);
      [vm_compute; lia|reflexivity|].
    exists ws'. split; [exact Et|exact Hint].
Defined.

(** C4, counterexample: a request that names the exposure time alone,
    made when the store holds a settings file as it came, changes what is
    stored for the first device index and the vertical shift speed too;
    and a request that holds [None], made while the connection is closed,
    puts [None] where the store had the exposure time. *)
Lemma omitted_settings_change :
  deref raw_store_run 1%nat = {[ "exposure_time" := PyFloat 5 ]}
  ∧ fst (configure 1%nat true raw_store_run) = inr tt
  ∧ store raw_store_run !! "ccd_device_index" = Some (PyInt 0)
  ∧ store (snd (configure 1%nat true raw_store_run)) !! "ccd_device_index"
    = Some (PyStr "0")
  ∧ store raw_store_run !! "vertical_shift_speed" = Some (PyStr "38")
  ∧ store (snd (configure 1%nat true raw_store_run)) !! "vertical_shift_speed"
    = Some (PyStr "38.0")
  ∧ store none_request_run !! "exposure_time" = Some (PyFloat 2)
  ∧ store (snd (configure 1%nat false none_request_run)) !! "exposure_time"
    = Some PyNone.
Proof. vm_compute. repeat split. Qed.

(** A second call that names the exposure time alone; and a call with
    [None] for it while the connection is closed. *)
Lemma configure_fills_omitted_witness :
  let st1 := snd (establish_connection open true configured_once) in
  let st2 := snd (fill_missing 1%nat st1) in
  deref st2 1%nat = <["exposure_time" := PyFloat 5]> (store st1)
  ∧ deref st2 1%nat !! "exposure_time" = Some (PyFloat 5)
  ∧ deref st2 1%nat !! "grating" = Some (PyStr "600 l/mm")
  ∧ store (snd (configure 1%nat true configured_once))
    = read_back (dev (snd (write_settings 1%nat st2))) (store st1)
  ∧ store (snd (configure 1%nat false none_request_run)) !! "exposure_time"
    = Some PyNone.
Proof.
  cbv zeta.
  destruct (configure_fills_omitted 1%nat true configured_once
              (snd (establish_connection open true configured_once)))
    as [Hopen _]; [apply run_eq; vm_compute; reflexivity|].
  destruct Hopen as (_ & _ & Hstored & Hkept & Hone & _ & _ & _ & _ & Hafter);
    [vm_compute; reflexivity|].
  destruct Hafter as [_ Hstore]; [vm_compute; reflexivity|].
  destruct (configure_fills_omitted 1%nat false none_request_run
              (snd (establish_connection open false none_request_run)))
    as [_ Hclosed]; [apply run_eq; vm_compute; reflexivity|].
  destruct Hclosed as (_ & _ & Hreq & _); [vm_compute; reflexivity|].
  split; [|split; [|split; [|split]]].
  - apply Hone; [vm_compute; reflexivity|discriminate].
  - apply Hkept; [vm_compute; reflexivity|discriminate].
  - apply Hstored; [vm_compute; reflexivity|left; vm_compute; reflexivity].
  - exact Hstore.
  - apply Hreq. vm_compute. reflexivity.
Defined.



Lemma configure_mutates_its_argument_witness :
  let st1 := snd (establish_connection open true configured_once) in
  deref (snd (configure 1%nat true configured_once)) 1%nat
  = filled (deref st1 1%nat) (store st1)
  ∧ open reopen_run = opened (configure 2%nat false (reapplying reopen_run))
  ∧ deref (reapplying reopen_run) 2%nat = store reopen_run.
Proof.
  cbv zeta.
  destruct (configure_mutates_its_argument 1%nat true configured_once)
    as [Hin _].
  destruct (configure_mutates_its_argument 1%nat true reopen_run)
    as [_ Hcopy].
  destruct Hcopy as (H1 & _ & H3 & _);
    [vm_compute; reflexivity|vm_compute; lia|vm_compute; lia|].
  split; [|split; [exact H1|exact H3]].
  apply Hin;
    [apply run_eq; vm_compute; reflexivity|vm_compute; reflexivity
    |vm_compute; lia].
Defined.



End Examples.


(** * Further properties *)

(** ** Nesting, read-back and the keys of the store *)

Section StoreProperties.
Context {D : Type} `{DeviceAdapter D} `{PyRuntime}.

(** X1: [configure] and [open] call each other, but never more than two
    levels deep: [configure] may call [open], which may call [configure]
    with [attempt_connection=False] on a store that is not empty, and such
    a call does not call [open].  Whatever room for nesting beyond two
    levels there is, both methods behave the same: the two levels that
    [configure] and [open] are given are all they use. *)
Theorem nesting_is_two_deep (n : nat) c a (st : state D) :
  configure_rec (2 + n) c a st = configure c a st
  ∧ open_with (configure_rec (1 + n)) st = open st
  ∧ (Nat.eqb (size (store st)) 0 = false →
     configure_rec (1 + n) c false st = apply_configuration c false (entered st)).
Proof.
  split; [apply configure_rec_depth|]. split; [apply open_with_depth|].
  apply configure_rec_inner.
Qed.

Lemma stored_settings_keys (d : D) : (stored_settings d).*1 = required_keys.
Proof. reflexivity. Qed.

Lemma read_back_lookup (d : D) (s : gmap string PyVal) k v :
  (k, v) ∈ stored_settings d → read_back d s !! k = Some v.
Proof.
  unfold stored_settings. intros Hin.
  repeat (apply elem_of_cons in Hin as [Hin|Hin];
          [injection Hin as -> ->; unfold read_back;
           repeat (rewrite lookup_insert_ne by done);
           by rewrite lookup_insert_eq|]).
  by apply elem_of_nil in Hin.
Qed.

Lemma read_back_other (d : D) (s : gmap string PyVal) k :
  k ∉ required_keys → read_back d s !! k = s !! k.
Proof.
  intros Hk.
  assert (Forall (λ x, x ≠ k) required_keys) as Hall.
  { apply Forall_forall. by intros x Hx ->. }
  unfold required_keys in Hall. unfold read_back.
  repeat (apply Forall_cons in Hall as [? Hall]).
  by repeat (rewrite lookup_insert_ne by assumption).
Qed.

Lemma read_back_dom (d : D) (s : gmap string PyVal) :
  dom s ⊆ dom (read_back d s).
Proof.
  intros k Hk. apply elem_of_dom. apply elem_of_dom in Hk.
  destruct (decide (k ∈ required_keys)) as [Hin|Hnin].
  - rewrite <- (stored_settings_keys d) in Hin.
    apply list_elem_of_fmap in Hin as [[k' v] [-> Hin]].
    exists v. by apply read_back_lookup.
  - by rewrite read_back_other.
Qed.

End StoreProperties.

Section StoreAfterConfigure.
Context {D : Type} `{DeviceAdapter D} `{PyRuntime}.

(** X2: the read-back is what the store holds after a [configure] that
    returned with the connection open: under each of the 28 keys the value
    the device reports once all assignments are made (as text for the two
    device indices, the two shift speeds and the gain), whatever was asked
    for, and every other key of the store as it was. *)
Theorem store_is_device_state_after_configure c a (st st1 : state D) :
  establish_connection open a st = (inr tt, st1) →
  dev_is_open (dev st1) = true →
  fst (configure c a st) = inr tt →
  let d := dev (written_state c st1) in
  store (snd (configure c a st)) = read_back d (store st1)
  ∧ (∀ k v, (k, v) ∈ stored_settings d →
            store (snd (configure c a st)) !! k = Some v)
  ∧ (∀ k, k ∉ required_keys →
          store (snd (configure c a st)) !! k = store st1 !! k).
Proof.
  intros E1 Ho Hok d.
  rewrite (configure_open_run c a st st1 E1 Ho) in Hok |- *.
  rewrite configured_unfold in Hok |- *.
  destruct (fst (write_settings c (filled_state c st1))) as [e|[]];
    [done|]. cbn [snd].
  assert (store (if a then snd (close (read_back_state (written_state c st1)))
                 else read_back_state (written_state c st1))
          = read_back d (store st1)) as ->.
  { destruct a; [rewrite store_close|]; rewrite store_read_back_state;
      by destruct (store_written_state c st1) as [-> _]. }
  split; [done|]. split.
  - intros k v Hin. by apply read_back_lookup.
  - intros k Hk. by apply read_back_other.
Qed.

Lemma in_order_writes lo ws hi :
  in_order lo ws hi → Forall (λ ev, is_Some (write_place ev)) ws.
Proof.
  revert lo. induction ws as [|ev ws IH]; intros lo; [constructor|].
  cbn. intros (p & Hp & _ & Hrest). constructor; [by exists p|].
  by apply (IH (S p)).
Qed.

(** X4: a [configure] that raises after the connection step leaves the
    store as that step left it: nothing is read back, and the calls it made
    on the adapter are assignments only, so the connection is not closed
    even when the call had opened it. *)
Theorem failed_configure_keeps_store c a (st st1 : state D) e :
  establish_connection open a st = (inr tt, st1) →
  dev_is_open (dev st1) = true →
  fst (configure c a st) = inl e →
  store (snd (configure c a st)) = store st1
  ∧ ∃ ws, trace (snd (configure c a st)) = trace st1 ++ ws
          ∧ Forall (λ ev, is_Some (write_place ev)) ws.
Proof.
  intros E1 Ho Hraise.
  rewrite (configure_open_run c a st st1 E1 Ho) in Hraise |- *.
  rewrite configured_unfold in Hraise |- *.
  destruct (writes_write_settings c (filled_state c st1))
    as (_ & _ & _ & ws & Et & Hord & _).
  fold (written_state c st1) in Et.
  destruct (fst (write_settings c (filled_state c st1))) as [e'|[]];
    [|done]. cbn [snd].
  split; [by destruct (store_written_state c st1)|].
  exists ws. split.
  - rewrite Et. by destruct (store_filled_state c st1) as (_ & _ & -> & _).
  - by apply (in_order_writes 0 ws 29).
Qed.

End StoreAfterConfigure.

Section KeysOfTheStore.
Context {D : Type} `{DeviceAdapter D} `{PyRuntime}.

Lemma keeps_keys_close : keeps_keys (D := D) close.
Proof.
  intros st. destruct (close_keeps_heap st) as (_ & _ & El).
  split; [done|]. by rewrite store_close.
Qed.

Lemma keeps_keys_configured c a (st : state D) :
  last_config_dict (snd (configured c a st)) = last_config_dict st
  ∧ dom (store st) ⊆ dom (store (snd (configured c a st))).
Proof.
  rewrite configured_unfold.
  destruct (store_written_state c st) as [Es El].
  destruct (fst (write_settings c (filled_state c st))) as [e|[]]; cbn [snd].
  - by rewrite Es.
  - assert (dom (store st)
              ⊆ dom (store (read_back_state (written_state c st)))) as Hrb.
    { rewrite store_read_back_state, Es. apply read_back_dom. }
    destruct a.
    + destruct (keeps_keys_close (read_back_state (written_state c st)))
        as [El' Hd].
      split; [by rewrite El'|]. by rewrite store_close.
    + done.
Qed.

Lemma keeps_keys_apply_configuration c a :
  keeps_keys (D := D) (apply_configuration c a).
Proof.
  intros st. destruct (dev_is_open (dev st)) eqn:Ho.
  - rewrite apply_configuration_open_run by done.
    apply keeps_keys_configured.
  - rewrite apply_configuration_not_open by done. split; [done|].
    unfold store at 2. unfold deref, not_open_state. cbn.
    rewrite lookup_total_insert_eq. rewrite dom_union_L. set_solver.
Qed.

Lemma keeps_keys_open : keeps_keys (D := D) open.
Proof.
  intros st. rewrite open_unfold.
  destruct (dev_is_open (dev_open (dev st))) eqn:Ho; [|done].
  destruct (Nat.eqb (size (store st)) 0) eqn:Hs; [done|].
  rewrite configure_reapplying by done.
  destruct (keeps_keys_configured (next_loc st) false (entered (reapplying st)))
    as [El Hd].
  change (store (entered (reapplying st))) with (store (reapplying st)) in Hd.
  rewrite store_reapplying in Hd.
  by destruct (configured (next_loc st) false (entered (reapplying st)))
    as [[e|[]] s].
Qed.

Lemma keeps_keys_establish_connection a :
  keeps_keys (D := D) (establish_connection open a).
Proof.
  intros st. rewrite establish_connection_unfold.
  assert (∀ s : state D, store s = store st →
            last_config_dict s = last_config_dict st →
            last_config_dict (snd (discard (open s))) = last_config_dict st
            ∧ dom (store st) ⊆ dom (store (snd (discard (open s))))) as Hopen.
  { intros s Es El. destruct (keeps_keys_open s) as [El' Hd].
    rewrite Es in Hd. rewrite El in El'.
    by destruct (open s) as [[e|b] s']. }
  destruct (Nat.eqb (size (store st)) 0); [by apply Hopen|].
  destruct a; [by apply Hopen|done].
Qed.

Lemma keeps_keys_bind {A B} (m : M D A) (k : A → M D B) :
  keeps_keys m → (∀ x, keeps_keys (k x)) → keeps_keys (bind m k).
Proof.
  intros Hm Hk st. destruct (Hm st) as [El Hd]. unfold bind.
  destruct (m st) as [[e|x] s]; cbn [snd] in *; [done|].
  destruct (Hk x s) as [El2 Hd2]. split; [congruence|]. set_solver.
Qed.

Lemma keeps_keys_configure c a : keeps_keys (D := D) (configure c a).
Proof.
  apply keeps_keys_bind; [apply keeps_keys_establish_connection|].
  intros _. apply keeps_keys_apply_configuration.
Qed.

Lemma keeps_keys_same {A} (m : M D A) :
  (∀ st, heap (snd (m st)) = heap st
         ∧ last_config_dict (snd (m st)) = last_config_dict st) →
  keeps_keys m.
Proof.
  intros Hm st. destruct (Hm st) as [Eh El]. split; [done|].
  unfold store, deref. by rewrite Eh, El.
Qed.

(** X3: no method of the controller takes a key out of the store:
    whatever [configure], [open], [close], [start] and [stop] do, and
    whether they return or raise, every key the store had before is still
    there afterwards. *)
Theorem store_keeps_its_keys c a (st : state D) :
  dom (store st) ⊆ dom (store (snd (configure c a st)))
  ∧ dom (store st) ⊆ dom (store (snd (open st)))
  ∧ dom (store st) ⊆ dom (store (snd (close st)))
  ∧ dom (store st) ⊆ dom (store (snd (start st)))
  ∧ dom (store st) ⊆ dom (store (snd (stop st))).
Proof.
  split; [apply keeps_keys_configure|]. split; [apply keeps_keys_open|].
  split; [apply keeps_keys_close|]. split.
  - apply (keeps_keys_bind (log INFO "Starting controller.")).
    { by apply keeps_keys_same. }
    intros _. apply keeps_keys_bind; [apply keeps_keys_open|].
    intros _. apply keeps_keys_bind; [by apply keeps_keys_same|].
    intros o. destruct (negb o); by apply keeps_keys_same.
  - apply (keeps_keys_bind (log INFO "Stopping controller.")).
    { by apply keeps_keys_same. }
    intros _. apply keeps_keys_bind; [by apply keeps_keys_same|].
    intros _. apply keeps_keys_bind; [apply keeps_keys_close|].
    intros _. by apply keeps_keys_same.
Qed.

End KeysOfTheStore.

(** ** The keys [configure] needs *)

Section RequiredKeys.
Context {D : Type} `{DeviceAdapter D} `{PyRuntime}.

Lemma looks_up_bind {A B} c K1 K2 (m : M D A) (k : A → M D B) :
  looks_up c K1 m → (∀ x, looks_up c K2 (k x)) →
  looks_up c (K1 ++ K2) (bind m k).
Proof.
  intros Hm Hk st. destruct (Hm st) as [Eh Hok]. unfold bind.
  destruct (m st) as [[e|x] s]; cbn [fst snd] in *; [by split|].
  destruct (Hk x s) as [Eh2 Hok2]. split; [congruence|].
  intros Hr. apply Forall_app. split; [by apply Hok|].
  specialize (Hok2 Hr). unfold deref in *. by rewrite Eh in Hok2.
Qed.

Lemma looks_up_quiet {A} c (m : M D A) :
  (∀ st, heap (snd (m st)) = heap st) → looks_up c [] m.
Proof. intros Hm st. split; [apply Hm|]. by intros _. Qed.

Lemma looks_up_getitem c key : looks_up (D := D) c [key] (dict_getitem c key).
Proof.
  intros st. unfold dict_getitem.
  destruct (deref st c !! key) as [v|] eqn:E; cbn; split; try done.
  intros _. constructor; [by rewrite E|constructor].
Qed.

Lemma looks_up_lift {A} c (r : exn + A) : looks_up (D := D) c [] (lift r).
Proof. by apply looks_up_quiet. Qed.

Lemma looks_up_ret {A} c (a : A) : looks_up (D := D) c [] (ret a).
Proof. by apply looks_up_quiet. Qed.

Lemma looks_up_assign c f v : looks_up (D := D) c [] (assign f v).
Proof.
  apply looks_up_quiet. intros st. unfold assign.
  by destruct (dev_set f v (dev st)).
Qed.

Lemma looks_up_assign_single_track c r h :
  looks_up (D := D) c [] (assign_single_track r h).
Proof.
  apply looks_up_quiet. intros st. unfold assign_single_track.
  by destruct (dev_set_single_track r h (dev st)).
Qed.

Lemma looks_up_if {A} c K (b : bool) (m1 m2 : M D A) :
  looks_up c K m1 → looks_up c K m2 → looks_up c K (if b then m1 else m2).
Proof. by destruct b. Qed.

End RequiredKeys.

Ltac looks_up_step :=
  lazymatch goal with
  | |- looks_up ?c _ (bind (dict_getitem ?c ?k) _) =>
      eapply looks_up_bind; [exact (looks_up_getitem c k) | intros ?]
  | |- looks_up ?c _ (bind (lift ?r) _) =>
      eapply looks_up_bind; [exact (looks_up_lift c r) | intros ?]
  | |- looks_up ?c _ (bind (assign ?f ?v) _) =>
      eapply looks_up_bind; [exact (looks_up_assign c f v) | intros ?]
  | |- looks_up ?c _ (bind (assign_single_track ?r ?h) _) =>
      eapply looks_up_bind;
      [exact (looks_up_assign_single_track c r h) | intros ?]
  | |- looks_up ?c _ (bind (if _ then lift _ else ret _) _) =>
      eapply looks_up_bind;
      [apply looks_up_if; [apply looks_up_lift | apply looks_up_ret]
      | intros ?]
  | |- looks_up ?c _ (assign ?f ?v) => exact (looks_up_assign c f v)
  end.

Section RequiredKeysOfConfigure.
Context {D : Type} `{DeviceAdapter D} `{PyRuntime}.

Lemma looks_up_horizontal_shift_speed c v :
  looks_up (D := D) c [] (set_horizontal_shift_speed v).
Proof.
  unfold set_horizontal_shift_speed. apply looks_up_if.
  - change (@nil string) with ([] ++ [] ++ [] ++ [] ++ [] ++ [] ++ []
                               ++ [] ++ [] ++ @nil string).
    repeat looks_up_step.
  - apply looks_up_ret.
Qed.

Lemma looks_up_pre_amp_gain c v : looks_up (D := D) c [] (set_pre_amp_gain v).
Proof.
  unfold set_pre_amp_gain. apply looks_up_if.
  - change (@nil string) with ([] ++ @nil string). repeat looks_up_step.
  - apply looks_up_ret.
Qed.

Lemma looks_up_write_settings c :
  looks_up (D := D) c required_keys (write_settings c).
Proof.
  assert (∃ K, looks_up (D := D) c K (write_settings c) ∧ K = required_keys)
    as (K & HK & <-); [|done].
  eexists. split.
  - unfold write_settings. repeat looks_up_step.
    eapply looks_up_bind; [apply looks_up_horizontal_shift_speed|intros _].
    looks_up_step.
    eapply looks_up_bind; [apply looks_up_pre_amp_gain|intros _].
    repeat looks_up_step.
  - reflexivity.
Qed.

(** X5: [configure] looks up each of its 28 keys with [config_dict[key]]:
    a call that finds the connection open returns only if, once the
    omitted settings are filled from the store, the dictionary has every
    one of them.  So a request that lacks a key the store lacks too (a
    first call from a file that leaves a setting out) makes the call
    raise; if the key is the first one, the exception is [KeyError] of
    that key and nothing has been assigned. *)
Theorem configure_needs_every_key c a (st st1 : state D) :
  establish_connection open a st = (inr tt, st1) →
  dev_is_open (dev st1) = true →
  (fst (configure c a st) = inr tt →
   ∀ k, k ∈ required_keys →
        is_Some (deref st1 c !! k) ∨ is_Some (store st1 !! k))
  ∧ (∀ k, k ∈ required_keys →
          deref st1 c !! k = None → store st1 !! k = None →
          ¬ is_ok (fst (configure c a st)))
  ∧ (deref st1 c !! "ccd_device_index" = None →
     store st1 !! "ccd_device_index" = None →
     fst (configure c a st) = inl (KeyError "ccd_device_index")
     ∧ trace (snd (configure c a st)) = trace st1).
Proof.
  intros E1 Ho.
  rewrite (configure_open_run c a st st1 E1 Ho). unfold configured.
  destruct (fill_missing_run c st1) as (st2 & E2 & F2 & S2 & C2).
  rewrite E2. cbn [snd].
  assert (fst (write_settings c st2) = inr tt →
          ∀ k, k ∈ required_keys →
               is_Some (deref st1 c !! k) ∨ is_Some (store st1 !! k)) as Hneed.
  { intros Hok k Hk.
    destruct (looks_up_write_settings c st2) as [_ Hall].
    rewrite Hok in Hall. specialize (Hall I).
    rewrite Forall_forall in Hall. specialize (Hall k Hk).
    rewrite C2, lookup_filled in Hall. unfold fill_entry in Hall.
    destruct (store st1 !! k); [right; eauto|by left]. }
  split; [|split].
  - intros Hok. apply Hneed.
    by destruct (write_settings c st2) as [[e|[]] st3].
  - intros k Hk Hc Hs Hok.
    assert (fst (write_settings c st2) = inr tt) as Hw
        by (by destruct (write_settings c st2) as [[e|[]] st3]).
    destruct (Hneed Hw k Hk) as [[v Hv]|[v Hv]]; congruence.
  - intros Hc Hs.
    assert (write_settings c st2 = (inl (KeyError "ccd_device_index"), st2))
      as ->.
    { unfold write_settings. unfold bind at 1. unfold dict_getitem at 1.
      by rewrite C2, lookup_filled, Hc, Hs. }
    cbn. by destruct F2 as (_ & _ & _ & _ & ->).
Qed.

End RequiredKeysOfConfigure.

(** ** What [clock_rate] does with a store that holds no number *)

Section ClockRateErrors.
Context {D : Type} `{DeviceAdapter D} `{PyRuntime}.

Lemma py_rate_float t v : py_rate t = inr v → ∃ f, v = PyFloat f.
Proof.
  unfold py_rate. destruct (py_gt_zero t) as [e|[]]; [done| |].
  - destruct t as [|b|n|f|s]; cbn; try done.
    + destruct (Num.Z_truediv 1 (Num.Z_of_bool b)); [done|].
      intros [= <-]. eauto.
    + destruct (Num.Z_truediv 1 n); [done|]. intros [= <-]. eauto.
    + intros [= <-]. eauto.
  - intros [= <-]. eauto.
Qed.

Lemma py_duration_odd (s : gmap string PyVal) :
  number_of (default (PyFloat nan) (s !! "exposure_time")) = None →
  (∃ e, py_duration s = inl e)
  ∨ (∃ t, py_duration s = inr t ∧ number_of t = None).
Proof.
  intros He. unfold py_duration.
  destruct (py_eq_str _ "ACCUMULATE").
  { destruct (py_mul_odd (default (PyFloat nan) (s !! "exposure_time"))
                (default (PyFloat nan) (s !! "number_of_accumulations")))
      as [[e ->]|[t ->]]; [by left|left; eauto|right; eauto]. }
  destruct (py_eq_str _ "KINETICS"); [|right; eauto].
  destruct (py_mul_odd (default (PyFloat nan) (s !! "exposure_time"))
              (default (PyFloat nan) (s !! "number_of_accumulations")))
    as [[e ->]|[t ->]]; [by left|left; eauto|].
  destruct (py_mul_odd (PyStr t)
              (default (PyFloat nan) (s !! "number_of_kinetics")))
    as [[e ->]|[t' ->]]; [by left|left; eauto|right; eauto].
Qed.

Lemma clock_rate_outcomes (st : state D) :
  let mode := default PyNone (store st !! "acquisition_mode") in
  snd (clock_rate st) = st
  ∧ (∀ v, fst (clock_rate st) = inr v → ∃ f, v = PyFloat f)
  ∧ (store st !! "exposure_time" = Some PyNone →
     fst (clock_rate st) = inl TypeError)
  ∧ (∀ s, store st !! "exposure_time" = Some (PyStr s) →
          ¬ is_ok (fst (clock_rate st))
          ∧ (py_eq_str mode "ACCUMULATE" = false →
             py_eq_str mode "KINETICS" = false →
             fst (clock_rate st) = inl TypeError)).
Proof.
  intros mode. rewrite clock_rate_run. cbn [fst snd].
  split; [done|]. split; [|split].
  - intros v. destruct (py_duration (store st)) as [e|t]; [done|].
    apply py_rate_float.
  - intros He. unfold py_duration. rewrite He. cbn [default].
    destruct (py_eq_str _ "ACCUMULATE"); [done|].
    by destruct (py_eq_str _ "KINETICS").
  - intros s He. split.
    + destruct (py_duration_odd (store st)) as [[e ->]|(t & -> & Ht)].
      * by rewrite He.
      * by intros [].
      * rewrite (py_rate_odd t Ht). by intros [].
    + intros Ha Hk. unfold py_duration. fold mode. rewrite Ha, Hk, He.
      done.
Qed.

(** X6: the property [clock_rate] only reads: it leaves the controller as
    it found it, whatever it returns or raises, and what it returns is a
    float.  Where the store holds [None] as the exposure time (a store
    written without a connection keeps the request's values as they came)
    it raises [TypeError] in every acquisition mode, not [nan].  Where
    the store holds a text there, it raises too: [TypeError] when the
    mode is neither ACCUMULATE nor KINETICS. *)
Theorem clock_rate_reads_only (st : state D) :
  let mode := default PyNone (store st !! "acquisition_mode") in
  snd (clock_rate st) = st
  ∧ (∀ v, fst (clock_rate st) = inr v → ∃ f, v = PyFloat f)
  ∧ (store st !! "exposure_time" = Some PyNone →
     fst (clock_rate st) = inl TypeError)
  ∧ (∀ s, store st !! "exposure_time" = Some (PyStr s) →
          ¬ is_ok (fst (clock_rate st))
          ∧ (py_eq_str mode "ACCUMULATE" = false →
             py_eq_str mode "KINETICS" = false →
             fst (clock_rate st) = inl TypeError)).
Proof. exact (clock_rate_outcomes st). Qed.

(** X12: a call of [configure] that cannot reach the device stores the
    request as it came, [None] and text included, where a call that finds
    the connection open would have filled a [None] from the store and
    stored what the device reports.  The stored exposure time is then what
    [clock_rate] computes with: after such a call with [None] for the
    exposure time [clock_rate] raises [TypeError], and after one with a
    text it raises as well. *)
Theorem unconnected_request_reaches_clock_rate c a (st st1 : state D) x :
  establish_connection open a st = (inr tt, st1) →
  dev_is_open (dev st1) = false →
  deref st1 c !! "exposure_time" = Some x →
  store (snd (configure c a st)) !! "exposure_time" = Some x
  ∧ (x = PyNone → fst (clock_rate (snd (configure c a st))) = inl TypeError)
  ∧ ((∃ s, x = PyStr s) →
     ¬ is_ok (fst (clock_rate (snd (configure c a st))))).
Proof.
  intros E1 Ho Hx.
  rewrite (configure_not_open_run c a st st1 E1 Ho). cbn [snd].
  assert (store (not_open_state c st1) !! "exposure_time" = Some x) as Hs.
  { unfold store at 1. unfold deref, not_open_state. cbn.
    rewrite lookup_total_insert_eq. apply lookup_union_Some_l. exact Hx. }
  split; [exact Hs|].
  destruct (clock_rate_outcomes (not_open_state c st1)) as (_ & _ & Hn & Ht).
  split.
  - intros ->. by apply Hn.
  - intros [s ->]. by apply (Ht s).
Qed.

End ClockRateErrors.

(** ** The wait for the sensor temperature *)

Section WaitRuns.
Context {D : Type} `{DeviceAdapter D}.

Lemma calm_bind {A B} (m : M D A) (k : A → M D B) :
  leaves_wait_alone m → (∀ a, leaves_wait_alone (k a)) →
  leaves_wait_alone (bind m k).
Proof.
  intros Hm Hk st. destruct (Hm st) as (e1 & E1 & F1). unfold bind.
  destruct (m st) as [[e|a] st'] eqn:E; simpl in *.
  - by exists e1.
  - destruct (Hk a st') as (e2 & E2 & F2). exists (e1 ++ e2).
    split; [by rewrite E2, E1, app_assoc|by apply Forall_app].
Qed.

Lemma calm_silent {A} (m : M D A) :
  (∀ st, trace (snd (m st)) = trace st) → leaves_wait_alone m.
Proof. intros Hs st. exists []. by rewrite Hs, app_nil_r. Qed.

Lemma calm_one {A} (m : M D A) (e : event) :
  wait_event e = false →
  (∀ st, trace (snd (m st)) = trace st ++ [e]) → leaves_wait_alone m.
Proof.
  intros He Hs st. exists [e]. split; [done|]. by constructor.
Qed.

Lemma calm_if {A} (b : bool) (m1 m2 : M D A) :
  leaves_wait_alone m1 → leaves_wait_alone m2 →
  leaves_wait_alone (if b then m1 else m2).
Proof. by destruct b. Qed.

Lemma calm_for_each {A} (xs : list A) (body : A → M D unit) :
  (∀ x, leaves_wait_alone (body x)) → leaves_wait_alone (for_each xs body).
Proof.
  intros Hb. induction xs as [|x xs IH]; simpl.
  - by apply calm_silent.
  - apply calm_bind; auto.
Qed.

Lemma calm_dict_getitem l k : leaves_wait_alone (D := D) (dict_getitem l k).
Proof.
  apply calm_silent. intros st. unfold dict_getitem.
  by destruct (deref st l !! k).
Qed.

Lemma calm_call e f :
  wait_event e = false → leaves_wait_alone (D := D) (call e f).
Proof. intros He. by apply (calm_one _ e). Qed.

Lemma calm_assign f v : leaves_wait_alone (D := D) (assign f v).
Proof.
  apply (calm_one _ (EvSet f v)); [done|]. intros st. unfold assign.
  by destruct (dev_set f v (dev st)).
Qed.

Lemma calm_assign_single_track r h :
  leaves_wait_alone (D := D) (assign_single_track r h).
Proof.
  apply (calm_one _ (EvSetSingleTrack r h)); [done|]. intros st.
  unfold assign_single_track. by destruct (dev_set_single_track r h (dev st)).
Qed.

End WaitRuns.

Ltac calm_step :=
  lazymatch goal with
  | |- leaves_wait_alone (bind _ _) => apply calm_bind; [| intros ?]
  | |- leaves_wait_alone (ret _) => by apply calm_silent
  | |- leaves_wait_alone (raise _) => by apply calm_silent
  | |- leaves_wait_alone (lift _) => by apply calm_silent
  | |- leaves_wait_alone (log ?l ?m) => by apply (calm_one _ (EvLog l m))
  | |- leaves_wait_alone get_last_config_dict => by apply calm_silent
  | |- leaves_wait_alone (dict_truth _) => by apply calm_silent
  | |- leaves_wait_alone (dict_get _ _ _) => by apply calm_silent
  | |- leaves_wait_alone (dict_getitem _ _) => apply calm_dict_getitem
  | |- leaves_wait_alone (dict_setitem _ _ _) => by apply calm_silent
  | |- leaves_wait_alone (dict_update _ _) => by apply calm_silent
  | |- leaves_wait_alone (dict_copy _) => by apply calm_silent
  | |- leaves_wait_alone (dict_keys _) => by apply calm_silent
  | |- leaves_wait_alone is_open => by apply calm_silent
  | |- leaves_wait_alone (call _ _) => by apply calm_call
  | |- leaves_wait_alone (assign _ _) => apply calm_assign
  | |- leaves_wait_alone (assign_single_track _ _) =>
      apply calm_assign_single_track
  | |- leaves_wait_alone (read ?f) => by apply (calm_one _ (EvGet f))
  | |- leaves_wait_alone read_single_track =>
      by apply (calm_one _ EvGetSingleTrack)
  | |- leaves_wait_alone (for_each _ _) => apply calm_for_each; intros ?
  | |- leaves_wait_alone (if _ then _ else _) => apply calm_if
  end.

Section WaitProperties.
Context {D : Type} `{DeviceAdapter D} `{PyRuntime}.

Lemma calm_close : leaves_wait_alone (D := D) close.
Proof. unfold close. repeat calm_step. Qed.

Lemma calm_write_settings c : leaves_wait_alone (D := D) (write_settings c).
Proof.
  unfold write_settings, set_horizontal_shift_speed, set_pre_amp_gain.
  repeat calm_step.
Qed.

Lemma calm_update_config_dict :
  leaves_wait_alone (D := D) update_config_dict_from_current_values.
Proof. unfold update_config_dict_from_current_values. repeat calm_step. Qed.

Lemma calm_fill_missing c : leaves_wait_alone (D := D) (fill_missing c).
Proof. unfold fill_missing, fill_key. repeat calm_step. Qed.

Lemma calm_apply_configuration c a :
  leaves_wait_alone (D := D) (apply_configuration c a).
Proof.
  unfold apply_configuration. repeat calm_step.
  all: lazymatch goal with
       | |- leaves_wait_alone (fill_missing _) => apply calm_fill_missing
       | |- leaves_wait_alone (write_settings _) => apply calm_write_settings
       | |- leaves_wait_alone update_config_dict_from_current_values =>
           apply calm_update_config_dict
       | |- leaves_wait_alone close => apply calm_close
       end.
Qed.

Lemma calm_establish_connection (o : M D bool) a :
  leaves_wait_alone o → leaves_wait_alone (establish_connection o a).
Proof. intros Ho. unfold establish_connection. repeat calm_step; done. Qed.

Lemma calm_open_with (cf : loc → bool → M D unit) :
  (∀ c a, leaves_wait_alone (cf c a)) → leaves_wait_alone (open_with cf).
Proof. intros Hc. unfold open_with. repeat calm_step; done. Qed.

Lemma calm_configure_rec n c a :
  leaves_wait_alone (D := D) (configure_rec n c a).
Proof.
  revert c a. induction n as [|n IH]; intros c a; simpl.
  - by apply calm_silent.
  - apply calm_bind; [|intros ?; apply calm_apply_configuration].
    apply calm_establish_connection, calm_open_with, IH.
Qed.

Lemma calm_open : leaves_wait_alone (D := D) open.
Proof. apply calm_open_with. intros c a. apply calm_configure_rec. Qed.

(** X7: the wait for the sensor temperature begins in [start] and
    nowhere else: [configure], [open] and [close] neither begin nor cancel
    it.  [start] begins it exactly when it returns normally, as the last
    thing it does, after the connection was opened and the stored settings
    were applied again; when [start] raises, the wait has not begun. *)
Theorem wait_begins_in_start_only c a :
  leaves_wait_alone (D := D) (configure c a)
  ∧ leaves_wait_alone (D := D) open
  ∧ leaves_wait_alone (D := D) close
  ∧ ∀ st : state D, ∃ evs,
      Forall (λ e, wait_event e = false) evs
      ∧ trace (snd (start st)) =
          trace st ++ evs ++
            match fst (start st) with
            | inr _ => [EvWaitTemperature]
            | inl _ => []
            end.
Proof.
  split; [apply calm_configure_rec|]. split; [apply calm_open|].
  split; [apply calm_close|]. intros st.
  unfold start.
  rewrite (bind_ok _ _ st tt (add_event (EvLog INFO "Starting controller.") st))
    by reflexivity.
  destruct (calm_open (add_event (EvLog INFO "Starting controller.") st))
    as (evs & E & F).
  exists (EvLog INFO "Starting controller." :: evs).
  split; [by constructor|].
  unfold bind at 1 3.
  destruct (open (add_event (EvLog INFO "Starting controller.") st))
    as [[e|b] s1].
  - cbn in *. by rewrite E, app_nil_r, <- app_assoc.
  - unfold bind, is_open. cbn in *.
    destruct (dev_is_open (dev s1)); cbn.
    + rewrite E, <- !app_assoc. done.
    + rewrite E, app_nil_r, <- !app_assoc. done.
Qed.

End WaitProperties.

(** ** Text and back *)

Section TextRoundTrip.

Lemma chars_append s1 s2 :
  list_ascii_of_string (s1 +:+ s2)
  = list_ascii_of_string s1 ++ list_ascii_of_string s2.
Proof.
  induction s1 as [|c s1 IH]; [done|].
  change (list_ascii_of_string (String c s1 +:+ s2))
    with (c :: list_ascii_of_string (s1 +:+ s2)).
  by rewrite IH.
Qed.

Lemma pretty_N_char_digit d :
  (d < 10)%N →
  Text.is_digit (pretty_N_char d) = true
  ∧ Text.digit_value (pretty_N_char d) = Z.of_N d.
Proof.
  intros Hd.
  assert (d = 0 ∨ d = 1 ∨ d = 2 ∨ d = 3 ∨ d = 4 ∨ d = 5 ∨ d = 6 ∨ d = 7
          ∨ d = 8 ∨ d = 9)%N as Hc by lia.
  repeat (destruct Hc as [->|Hc]; [by vm_compute|]). subst. by vm_compute.
Qed.

Lemma chars_pretty_N_go (P : ascii → Prop) x s :
  (∀ d, (d < 10)%N → P (pretty_N_char d)) →
  Forall P (list_ascii_of_string s) →
  Forall P (list_ascii_of_string (pretty_N_go x s)).
Proof.
  intros Hd. revert s. induction (N.lt_wf_0 x) as [x _ IH]. intros s Hs.
  assert (x = 0 ∨ 0 < x)%N as [->|Hx] by lia.
  - by rewrite pretty_N_go_0.
  - rewrite pretty_N_go_step by done. apply IH.
    + by apply N.div_lt.
    + cbn. constructor; [|done]. apply Hd. by apply N.mod_lt.
Qed.

Lemma digits_pretty_N_go x s :
  (0 < x)%N →
  ∃ p, ∀ acc seen,
    Text.digits acc seen (list_ascii_of_string (pretty_N_go x s))
    = Text.digits (acc * p + Z.of_N x) true (list_ascii_of_string s).
Proof.
  revert s. induction (N.lt_wf_0 x) as [x _ IH]. intros s Hx.
  rewrite pretty_N_go_step by done.
  destruct (pretty_N_char_digit (x `mod` 10)) as [Hd Hv];
    [by apply N.mod_lt|].
  assert (Z.of_N x = 10 * Z.of_N (x `div` 10) + Z.of_N (x `mod` 10)) as Ex.
  { pose proof (N.div_mod x 10 ltac:(done)). lia. }
  destruct (N.eq_0_gt_0_cases (x `div` 10)) as [E0|Hq].
  - exists 10. intros acc seen. rewrite E0, pretty_N_go_0. cbn.
    rewrite Hd, Hv. f_equal. rewrite Ex, E0. lia.
  - destruct (IH (x `div` 10)%N) with
      (s := String (pretty_N_char (x `mod` 10)) s) as [p Hp];
      [by apply N.div_lt|done|].
    exists (10 * p). intros acc seen. rewrite Hp. cbn.
    rewrite Hd, Hv. f_equal. rewrite Ex. lia.
Qed.

Lemma lstrip_head c l :
  Text.is_space c = false → Text.lstrip (c :: l) = c :: l.
Proof. intros Hc. cbn. by rewrite Hc. Qed.

Lemma strip_no_space l :
  Forall (λ c, Text.is_space c = false) l → Text.strip l = l.
Proof.
  intros Hl. unfold Text.strip.
  assert (∀ k, Forall (λ c, Text.is_space c = false) k → Text.lstrip k = k)
    as Hls.
  { intros [|c k] Hk; [done|]. apply lstrip_head. by inversion Hk. }
  rewrite (Hls l Hl). rewrite Hls by (by apply Forall_rev).
  apply rev_involutive.
Qed.

Lemma int_of_str_pretty_pos p :
  let l := list_ascii_of_string (pretty_N_go (N.pos p) "") in
  Text.strip l = l
  ∧ Text.digits 0 false l = Some (Z.pos p)
  ∧ ∃ c k, l = c :: k ∧ Text.is_digit c = true.
Proof.
  intros l. subst l. split; [|split].
  - apply strip_no_space. apply chars_pretty_N_go; [|by constructor].
    intros d Hd.
    assert (d = 0 ∨ d = 1 ∨ d = 2 ∨ d = 3 ∨ d = 4 ∨ d = 5 ∨ d = 6 ∨ d = 7
            ∨ d = 8 ∨ d = 9)%N as Hc by lia.
    repeat (destruct Hc as [->|Hc]; [by vm_compute|]). subst. by vm_compute.
  - destruct (digits_pretty_N_go (N.pos p) "") as [q Hq]; [lia|].
    rewrite Hq. cbn. f_equal.
  - assert (Forall (λ c, Text.is_digit c = true)
              (list_ascii_of_string (pretty_N_go (N.pos p) ""))) as Hall.
    { apply chars_pretty_N_go; [|by constructor].
      intros d Hd. by apply pretty_N_char_digit. }
    destruct (digits_pretty_N_go (N.pos p) "") as [q Hq]; [lia|].
    specialize (Hq 0 false).
    destruct (list_ascii_of_string (pretty_N_go (N.pos p) "")) as [|c k].
    + cbn in Hq. discriminate.
    + exists c, k. split; [done|]. by inversion Hall.
Qed.

Lemma int_of_str_pretty (n : Z) : Text.int_of_str (pretty n) = Some n.
Proof.
  destruct n as [|p|p].
  - by vm_compute.
  - change (pretty (Z.pos p)) with (pretty_N_go (N.pos p) "").
    destruct (int_of_str_pretty_pos p) as (Hs & Hd & c & k & Ek & Hc).
    unfold Text.int_of_str. rewrite Hs, Ek. rewrite Ek in Hd.
    destruct (Ascii.eqb_spec c "-"); [subst; by vm_compute in Hc|].
    destruct (Ascii.eqb_spec c "+"); [subst; by vm_compute in Hc|].
    done.
  - change (pretty (Z.neg p)) with ("-" +:+ pretty_N_go (N.pos p) "").
    destruct (int_of_str_pretty_pos p) as (Hs & Hd & c & k & Ek & Hc).
    unfold Text.int_of_str.
    change (list_ascii_of_string ("-" +:+ pretty_N_go (N.pos p) ""))
      with ("-"%char :: list_ascii_of_string (pretty_N_go (N.pos p) "")).
    rewrite strip_no_space.
    + cbv beta iota. change (Ascii.eqb "-"%char "-"%char) with true.
      cbv iota. by rewrite Hd.
    + constructor; [done|]. apply chars_pretty_N_go; [|by constructor].
      intros d Hd'.
      assert (d = 0 ∨ d = 1 ∨ d = 2 ∨ d = 3 ∨ d = 4 ∨ d = 5 ∨ d = 6 ∨ d = 7
              ∨ d = 8 ∨ d = 9)%N as Hx by lia.
      repeat (destruct Hx as [->|Hx]; [by vm_compute|]). subst. by vm_compute.
Qed.

Lemma plain_pretty (n : Z) : plain (pretty n).
Proof.
  assert (∀ d, (d < 10)%N →
            Ascii.eqb (pretty_N_char d) " " = false
            ∧ Ascii.eqb (pretty_N_char d) "," = false) as Hdig.
  { intros d Hd.
    assert (d = 0 ∨ d = 1 ∨ d = 2 ∨ d = 3 ∨ d = 4 ∨ d = 5 ∨ d = 6 ∨ d = 7
            ∨ d = 8 ∨ d = 9)%N as Hx by lia.
    repeat (destruct Hx as [->|Hx]; [by vm_compute|]). subst. by vm_compute. }
  unfold plain. destruct n as [|p|p].
  - by repeat constructor.
  - change (pretty (Z.pos p)) with (pretty_N_go (N.pos p) "").
    apply chars_pretty_N_go; [done|by constructor].
  - change (pretty (Z.neg p)) with ("-" +:+ pretty_N_go (N.pos p) "").
    change (list_ascii_of_string ("-" +:+ pretty_N_go (N.pos p) ""))
      with ("-"%char :: list_ascii_of_string (pretty_N_go (N.pos p) "")).
    constructor; [done|]. apply chars_pretty_N_go; [done|by constructor].
Qed.

End TextRoundTrip.

Section CompoundText.
Context `{PyRuntime}.

Lemma filter_spaces_plain s :
  plain s →
  filter (λ c, negb (Ascii.eqb c " "%char)) (list_ascii_of_string s)
  = list_ascii_of_string s.
Proof.
  unfold plain. induction 1 as [|c l [Hs _] _ IH]; [done|].
  rewrite filter_cons_True by (by rewrite Hs). by rewrite IH.
Qed.

Lemma split_commas_plain s cur rest :
  plain s →
  Text.split_commas cur (list_ascii_of_string s ++ rest)
  = Text.split_commas (rev (list_ascii_of_string s) ++ cur) rest.
Proof.
  unfold plain. revert cur.
  induction (list_ascii_of_string s) as [|c l IH]; intros cur Hp; [done|].
  inversion Hp as [|? ? [_ Hc] Hl]; subst. cbn [app Text.split_commas].
  rewrite Hc, IH by done. cbn [rev]. by rewrite <- app_assoc.
Qed.

Lemma split_commas_end s :
  Text.split_commas (rev (list_ascii_of_string s) ++ []) [] = [s].
Proof.
  cbn. by rewrite app_nil_r, rev_involutive, string_of_list_ascii_of_string.
Qed.

Lemma split_commas_comma s rest :
  Text.split_commas (rev (list_ascii_of_string s) ++ []) (","%char :: rest)
  = s :: Text.split_commas [] rest.
Proof.
  cbn. by rewrite app_nil_r, rev_involutive, string_of_list_ascii_of_string.
Qed.

Lemma hss_pieces_str_tuple3 a b c :
  plain (py_repr a) → plain (py_repr b) → plain (py_repr c) →
  hss_pieces (PyStr (str_tuple3 a b c))
  = inr [py_repr a; py_repr b; py_repr c].
Proof.
  intros Ha Hb Hc. unfold hss_pieces, str_tuple3. f_equal.
  set (A := py_repr a) in *. set (B := py_repr b) in *.
  set (C := py_repr c) in *.
  assert (Text.slice_1_m1 ("(" +:+ A +:+ ", " +:+ B +:+ ", " +:+ C +:+ ")")
          = A +:+ ", " +:+ B +:+ ", " +:+ C) as ->.
  { unfold Text.slice_1_m1.
    rewrite <- (string_of_list_ascii_of_string
                  (A +:+ ", " +:+ B +:+ ", " +:+ C)). f_equal.
    change (list_ascii_of_string
              ("(" +:+ A +:+ ", " +:+ B +:+ ", " +:+ C +:+ ")"))
      with ("("%char ::
              list_ascii_of_string (A +:+ ", " +:+ B +:+ ", " +:+ C +:+ ")")).
    cbn [tl]. rewrite !chars_append.
    change (list_ascii_of_string ")") with [")"%char].
    rewrite !app_assoc. apply removelast_last. }
  unfold Text.remove_spaces, Text.split. rewrite !chars_append.
  rewrite !filter_app.
  rewrite (filter_spaces_plain A Ha), (filter_spaces_plain B Hb),
    (filter_spaces_plain C Hc).
  change (filter _ (list_ascii_of_string ", ")) with [","%char].
  rewrite list_ascii_of_string_of_list_ascii.
  rewrite (split_commas_plain A [] _ Ha).
  change ([","%char] ++ ?l) with (","%char :: l).
  cbn [app].
  rewrite split_commas_comma.
  rewrite (split_commas_plain B [] _ Hb). cbn [app].
  rewrite split_commas_comma.
  rewrite <- (app_nil_r (list_ascii_of_string C)).
  rewrite (split_commas_plain C [] [] Hc).
  by rewrite split_commas_end.
Qed.

End CompoundText.

(** ** What the read-back stores, given back to [configure] *)

Ltac find_stored :=
  unfold stored_settings;
  repeat first [apply list_elem_of_here | apply list_elem_of_further].

Section StoredTextBack.
Context {D : Type} `{DeviceAdapter D} `{PyRuntime}.

Lemma bind_lift_ok {A B} (x : A) (k : A → M D B) st :
  bind (lift (inr x)) k st = k x st.
Proof. reflexivity. Qed.

Lemma bind_ext {A B} (m : M D A) (k1 k2 : A → M D B) st :
  (∀ x s, k1 x s = k2 x s) → bind m k1 st = bind m k2 st.
Proof. intros Hk. unfold bind. destruct (m st) as [[e|x] s]; [done|apply Hk]. Qed.

Lemma device_index_of_text n :
  device_index (PyStr (py_str (PyInt n))) = inr (PyInt n).
Proof.
  unfold device_index, py_int, py_str. cbn [is_None].
  by rewrite int_of_str_pretty.
Qed.

Lemma int_val_of_text n : int_val (PyStr (pretty n)) = inr (PyInt n).
Proof. unfold int_val, py_int. by rewrite int_of_str_pretty. Qed.

Lemma write_settings_first c (st : state D) v w :
  deref st c !! "ccd_device_index" = Some v →
  device_index v = inr w →
  ∃ rest, trace (snd (write_settings c st))
          = trace st ++ EvSet ccd_device_index w :: rest.
Proof.
  intros Hv Hw. unfold write_settings.
  rewrite bind_getitem, Hv, bind_lift, Hw, bind_assign. cbv beta.
  destruct (dev_set ccd_device_index w (dev st)) as [e|d]; [by exists []|].
  match goal with |- context [snd (?m ?s)] =>
    assert (extends m) as Hext; [|destruct (Hext s) as [evs ->]] end.
  { unfold set_horizontal_shift_speed, set_pre_amp_gain. repeat ext_step. }
  exists evs. cbn. by rewrite <- app_assoc.
Qed.

Lemma configure_after_writes c a (st st1 : state D) :
  establish_connection open a st = (inr tt, st1) →
  dev_is_open (dev st1) = true →
  ∃ tail, trace (snd (configure c a st))
          = trace (written_state c st1) ++ tail.
Proof.
  intros E1 Ho. rewrite (configure_open_run c a st st1 E1 Ho).
  rewrite configured_unfold.
  destruct (fst (write_settings c (filled_state c st1))) as [e|[]].
  - exists []. by rewrite app_nil_r.
  - destruct a.
    + destruct (close_events (read_back_state (written_state c st1)))
        as (post & Ep & _).
      exists (all_reads ++ post). cbn [snd]. rewrite Ep.
      cbn [trace read_back_state restored]. by rewrite <- app_assoc.
    + by exists all_reads.
Qed.

Lemma stored_index_text (d : D) v :
  ("ccd_device_index", v) ∈ stored_settings d →
  v = PyStr (py_str (dev_get ccd_device_index d)).
Proof.
  intros Hin.
  pose proof (read_back_lookup d ∅ _ _ Hin) as E1.
  assert (("ccd_device_index", PyStr (py_str (dev_get ccd_device_index d)))
          ∈ stored_settings d) as Hin' by find_stored.
  pose proof (read_back_lookup d ∅ _ _ Hin') as E2.
  congruence.
Qed.

(** X8: the read-back stores the index of the camera as text, and a
    later [configure] that leaves the index to the store converts that
    text with [int] before anything else.  Where the device reported an
    integer (of at most 4300 digits, the most [str] and [int] take), the
    first assignment of the later call is that integer again.  Where the
    device reported [None], the store holds the text ["None"], which is
    not the [None] that [configure] replaces by [-1]: the later call
    raises [ValueError] before it assigns anything. *)
Theorem device_index_text_round_trip (d : D) c a (st st1 : state D) v :
  establish_connection open a st = (inr tt, st1) →
  dev_is_open (dev st1) = true →
  ("ccd_device_index", v) ∈ stored_settings d →
  store st1 !! "ccd_device_index" = Some v →
  deref st1 c !! "ccd_device_index" = None
  ∨ deref st1 c !! "ccd_device_index" = Some PyNone →
  (∀ n, dev_get ccd_device_index d = PyInt n → Z.abs n < 10 ^ 4300 →
        ∃ rest, trace (snd (configure c a st))
                = trace st1 ++ EvSet ccd_device_index (PyInt n) :: rest)
  ∧ (dev_get ccd_device_index d = PyNone →
     device_index (dev_get ccd_device_index d) = inr (PyInt (-1))
     ∧ fst (configure c a st) = inl (ValueError (InvalidIntLiteral "None"))
     ∧ trace (snd (configure c a st)) = trace st1).
Proof.
  intros E1 Ho Hin Hs Hc. apply stored_index_text in Hin as ->.
  assert (deref (filled_state c st1) c !! "ccd_device_index"
          = Some (PyStr (py_str (dev_get ccd_device_index d)))) as Hf.
  { rewrite deref_filled_state, lookup_filled, Hs. cbn.
    by destruct Hc as [->| ->]. }
  destruct (store_filled_state c st1) as (_ & _ & Et & _).
  split.
  - intros n Hn _. rewrite Hn in Hf.
    destruct (write_settings_first c (filled_state c st1) _ (PyInt n) Hf
                (device_index_of_text n)) as [rest Er].
    destruct (configure_after_writes c a st st1 E1 Ho) as [tail ->].
    unfold written_state. rewrite Er, Et.
    exists (rest ++ tail). by rewrite <- app_assoc.
  - intros Hn. rewrite Hn in Hf |- *. split; [done|].
    rewrite (configure_open_run c a st st1 E1 Ho), configured_unfold.
    assert (write_settings c (filled_state c st1)
            = (inl (ValueError (InvalidIntLiteral "None")),
               filled_state c st1)) as Ew.
    { unfold write_settings. rewrite bind_getitem, Hf, bind_lift.
      reflexivity. }
    unfold written_state. rewrite Ew. cbn [fst snd]. by split.
Qed.

(** X9: the read-back stores the A/D channel, the output amplifier and
    the horizontal shift speed as the text of a tuple, and [configure]
    takes that text apart again.  For a device that reports two integers
    and a float whose text the runtime reads back, [configure] assigns
    from the stored text the three values the device reported, in the
    order channel, amplifier, speed. *)
Theorem shift_speed_text_round_trip (d : D) a b f :
  dev_get ad_channel d = PyInt a →
  dev_get output_amplifier d = PyInt b →
  dev_get horizontal_shift_speed d = PyFloat f →
  plain (float_repr f) →
  float_of_str (float_repr f) = Some f →
  ∃ v, ("horizontal_shift_speed", v) ∈ stored_settings d
       ∧ ∀ st : state D,
           set_horizontal_shift_speed v st =
             (assign ad_channel (PyInt a);;
              assign output_amplifier (PyInt b);;
              assign horizontal_shift_speed (PyFloat f)) st.
Proof.
  intros Ea Eb Ef Hp Hr. eexists. split.
  { find_stored. }
  intros st. rewrite Ea, Eb, Ef. unfold set_horizontal_shift_speed.
  cbn [is_None negb].
  rewrite hss_pieces_str_tuple3 by (try apply plain_pretty; exact Hp).
  cbn [py_repr py_str]. rewrite bind_lift_ok.
  change (py_index [pretty a; pretty b; float_repr f] 0)
    with (@inr exn PyVal (PyStr (pretty a))).
  rewrite bind_lift_ok, int_val_of_text, bind_lift_ok.
  apply bind_ext. intros _ s1.
  change (py_index [pretty a; pretty b; float_repr f] 1)
    with (@inr exn PyVal (PyStr (pretty b))).
  rewrite bind_lift_ok, int_val_of_text, bind_lift_ok.
  apply bind_ext. intros _ s2.
  change (py_index [pretty a; pretty b; float_repr f] 2)
    with (@inr exn PyVal (PyStr (float_repr f))).
  rewrite bind_lift_ok. unfold float_val, py_float. rewrite Hr.
  by rewrite bind_lift_ok.
Qed.

(** X10: the three parts of the horizontal shift speed are assigned one
    by one, each as soon as it is converted: when the text has no third
    part, or one that [float] does not take, [configure] raises after the
    A/D channel and the output amplifier were assigned. *)
Theorem shift_speed_assigned_piecewise v x y rest n m (st : state D) d1 d2 :
  hss_pieces v = inr (x :: y :: rest) →
  int_val (PyStr x) = inr n →
  int_val (PyStr y) = inr m →
  dev_set ad_channel n (dev st) = inr d1 →
  dev_set output_amplifier m d1 = inr d2 →
  (∀ z, rest !! 0%nat = Some z → ¬ is_ok (float_val (PyStr z))) →
  ∃ e, set_horizontal_shift_speed v st =
         (inl e, set_dev d2 (add_event (EvSet output_amplifier m)
                               (add_event (EvSet ad_channel n) st)))
       ∧ (rest = [] → e = IndexError).
Proof.
  intros Hv Hx Hy H1 H2 Hz. unfold set_horizontal_shift_speed.
  assert (is_None v = false) as -> by (by destruct v).
  cbn [negb]. rewrite Hv.
  unfold bind at 1, lift at 1. cbv beta iota.
  unfold bind at 1, lift at 1, py_index at 1. cbn [lookup list_lookup].
  cbv beta iota.
  unfold bind at 1, lift at 1. rewrite Hx. cbv beta iota.
  unfold bind at 1, assign at 1. rewrite H1. cbv beta iota zeta.
  unfold bind at 1, lift at 1, py_index at 1. cbn [lookup list_lookup].
  cbv beta iota.
  unfold bind at 1, lift at 1. rewrite Hy. cbv beta iota.
  unfold bind at 1, assign at 1.
  change (dev (set_dev d1 (add_event (EvSet ad_channel n) st))) with d1.
  rewrite H2. cbv beta iota zeta.
  unfold bind at 1, lift at 1, py_index at 1. cbn [lookup list_lookup].
  destruct rest as [|z rest].
  - cbn. eexists. split; [reflexivity|done].
  - cbn [lookup list_lookup]. cbv beta iota.
    unfold bind at 1, lift at 1.
    specialize (Hz z eq_refl).
    destruct (float_val (PyStr z)) as [e|w]; [|by destruct Hz].
    eexists. split; [reflexivity|done].
Qed.

End StoredTextBack.

(** ** Sampling *)

Section SamplingProperties.
Context {D R : Type} `{DeviceAdapter D} `{PyRuntime} `{Acquisition D R}.

Lemma sample_spectrum_run (st : state D) :
  let mode := dev_get acquisition_mode (dev st) in
  let st1 := add_event (EvGet acquisition_mode)
               (add_event (EvLog DEBUG "Sampling Spectrum") st) in
  sample_spectrum (R := R) st =
    match acquisition_kind mode with
    | Some kind => acquire kind st1
    | None => (inr None, st1)
    end.
Proof.
  cbv zeta. unfold acquisition_kind.
  change (sample_spectrum st) with
    ((if py_eq_str (dev_get acquisition_mode (dev st)) "SINGLE_SCAN"
      then acquire "single"
      else if py_eq_str (dev_get acquisition_mode (dev st)) "ACCUMULATE"
           then acquire "accumulation"
      else if py_eq_str (dev_get acquisition_mode (dev st)) "KINETICS"
           then acquire "kinetic series"
      else ret None)
       (add_event (EvGet acquisition_mode)
          (add_event (EvLog DEBUG "Sampling Spectrum") st))).
  destruct (py_eq_str _ "SINGLE_SCAN"); [done|].
  destruct (py_eq_str _ "ACCUMULATE"); [done|].
  by destruct (py_eq_str _ "KINETICS").
Qed.

Lemma acquire_run kind (s : state D) :
  fst (acquire (R := R) kind s) = fst (daq_acquire kind (dev s))
  ∧ dev (snd (acquire (R := R) kind s)) = snd (daq_acquire kind (dev s))
  ∧ heap (snd (acquire (R := R) kind s)) = heap s
  ∧ trace (snd (acquire (R := R) kind s)) = trace s.
Proof.
  unfold acquire. by destruct (daq_acquire kind (dev s)) as [r d].
Qed.

(** X11: [sample_spectrum] goes by the acquisition mode the device
    reports, not by the one in the store.  In the modes [SINGLE_SCAN],
    [ACCUMULATE] and [KINETICS] it calls [acquire] with the kind that goes
    with the mode, once, and what it returns or raises is what [acquire]
    returned or raised, [None] included; in every other mode it returns
    [None] and leaves the device as it was.  It changes no dictionary,
    and two controllers with the same device give the same outcome
    whatever their stores hold. *)
Theorem sample_spectrum_follows_device (st st' : state D) :
  let mode := dev_get acquisition_mode (dev st) in
  let st1 := add_event (EvGet acquisition_mode)
               (add_event (EvLog DEBUG "Sampling Spectrum") st) in
  (∀ kind, acquisition_kind mode = Some kind →
           fst (sample_spectrum (R := R) st) = fst (daq_acquire kind (dev st))
           ∧ dev (snd (sample_spectrum (R := R) st))
             = snd (daq_acquire kind (dev st)))
  ∧ (acquisition_kind mode = None →
     sample_spectrum (R := R) st = (inr None, st1))
  ∧ heap (snd (sample_spectrum (R := R) st)) = heap st
  ∧ trace (snd (sample_spectrum (R := R) st)) = trace st1
  ∧ (dev st' = dev st →
     fst (sample_spectrum (R := R) st') = fst (sample_spectrum (R := R) st)
     ∧ dev (snd (sample_spectrum (R := R) st'))
       = dev (snd (sample_spectrum (R := R) st))).
Proof.
  intros mode st1.
  split; [|split; [|split; [|split]]].
  - intros kind Hk. rewrite sample_spectrum_run. cbv zeta. fold mode.
    rewrite Hk. destruct (acquire_run kind st1) as (Ef & Ed & _).
    by split.
  - intros Hk. rewrite sample_spectrum_run. cbv zeta. fold mode.
    by rewrite Hk.
  - rewrite sample_spectrum_run. cbv zeta.
    destruct (acquisition_kind _) as [kind|]; [|done].
    destruct (acquire_run kind st1) as (_ & _ & Eh & _). exact Eh.
  - rewrite sample_spectrum_run. cbv zeta.
    destruct (acquisition_kind _) as [kind|]; [|done].
    destruct (acquire_run kind st1) as (_ & _ & _ & Et). exact Et.
  - intros Ed. rewrite (sample_spectrum_run st), (sample_spectrum_run st').
    cbv zeta. rewrite Ed.
    destruct (acquisition_kind _) as [kind|]; [|by split].
    set (s1' := add_event (EvGet acquisition_mode)
                  (add_event (EvLog DEBUG "Sampling Spectrum") st')).
    destruct (acquire_run kind st1) as (Ef & Edv & _).
    destruct (acquire_run kind s1') as (Ef' & Edv' & _).
    fold st1. rewrite Ef, Edv, Ef', Edv'.
    change (dev s1') with (dev st'). change (dev st1) with (dev st).
    by rewrite Ed.
Qed.

End SamplingProperties.

(** * More examples *)

Module MoreExamples.
Import Bench Rig.

(** Reopening after a first configuration: the nested [configure] does
    not call [open] again. *)
Lemma nesting_is_two_deep_witness :
  configure_rec 4 1%nat false reopen_run
  = apply_configuration 1%nat false (entered reopen_run).
Proof.
  destruct (nesting_is_two_deep 3 1%nat false reopen_run) as (_ & _ & Hin).
  apply Hin. vm_compute. reflexivity.
Defined.

(** After the first call from the settings file the store holds what the
    device reports. *)
Lemma store_is_device_state_after_configure_witness :
  let st1 := snd (establish_connection open true first_run) in
  store (snd (configure 1%nat true first_run)) !! "grating"
  = Some (dev_get current_grating (dev (written_state 1%nat st1))).
Proof.
  cbv zeta.
  destruct (store_is_device_state_after_configure 1%nat true first_run
              (snd (establish_connection open true first_run)))
    as (_ & Hkey & _);
    [apply run_eq; vm_compute; reflexivity|vm_compute; reflexivity
    |vm_compute; reflexivity|].
  apply Hkey. find_stored.
Defined.

(** A settings file whose gain is no number. *)
Lemma failed_configure_keeps_store_witness :
  let st := with_entry "pre_amp_gain" (PyStr "abc") in
  store (snd (configure 1%nat true st))
  = store (snd (establish_connection open true st)).
Proof.
  cbv zeta.
  destruct (failed_configure_keeps_store 1%nat true
              (with_entry "pre_amp_gain" (PyStr "abc"))
              (snd (establish_connection open true
                      (with_entry "pre_amp_gain" (PyStr "abc"))))
              (ValueError (InvalidFloatLiteral "abc")))
    as [Hs _];
    [apply run_eq; vm_compute; reflexivity|vm_compute; reflexivity
    |vm_compute; reflexivity|].
  exact Hs.
Defined.

(** Settings files that lack the grating, and the first key. *)
Lemma configure_needs_every_key_witness :
  ¬ is_ok (fst (configure 1%nat true (without_key "grating")))
  ∧ fst (configure 1%nat true (without_key "ccd_device_index"))
    = inl (KeyError "ccd_device_index").
Proof.
  split.
  - destruct (configure_needs_every_key 1%nat true (without_key "grating")
                (snd (establish_connection open true (without_key "grating"))))
      as (_ & Hmiss & _);
      [apply run_eq; vm_compute; reflexivity|vm_compute; reflexivity|].
    apply (Hmiss "grating");
      [unfold required_keys;
       repeat first [apply list_elem_of_here | apply list_elem_of_further]
      |vm_compute; reflexivity|vm_compute; reflexivity].
  - destruct (configure_needs_every_key 1%nat true
                (without_key "ccd_device_index")
                (snd (establish_connection open true
                        (without_key "ccd_device_index"))))
      as (_ & _ & Hfirst);
      [apply run_eq; vm_compute; reflexivity|vm_compute; reflexivity|].
    destruct Hfirst as [Hk _];
      [vm_compute; reflexivity|vm_compute; reflexivity|exact Hk].
Defined.

(** A kinetic series with no exposure time to multiply, a single scan
    whose exposure time is a text, and a series of accumulations of
    one. *)
Lemma clock_rate_reads_only_witness :
  fst (clock_rate (exposure_stored PyNone (PyStr "KINETICS"))) = inl TypeError
  ∧ fst (clock_rate (exposure_stored (PyStr "0.5") (PyStr "SINGLE_SCAN")))
    = inl TypeError
  ∧ ¬ is_ok (fst (clock_rate
                    (exposure_stored (PyStr "0.5") (PyStr "ACCUMULATE")))).
Proof.
  split; [|split].
  - destruct (clock_rate_reads_only
                (exposure_stored PyNone (PyStr "KINETICS")))
      as (_ & _ & Hnone & _).
    apply Hnone. vm_compute. reflexivity.
  - destruct (clock_rate_reads_only
                (exposure_stored (PyStr "0.5") (PyStr "SINGLE_SCAN")))
      as (_ & _ & _ & Htext).
    destruct (Htext "0.5") as [_ Hsingle]; [vm_compute; reflexivity|].
    apply Hsingle; vm_compute; reflexivity.
  - destruct (clock_rate_reads_only
                (exposure_stored (PyStr "0.5") (PyStr "ACCUMULATE")))
      as (_ & _ & _ & Htext).
    destruct (Htext "0.5") as [Hraise _]; [vm_compute; reflexivity|].
    exact Hraise.
Defined.

(** A second call that leaves the index of the camera to the store,
    which holds the text of 0; and a store that holds the text of
    [None]. *)
Lemma device_index_text_round_trip_witness :
  let st1 := snd (establish_connection open true configured_once) in
  let st := with_store connected_device
              {[ "ccd_device_index" := PyStr "None" ]} ∅ in
  (∃ rest, trace (snd (configure 1%nat true configured_once))
           = trace st1 ++ EvSet ccd_device_index (PyInt 0) :: rest)
  ∧ fst (configure 1%nat false st)
    = inl (ValueError (InvalidIntLiteral "None")).
Proof.
  cbv zeta. split.
  - destruct (device_index_text_round_trip
                (dev (snd (establish_connection open true configured_once)))
                1%nat true configured_once
                (snd (establish_connection open true configured_once))
                (PyStr "0"))
      as [Hint _];
      [apply run_eq; vm_compute; reflexivity|vm_compute; reflexivity
      |vm_compute; apply list_elem_of_here|vm_compute; reflexivity
      |left; vm_compute; reflexivity|].
    apply (Hint 0); vm_compute; reflexivity.
  - destruct (device_index_text_round_trip connected_device 1%nat false
                (with_store connected_device
                   {[ "ccd_device_index" := PyStr "None" ]} ∅)
                (snd (establish_connection open false
                        (with_store connected_device
                           {[ "ccd_device_index" := PyStr "None" ]} ∅)))
                (PyStr "None"))
      as [_ Hnone];
      [apply run_eq; vm_compute; reflexivity|vm_compute; reflexivity
      |vm_compute; apply list_elem_of_here|vm_compute; reflexivity
      |left; vm_compute; reflexivity|].
    destruct Hnone as (_ & Hraise & _); [vm_compute; reflexivity|].
    exact Hraise.
Defined.

(** The device after the first configuration: channel 0, amplifier 1 and
    a speed of 3.0. *)
Lemma shift_speed_text_round_trip_witness :
  ∃ v, ("horizontal_shift_speed", v) ∈ stored_settings (dev reopen_run)
       ∧ ∀ st : state device,
           set_horizontal_shift_speed v st =
             (assign ad_channel (PyInt 0);;
              assign output_amplifier (PyInt 1);;
              assign horizontal_shift_speed (PyFloat 3)) st.
Proof.
  apply (shift_speed_text_round_trip (dev reopen_run) 0 1 3%float).
  - vm_compute. reflexivity.
  - vm_compute. reflexivity.
  - vm_compute. reflexivity.
  - vm_compute. repeat constructor.
  - vm_compute. reflexivity.
Defined.

(** A text of two parts. *)
Lemma shift_speed_assigned_piecewise_witness :
  let st := with_config connected_device ∅ in
  fst (set_horizontal_shift_speed (PyStr "(0, 1)") st) = inl IndexError
  ∧ dev_get ad_channel
      (dev (snd (set_horizontal_shift_speed (PyStr "(0, 1)") st))) = PyInt 0.
Proof.
  cbv zeta.
  destruct (shift_speed_assigned_piecewise (PyStr "(0, 1)") "0" "1" []
              (PyInt 0) (PyInt 1) (with_config connected_device ∅)
              (mkDevice true true true
                 (<[write_order ad_channel := PyInt 0]> ∅) (PyNone, PyNone))
              (mkDevice true true true
                 (<[write_order output_amplifier := PyInt 1]>
                    (<[write_order ad_channel := PyInt 0]> ∅))
                 (PyNone, PyNone)))
    as (e & Hrun & He);
    [vm_compute; reflexivity|vm_compute; reflexivity|vm_compute; reflexivity
    |vm_compute; reflexivity|vm_compute; reflexivity
    |intros z Hz; discriminate Hz|].
  rewrite Hrun, (He eq_refl). split; [reflexivity|vm_compute; reflexivity].
Defined.

(** A device in a mode [sample_spectrum] does not know, and one in a
    mode it knows. *)
Lemma sample_spectrum_follows_device_witness :
  fst (sample_spectrum (in_mode (PyStr "FAST_KINETICS"))) = inr None
  ∧ dev (snd (sample_spectrum (in_mode (PyStr "FAST_KINETICS"))))
    = dev (in_mode (PyStr "FAST_KINETICS"))
  ∧ fst (sample_spectrum (in_mode (PyStr "KINETICS")))
    = inr (Some "kinetic series").
Proof.
  destruct (sample_spectrum_follows_device (R := string)
              (in_mode (PyStr "FAST_KINETICS")) (in_mode (PyStr "FAST_KINETICS")))
    as (_ & Hnone & _).
  destruct (sample_spectrum_follows_device (R := string)
              (in_mode (PyStr "KINETICS")) (in_mode (PyStr "KINETICS")))
    as (Hsome & _).
  rewrite Hnone by (vm_compute; reflexivity).
  split; [reflexivity|]. split; [reflexivity|].
  destruct (Hsome "kinetic series") as [Hf _]; [vm_compute; reflexivity|].
  rewrite Hf. vm_compute. reflexivity.
Defined.

(** A request without an exposure time, made while the connection is
    closed. *)
Lemma unconnected_request_reaches_clock_rate_witness :
  store (snd (configure 1%nat false blank_exposure)) !! "exposure_time"
    = Some PyNone
  ∧ fst (clock_rate (snd (configure 1%nat false blank_exposure)))
    = inl TypeError.
Proof.
  destruct (unconnected_request_reaches_clock_rate 1%nat false blank_exposure
              (snd (establish_connection open false blank_exposure)) PyNone)
    as (Hs & Hnone & _);
    [apply run_eq; vm_compute; reflexivity|vm_compute; reflexivity
    |vm_compute; reflexivity|].
  split; [exact Hs|]. apply Hnone. reflexivity.
Defined.

End MoreExamples.
